(** * EarwigBot wiki toolset: the [Page] class (earwigbot/wiki/page.py)

    A shallow embedding of [Page]: its lazily synchronised attribute
    cache, redirect resolution, content retrieval and the edit
    transaction, over an abstract remote [Site].  Python statements that
    mutate [self] become state passing on a [Page] record; calls on the
    site object are logged as events, so that theorems can count remote
    queries and logins; exceptions are an explicit outcome that keeps
    the mutated state, as in Python. *)

From Stdlib Require Import ZArith String Ascii List Lia.
From stdpp Require Import base option gmap strings list.

Local Open Scope string_scope.

(** ** Python strings *)

Module PyStr.

(** [str.isspace] for byte strings: space, \t, \n, \v, \f, \r. *)
Definition is_space (c : ascii) : bool :=
  let n := nat_of_ascii c in
  (n =? 32)%nat || ((9 <=? n)%nat && (n <=? 13)%nat).

Fixpoint lstrip (s : string) : string :=
  match s with
  | String c r => if is_space c then lstrip r else s
  | EmptyString => EmptyString
  end.

Fixpoint rstrip (s : string) : string :=
  match s with
  | EmptyString => EmptyString
  | String c r =>
      match rstrip r with
      | EmptyString => if is_space c then EmptyString else String c EmptyString
      | r' => String c r'
      end
  end.

(** [s.strip()] *)
Definition strip (s : string) : string := rstrip (lstrip s).

(** [s.split(":", 1)[0]]: everything before the first colon. *)
Fixpoint before_colon (s : string) : string :=
  match s with
  | EmptyString => EmptyString
  | String c r => if Ascii.eqb c ":" then EmptyString else String c (before_colon r)
  end.

(** ASCII lower-casing of one character, as [re.I] compares them. *)
Definition lower (c : ascii) : ascii :=
  let n := nat_of_ascii c in
  if (65 <=? n)%nat && (n <=? 90)%nat then ascii_of_nat (n + 32) else c.

(** Consume the literal [lit] (given in lower case) at the head of [s],
    ignoring case; the rest of [s] on success. *)
Fixpoint eat_nocase (lit s : string) : option string :=
  match lit, s with
  | EmptyString, _ => Some s
  | String a lit', String c s' =>
      if Ascii.eqb a (lower c) then eat_nocase lit' s' else None
  | String _ _, EmptyString => None
  end.

(** The lazy group [(.*?)] followed by [\]\]]: the shortest run of
    characters other than newline that is followed by two closing
    brackets. *)
Fixpoint until_close (s : string) : option string :=
  match s with
  | EmptyString => None
  | String c r =>
      if String.prefix "]]" s then Some EmptyString
      else if Ascii.eqb c "010" then None
      else option_map (String c) (until_close r)
  end.

(** [re.findall(Page.re_redirect, content, flags=re.I)], where
    [re_redirect = "^\s*\#\s*redirect\s*\[\[(.*?)\]\]"].  The pattern is
    anchored at the start of the string (no [re.M]), so there is at
    most one match; [None] stands for the empty list. *)
Definition findall_re_redirect (content : string) : option string :=
  match lstrip content with
  | String "#" r =>
      match eat_nocase "redirect" (lstrip r) with
      | Some r' =>
          match lstrip r' with
          | String "[" (String "[" body) => until_close body
          | _ => None
          end
      | None => None
      end
  | _ => None
  end.


(** [s.split(":", 1)[1]]: everything after the first colon; [None]
    stands for the [IndexError] of a title without colon. *)
Fixpoint after_colon (s : string) : option string :=
  match s with
  | EmptyString => None
  | String c r => if Ascii.eqb c ":" then Some r else after_colon r
  end.

(** [s.replace(old, new)] for single characters [old] and [new]. *)
Fixpoint replace_char (old new : ascii) (s : string) : string :=
  match s with
  | EmptyString => EmptyString
  | String c r =>
      String (if Ascii.eqb c old then new else c) (replace_char old new r)
  end.

(** [s.replace(old, new)] for a non-empty [old]: the occurrences of
    [old] are found from left to right and do not overlap.  [skip]
    counts the characters of a match that are still to be passed
    over. *)
Fixpoint replace_from (old new : string) (skip : nat) (s : string) : string :=
  match s with
  | EmptyString => EmptyString
  | String c r =>
      match skip with
      | S k => replace_from old new k r
      | O =>
          if String.prefix old s
          then new ++ replace_from old new (String.length old - 1) r
          else String c (replace_from old new 0 r)
      end
  end.

Definition replace (old new s : string) : string := replace_from old new 0 s.

(** [urllib.quote(s, safe)] of Python 2 on a byte string: letters,
    digits, "_", "." and "-" are always kept, the characters of [safe]
    too, and every other byte becomes "%XX" in upper-case hexadecimal. *)
Definition always_safe (c : ascii) : bool :=
  let n := nat_of_ascii c in
  ((65 <=? n) && (n <=? 90) || (97 <=? n) && (n <=? 122)
   || (48 <=? n) && (n <=? 57))%nat
  || Ascii.eqb c "_" || Ascii.eqb c "." || Ascii.eqb c "-".

Definition hex_digit (n : nat) : ascii :=
  if (n <? 10)%nat then ascii_of_nat (48 + n) else ascii_of_nat (55 + n).

Definition percent_escape (c : ascii) : string :=
  let n := nat_of_ascii c in
  String "%" (String (hex_digit (n / 16)) (String (hex_digit (n mod 16)) EmptyString)).

Definition char_in (c : ascii) (s : string) : bool :=
  existsb (Ascii.eqb c) (list_ascii_of_string s).

Fixpoint quote (safe s : string) : string :=
  match s with
  | EmptyString => EmptyString
  | String c r =>
      (if always_safe c || char_in c safe then String c EmptyString
       else percent_escape c) ++ quote safe r
  end.

(** A character of the ASCII range. *)
Definition is_ascii (c : ascii) : bool := (nat_of_ascii c <? 128)%nat.

(** The characters of a quoted title. *)
Definition url_char (c : ascii) : bool :=
  always_safe c || char_in c "/:%".

End PyStr.

(** ** Python values that travel in query parameters *)

Inductive pyval :=
| PNone
| PStr (s : string)
| PInt (z : Z).

Global Instance pyval_eq_dec : EqDecision pyval.
Proof. solve_decision. Defined.

(** Truth value of a Python object ([if x:], [all(...)]). *)
Definition truthy (v : pyval) : bool :=
  match v with
  | PNone => false
  | PStr s => negb (String.eqb s "")
  | PInt z => negb (z =? 0)%Z
  end.

(** An attribute that holds a string or [None]. *)
Definition of_opt (o : option string) : pyval :=
  match o with Some s => PStr s | None => PNone end.

Definition truthy_opt (o : option string) : bool := truthy (of_opt o).

(** Keyword arguments passed to [api_query]. *)
Abbreviation Params := (gmap string pyval).

(** ** Results of the remote API

    The page class reads a fixed set of keys out of the decoded JSON
    result; each is a field here, [None] (or [false] for the bare
    markers) when the key is absent.  A result is a non-empty dict, so
    it is true in [if not result]. *)

Record revision := mkRevision {
  rev_user : option string;        (* ["user"] *)
  rev_star : option string;        (* ["*"], the wikitext *)
  rev_timestamp : option string;   (* ["timestamp"] *)
}.

(** One entry of [res["protection"]]: type, level, expiry. *)
Definition protection_entry : Type := string * string * string.

Record page_entry := mkEntry {
  res_title : option string;
  res_redirect : bool;             (* "redirect" in res *)
  res_missing : bool;              (* "missing" in res *)
  res_fullurl : option string;
  res_protection : option (list protection_entry);
  res_edittoken : option string;
  res_ns : option Z;
  res_lastrevid : option Z;
  res_revisions : option (list revision);
}.

Record edit_entry := mkEdit {
  edit_result : option string;     (* result["edit"]["result"] *)
  edit_assert : option string;     (* result["edit"]["assert"] *)
}.

Record api_result := mkResult {
  r_pages : option (list (Z * page_entry));  (* result["query"]["pages"], keyed by page id *)
  r_edit : option edit_entry;                (* result["edit"] *)
}.

(** [api_query] returns a result or raises [SiteAPIError]; the error
    carries [code] and [info] attributes when the remote rejected the
    request, and none otherwise. *)
Inductive api_response :=
| ApiOk (r : api_result)
| ApiError (detail : option (string * string)).

(** ** Exceptions *)

Inductive exn :=
| KeyError (key : string)
| IndexError
| TypeError
| SiteAPIError (detail : option (string * string))
| InvalidPageError (msg : string)
| PageNotFoundError (msg : string)
| RedirectError (msg : string)
| PermissionsError (msg : string)
| LoginError (msg : string)
| EditConflictError (msg : string)
| NoContentError (msg : string)
| ContentTooBigError (msg : string)
| SpamDetectedError (msg : string)
| FilteredError (msg : string)
| EditError (arg : string + edit_entry).

(** ** The page object *)

(** [self._exists]: 0, 1, 2, 3 in the source. *)
Inductive existence := Unknown | Invalid | Missing | Exists.

Definition existence_code (e : existence) : Z :=
  match e with Unknown => 0 | Invalid => 1 | Missing => 2 | Exists => 3 end.

Global Instance existence_eq_dec : EqDecision existence.
Proof. solve_decision. Defined.

Record Page := mkPage {
  _title : string;
  _follow_redirects : bool;
  _keep_following : bool;
  _exists : existence;
  _pageid : option Z;
  _is_redirect : option bool;
  _lastrevid : option Z;
  _protection : option (list protection_entry);
  _fullurl : option string;
  _content : option string;
  _creator : option string;
  _token : option string;
  _basetimestamp : option string;
  _starttimestamp : option string;
  _namespace : Z;
  _is_talkpage : bool;
}.

Definition with_title v p := mkPage v (_follow_redirects p) (_keep_following p) (_exists p) (_pageid p) (_is_redirect p) (_lastrevid p) (_protection p) (_fullurl p) (_content p) (_creator p) (_token p) (_basetimestamp p) (_starttimestamp p) (_namespace p) (_is_talkpage p).
Definition with_keep_following v p := mkPage (_title p) (_follow_redirects p) v (_exists p) (_pageid p) (_is_redirect p) (_lastrevid p) (_protection p) (_fullurl p) (_content p) (_creator p) (_token p) (_basetimestamp p) (_starttimestamp p) (_namespace p) (_is_talkpage p).
Definition with_exists v p := mkPage (_title p) (_follow_redirects p) (_keep_following p) v (_pageid p) (_is_redirect p) (_lastrevid p) (_protection p) (_fullurl p) (_content p) (_creator p) (_token p) (_basetimestamp p) (_starttimestamp p) (_namespace p) (_is_talkpage p).
Definition with_pageid v p := mkPage (_title p) (_follow_redirects p) (_keep_following p) (_exists p) v (_is_redirect p) (_lastrevid p) (_protection p) (_fullurl p) (_content p) (_creator p) (_token p) (_basetimestamp p) (_starttimestamp p) (_namespace p) (_is_talkpage p).
Definition with_is_redirect v p := mkPage (_title p) (_follow_redirects p) (_keep_following p) (_exists p) (_pageid p) v (_lastrevid p) (_protection p) (_fullurl p) (_content p) (_creator p) (_token p) (_basetimestamp p) (_starttimestamp p) (_namespace p) (_is_talkpage p).
Definition with_lastrevid v p := mkPage (_title p) (_follow_redirects p) (_keep_following p) (_exists p) (_pageid p) (_is_redirect p) v (_protection p) (_fullurl p) (_content p) (_creator p) (_token p) (_basetimestamp p) (_starttimestamp p) (_namespace p) (_is_talkpage p).
Definition with_protection v p := mkPage (_title p) (_follow_redirects p) (_keep_following p) (_exists p) (_pageid p) (_is_redirect p) (_lastrevid p) v (_fullurl p) (_content p) (_creator p) (_token p) (_basetimestamp p) (_starttimestamp p) (_namespace p) (_is_talkpage p).
Definition with_fullurl v p := mkPage (_title p) (_follow_redirects p) (_keep_following p) (_exists p) (_pageid p) (_is_redirect p) (_lastrevid p) (_protection p) v (_content p) (_creator p) (_token p) (_basetimestamp p) (_starttimestamp p) (_namespace p) (_is_talkpage p).
Definition with_content v p := mkPage (_title p) (_follow_redirects p) (_keep_following p) (_exists p) (_pageid p) (_is_redirect p) (_lastrevid p) (_protection p) (_fullurl p) v (_creator p) (_token p) (_basetimestamp p) (_starttimestamp p) (_namespace p) (_is_talkpage p).
Definition with_creator v p := mkPage (_title p) (_follow_redirects p) (_keep_following p) (_exists p) (_pageid p) (_is_redirect p) (_lastrevid p) (_protection p) (_fullurl p) (_content p) v (_token p) (_basetimestamp p) (_starttimestamp p) (_namespace p) (_is_talkpage p).
Definition with_token v p := mkPage (_title p) (_follow_redirects p) (_keep_following p) (_exists p) (_pageid p) (_is_redirect p) (_lastrevid p) (_protection p) (_fullurl p) (_content p) (_creator p) v (_basetimestamp p) (_starttimestamp p) (_namespace p) (_is_talkpage p).
Definition with_basetimestamp v p := mkPage (_title p) (_follow_redirects p) (_keep_following p) (_exists p) (_pageid p) (_is_redirect p) (_lastrevid p) (_protection p) (_fullurl p) (_content p) (_creator p) (_token p) v (_starttimestamp p) (_namespace p) (_is_talkpage p).
Definition with_starttimestamp v p := mkPage (_title p) (_follow_redirects p) (_keep_following p) (_exists p) (_pageid p) (_is_redirect p) (_lastrevid p) (_protection p) (_fullurl p) (_content p) (_creator p) (_token p) (_basetimestamp p) v (_namespace p) (_is_talkpage p).
Definition with_namespace v p := mkPage (_title p) (_follow_redirects p) (_keep_following p) (_exists p) (_pageid p) (_is_redirect p) (_lastrevid p) (_protection p) (_fullurl p) (_content p) (_creator p) (_token p) (_basetimestamp p) (_starttimestamp p) v (_is_talkpage p).
Definition with_is_talkpage v p := mkPage (_title p) (_follow_redirects p) (_keep_following p) (_exists p) (_pageid p) (_is_redirect p) (_lastrevid p) (_protection p) (_fullurl p) (_content p) (_creator p) (_token p) (_basetimestamp p) (_starttimestamp p) (_namespace p) v.

(** ** The remote site and the Python runtime

    [RS] is everything outside the page object: the wiki, the session
    and the clock.  [api_query] and [_login] are the two capabilities of
    the site the page uses; [_login] does not raise (a failed login
    shows only in later queries). *)

Class Site (RS : Type) := {
  api_query : Params → RS → api_response * RS;
  _login : list pyval → RS → RS;
  _login_info : list pyval;                   (* site._login_info: (name, password) *)
  namespace_name_to_id : string → option Z;   (* None: NamespaceNotFoundError *)
}.

Class Runtime (RS : Type) := {
  md5_hexdigest : string → string;            (* md5(text).hexdigest() *)
  strftime_gmtime : RS → string;              (* strftime("%Y-%m-%dT%H:%M:%SZ", gmtime()) *)
}.

(** What the site object was asked, in order: the queries with their
    answers, and the logins.  [EvFollowRedirect] is a ghost event, not a
    call on the site: it marks the assignment
    [self._title = self.get_redirect_target()], one hop along a
    redirect. *)
Inductive event :=
| EvApiQuery (params : Params) (resp : api_response)
| EvLogin (info : list pyval)
| EvFollowRedirect (target : string).

(** ** The monad of methods

    A method runs on the page and the world; it returns, raises, or (in
    the model only) runs out of recursion fuel, and leaves a new page,
    a new world and the events it emitted. *)

Inductive outcome (A : Type) :=
| Returned (a : A)
| Raised (e : exn)
| OutOfFuel.
Arguments Returned {A} a.
Arguments Raised {A} e.
Arguments OutOfFuel {A}.

Definition M (RS A : Type) : Type := Page → RS → outcome A * Page * RS * list event.

Global Instance M_ret {RS} : MRet (M RS) :=
  λ A a p r, (Returned a, p, r, []).

Global Instance M_bind {RS} : MBind (M RS) :=
  λ A B k m p r,
    match m p r with
    | (Returned a, p1, r1, t1) =>
        let '(o, p2, r2, t2) := k a p1 r1 in (o, p2, r2, (t1 ++ t2)%list)
    | (Raised e, p1, r1, t1) => (Raised e, p1, r1, t1)
    | (OutOfFuel, p1, r1, t1) => (OutOfFuel, p1, r1, t1)
    end.

Definition raise {RS A} (e : exn) : M RS A := λ p r, (Raised e, p, r, []).
Definition out_of_fuel {RS A} : M RS A := λ p r, (OutOfFuel, p, r, []).

(** [self._x] *)
Definition attr {RS A} (f : Page → A) : M RS A := λ p r, (Returned (f p), p, r, []).
(** [self._x = v] *)
Definition assign {RS} (upd : Page → Page) : M RS unit := λ p r, (Returned tt, upd p, r, []).

(** [self._title = target], where [target] is the destination of the
    redirect; leaves the ghost event. *)
Definition retarget {RS} (target : string) : M RS unit :=
  λ p r, (Returned tt, with_title target p, r, [EvFollowRedirect target]).

(** [try: m except SiteAPIError as error: h error] *)
Definition try_except_SiteAPIError {RS A} (m : M RS A)
    (h : option (string * string) → M RS A) : M RS A :=
  λ p r,
    match m p r with
    | (Raised (SiteAPIError d), p1, r1, t1) =>
        let '(o, p2, r2, t2) := h d p1 r1 in (o, p2, r2, (t1 ++ t2)%list)
    | res => res
    end.

(** [d[key]] on an optional field: [KeyError] when the key is absent. *)
Definition getitem {RS A} (key : string) (o : option A) : M RS A :=
  match o with Some a => mret a | None => raise (KeyError key) end.

(** ** The methods of [Page] *)

Section Methods.
Context {RS : Type} `{!Site RS, !Runtime RS}.

(** [self._site.api_query], with [params] as keyword arguments *)
Definition query (params : Params) : M RS api_result :=
  λ p r,
    let '(resp, r') := api_query params r in
    match resp with
    | ApiOk res => (Returned res, p, r', [EvApiQuery params resp])
    | ApiError d => (Raised (SiteAPIError d), p, r', [EvApiQuery params resp])
    end.

(** [self._site._login(self._site._login_info)] *)
Definition login : M RS unit :=
  λ p r, (Returned tt, p, _login _login_info r, [EvLogin _login_info]).

Definition clock : M RS string :=
  λ p r, (Returned (strftime_gmtime r), p, r, []).

(** [Page.__init__(site, title, follow_redirects)]: no API query. *)
Definition __init__ (title : string) (follow_redirects : bool) : Page :=
  let stripped := PyStr.strip title in
  let prefix := PyStr.before_colon stripped in
  let ns :=
    if negb (String.eqb prefix title) then
      match namespace_name_to_id prefix with
      | Some n => n
      | None => 0%Z
      end
    else 0%Z in
  {| _title := stripped;
     _follow_redirects := follow_redirects;
     _keep_following := follow_redirects;
     _exists := Unknown;
     _pageid := None;
     _is_redirect := None;
     _lastrevid := None;
     _protection := None;
     _fullurl := None;
     _content := None;
     _creator := None;
     _token := None;
     _basetimestamp := None;
     _starttimestamp := None;
     _namespace := ns;
     _is_talkpage := if (ns <? 0)%Z then false else (ns `mod` 2 =? 1)%Z |}.

Definition _assert_validity : M RS unit :=
  e ← attr _exists;
  if decide (e = Invalid) then
    title ← attr _title;
    raise (InvalidPageError ("Page '" ++ title ++ "' is invalid."))
  else mret tt.

Definition _assert_existence : M RS unit :=
  _assert_validity;;
  e ← attr _exists;
  if decide (e = Missing) then
    title ← attr _title;
    raise (PageNotFoundError ("Page '" ++ title ++ "' does not exist."))
  else mret tt.

Definition load_attributes_params (title : string) : Params :=
  list_to_map
    [("action", PStr "query"); ("rvprop", PStr "user"); ("intoken", PStr "edit");
     ("prop", PStr "info|revisions"); ("rvlimit", PInt 1); ("rvdir", PStr "newer");
     ("titles", PStr title); ("inprop", PStr "protection|url")].

(** [result["query"]["pages"]], then its first key and value. *)
Definition first_page (result : api_result) : M RS (Z * page_entry) :=
  pages ← getitem "query" (r_pages result);
  match pages with
  | [] => raise IndexError
  | kv :: _ => mret kv
  end.

Definition _load_attributes (result : option api_result) : M RS unit :=
  result ← match result with
           | Some res => mret res
           | None => title ← attr _title; query (load_attributes_params title)
           end;
  '(key, res) ← first_page result;
  title ← getitem "title" (res_title res);
  assign (with_title title);;
  assign (with_is_redirect (Some (res_redirect res)));;
  assign (with_pageid (Some key));;
  let rest : M RS unit :=
    fullurl ← getitem "fullurl" (res_fullurl res);
    assign (with_fullurl (Some fullurl));;
    protection ← getitem "protection" (res_protection res);
    assign (with_protection (Some protection));;
    match res_edittoken res with
    | None => mret tt
    | Some token =>
        assign (with_token (Some token));;
        now ← clock;
        assign (with_starttimestamp (Some now))
    end;;
    ns ← getitem "ns" (res_ns res);
    assign (with_namespace ns);;
    assign (with_is_talkpage (ns `mod` 2 =? 1)%Z);;
    assign (with_lastrevid (res_lastrevid res));;
    match res_revisions res with
    | None => mret tt
    | Some [] => raise IndexError
    | Some (rev :: _) =>
        match rev_user rev with
        | None => mret tt
        | Some user => assign (with_creator (Some user))
        end
    end in
  if (key <? 0)%Z then
    if res_missing res then assign (with_exists Missing);; rest
    else assign (with_exists Invalid)
  else assign (with_exists Exists);; rest.

Definition load_content_params (title : string) : Params :=
  list_to_map
    [("action", PStr "query"); ("prop", PStr "revisions"); ("rvlimit", PInt 1);
     ("rvprop", PStr "content|timestamp"); ("titles", PStr title)].

Definition _load_content (result : option api_result) : M RS unit :=
  result ← match result with
           | Some res => mret res
           | None => title ← attr _title; query (load_content_params title)
           end;
  '(_, res) ← first_page result;
  let on_KeyError : M RS unit := _load_attributes None;; _assert_existence in
  match res_revisions res with
  | None => on_KeyError
  | Some [] => raise IndexError
  | Some (rev :: _) =>
      match rev_star rev with
      | None => on_KeyError
      | Some text =>
          assign (with_content (Some text));;
          match rev_timestamp rev with
          | None => on_KeyError
          | Some ts => assign (with_basetimestamp (Some ts))
          end
      end
  end.

Definition get_params (title : string) : Params :=
  list_to_map
    [("action", PStr "query"); ("rvlimit", PInt 1); ("titles", PStr title);
     ("prop", PStr "info|revisions"); ("inprop", PStr "protection|url");
     ("intoken", PStr "edit"); ("rvprop", PStr "content|timestamp")].

(** [get_redirect_target], over the [get] it calls. *)
Definition get_redirect_target_with (get : M RS (option string)) : M RS string :=
  content ← get;
  match content with
  | None => raise TypeError
  | Some text =>
      match PyStr.findall_re_redirect text with
      | Some target => mret target
      | None => raise (RedirectError "The page does not appear to have a redirect target.")
      end
  end.

(** [self._keep_following and self._is_redirect] *)
Definition should_follow : M RS bool :=
  keep ← attr _keep_following;
  redir ← attr _is_redirect;
  mret (keep && bool_decide (redir = Some true)).

Fixpoint get (fuel : nat) : M RS (option string) :=
  match fuel with
  | O => out_of_fuel
  | S fuel' =>
      e ← attr _exists;
      if decide (e = Unknown) then
        title ← attr _title;
        result ← query (get_params title);
        _load_attributes (Some result);;
        _assert_existence;;
        _load_content (Some result);;
        follow ← should_follow;
        (if (follow : bool) then
           target ← get_redirect_target_with (get fuel');
           retarget target;;
           assign (with_keep_following false);;
           assign (with_exists Unknown);;
           get fuel';; mret tt
         else mret tt);;
        attr _content
      else
        _assert_existence;;
        content ← attr _content;
        (if content is None then _load_content None else mret tt);;
        attr _content
  end.

Definition get_redirect_target (fuel : nat) : M RS string :=
  get_redirect_target_with (get fuel).

Definition _load (fuel : nat) : M RS unit :=
  _load_attributes None;;
  follow ← should_follow;
  if (follow : bool) then
    target ← get_redirect_target fuel;
    retarget target;;
    assign (with_keep_following false);;
    assign (with_content None);;
    _load_attributes None
  else mret tt.

Definition reload (fuel : nat) : M RS unit :=
  _load fuel;;
  content ← attr _content;
  if content is Some _ then _load_content None else mret tt.

(** The [is_redirect] property. *)
Definition is_redirect (fuel : nat) : M RS (option bool) :=
  e ← attr _exists;
  (if decide (e = Unknown) then _load fuel else mret tt);;
  attr _is_redirect.

(** The [is_talkpage] and [namespace] properties: no query. *)
Definition is_talkpage : M RS bool := attr _is_talkpage.
Definition namespace : M RS Z := attr _namespace.

(** Keyword arguments of [_edit] other than [params] and [tries]; the
    flags are read for their truth value only. *)
Record edit_kwargs := mkKwargs {
  kw_text : option string;
  kw_summary : option string;
  kw_minor : bool;
  kw_bot : bool;
  kw_force : bool;
  kw_section : option string;
  kw_captcha_id : option string;
  kw_captcha_word : option string;
}.

Definition no_kwargs : edit_kwargs :=
  mkKwargs None None false false false None None None.

(** [if cond: params[key] = value] *)
Definition setitem_if (cond : bool) (key : string) (value : pyval) (params : Params)
    : Params :=
  if cond then <[key := value]> params else params.

Definition _build_edit_params (kw : edit_kwargs) : M RS Params :=
  text ← match kw_text kw with Some t => mret t | None => raise TypeError end;
  title ← attr _title;
  token ← attr _token;
  let params : Params :=
    list_to_map
      [("action", PStr "edit"); ("title", PStr title); ("text", PStr text);
       ("token", of_opt token); ("summary", of_opt (kw_summary kw));
       ("md5", PStr (md5_hexdigest text))] in
  let params :=
    setitem_if (truthy_opt (kw_section kw)) "section" (of_opt (kw_section kw)) params in
  let captcha := truthy_opt (kw_captcha_id kw) && truthy_opt (kw_captcha_word kw) in
  let params := setitem_if captcha "captchaid" (of_opt (kw_captcha_id kw)) params in
  let params := setitem_if captcha "captchaword" (of_opt (kw_captcha_word kw)) params in
  let params :=
    <[(if kw_minor kw then "minor" else "notminor") := PStr "true"]> params in
  let params := setitem_if (kw_bot kw) "bot" (PStr "true") params in
  if negb (kw_force kw) then
    start ← attr _starttimestamp;
    let params := <["starttimestamp" := of_opt start]> params in
    base ← attr _basetimestamp;
    let params := setitem_if (truthy_opt base) "basetimestamp" (of_opt base) params in
    e ← attr _exists;
    mret (setitem_if (bool_decide (e = Missing)) "createonly" (PStr "true") params)
  else mret (<["recreate" := PStr "true"]> params).

(** [code in [...]] *)
Definition code_in (code : string) (codes : list string) : bool :=
  existsb (String.eqb code) codes.

Definition not_logged_in_msg : string :=
  "Although we should be logged in, we are not. This may be a cookie problem or an odd bug.".

(** [_handle_edit_errors(error, params, tries)], over the [_edit] it
    calls.  What it returns is what [_edit] returns, which is [None]. *)
Definition _handle_edit_errors
    (_edit : option Params → edit_kwargs → nat → M RS unit)
    (code info : string) (params : Params) (tries : nat) : M RS (option api_result) :=
  if code_in code ["noedit"; "cantcreate"; "protectedtitle"; "noimageredirect"] then
    raise (PermissionsError info)
  else if code_in code ["noedit-anon"; "cantcreate-anon"; "noimageredirect-anon"] then
    if negb (forallb truthy _login_info) then raise (PermissionsError info)
    else if (tries =? 0)%nat then
      login;;
      assign (with_token None);;
      _edit (Some params) no_kwargs 1%nat;;
      mret None
    else raise (LoginError not_logged_in_msg)
  else if code_in code ["editconflict"; "pagedeleted"; "articleexists"] then
    assign (with_content None);;
    assign (with_basetimestamp None);;
    assign (with_exists Unknown);;
    raise (EditConflictError info)
  else if code_in code ["emptypage"; "emptynewsection"] then raise (NoContentError info)
  else if String.eqb code "contenttoobig" then raise (ContentTooBigError info)
  else if String.eqb code "spamdetected" then raise (SpamDetectedError info)
  else if String.eqb code "filtered" then raise (FilteredError info)
  else raise (EditError (inl (code ++ ": " ++ info))).

Definition _handle_assert_edit
    (_edit : option Params → edit_kwargs → nat → M RS unit)
    (assertion : string) (params : Params) (tries : nat) : M RS unit :=
  if String.eqb assertion "user" then
    if negb (forallb truthy _login_info) then
      raise (PermissionsError "AssertEdit: user assertion failed, and no login info was provided.")
    else if (tries =? 0)%nat then
      login;;
      assign (with_token None);;
      _edit (Some params) no_kwargs 1%nat
    else raise (LoginError not_logged_in_msg)
  else if String.eqb assertion "bot" then
    raise (PermissionsError "AssertEdit: bot assertion failed; we don't have a bot flag!")
  else raise (PermissionsError ("AssertEdit: assertion '" ++ assertion ++ "' failed.")).

Fixpoint _edit (fuel : nat) (params : option Params) (kw : edit_kwargs)
    (tries : nat) : M RS unit :=
  match fuel with
  | O => out_of_fuel
  | S fuel' =>
      token ← attr _token;
      (if truthy_opt token then mret tt else _load_attributes None);;
      token ← attr _token;
      (if truthy_opt token then mret tt
       else raise (PermissionsError "You don't have permission to edit this page."));;
      _assert_validity;;
      params ← match params with
               | Some given =>
                   if decide (given = ∅) then _build_edit_params kw
                   else token ← attr _token; mret (<["token" := of_opt token]> given)
               | None => _build_edit_params kw
               end;
      result ← try_except_SiteAPIError
                 (res ← query params; mret (Some res))
                 (λ detail,
                    match detail with
                    | None => raise (SiteAPIError None)
                    | Some (code, info) =>
                        _handle_edit_errors (_edit fuel') code info params tries
                    end);
      match result with
      | None => raise TypeError
      | Some res =>
          e ← getitem "edit" (r_edit res);
          status ← getitem "result" (edit_result e);
          if String.eqb status "Success" then
            assign (with_content None);;
            assign (with_basetimestamp None);;
            assign (with_exists Unknown)
          else
            match edit_assert e with
            | None => raise (EditError (inr e))
            | Some assertion =>
                _handle_assert_edit (_edit fuel') assertion params tries
            end
      end
  end.

(** [edit(text, summary, minor, bot, force)] *)
Definition edit (fuel : nat) (text summary : string) (minor bot force : bool)
    : M RS unit :=
  _edit fuel None (mkKwargs (Some text) (Some summary) minor bot force None None None) 0.

(** [add_section(text, title, minor, bot, force)] *)
Definition add_section (fuel : nat) (text title : string) (minor bot force : bool)
    : M RS unit :=
  _edit fuel None
    (mkKwargs (Some text) (Some title) minor bot force (Some "new") None None) 0.

End Methods.

(** The parameter sets are compared, never unfolded, during symbolic
    execution. *)
Global Arguments load_attributes_params : simpl never.
Global Arguments load_content_params : simpl never.
Global Arguments get_params : simpl never.

(** ** The properties and the remaining public methods of [Page] *)

Section Interface.
Context {RS : Type} `{!Site RS, !Runtime RS}.

(** The table [cases] of the [exists] property: a bool or [None], and
    a word. *)
Definition exists_cases (e : existence) : option bool * string :=
  match e with
  | Unknown => (None, "unknown")
  | Invalid => (Some false, "invalid")
  | Missing => (Some false, "missing")
  | Exists => (Some true, "exists")
  end.

(** [if self._exists == 0: self._load()] *)
Definition load_if_unknown (fuel : nat) : M RS unit :=
  e ← attr _exists;
  if decide (e = Unknown) then _load fuel else mret tt.

(** The [exists] property. *)
Definition exists_ (fuel : nat) : M RS (option bool * string) :=
  load_if_unknown fuel;;
  e ← attr _exists;
  mret (exists_cases e).

(** The [pageid] property. *)
Definition pageid (fuel : nat) : M RS (option Z) :=
  load_if_unknown fuel;;
  _assert_existence;;
  attr _pageid.

(** The [protection] property. *)
Definition protection (fuel : nat) : M RS (option (list protection_entry)) :=
  load_if_unknown fuel;;
  _assert_validity;;
  attr _protection.

(** The [url] property, over [site._article_path] and
    [site._base_url]. *)
Definition url (article_path base_url : string) : M RS string :=
  let from_title : M RS string :=
    title ← attr _title;
    let slug := PyStr.quote "/:" (PyStr.replace_char " " "_" title) in
    let path := PyStr.replace "$1" slug article_path in
    mret (base_url ++ path) in
  fullurl ← attr _fullurl;
  match fullurl with
  | Some u => if negb (String.eqb u EmptyString) then mret u else from_title
  | None => from_title
  end.

(** [get_creator()], over [site.get_user], which is outside this file
    and builds the User object; it may itself ask the remote. *)
Definition get_creator {U : Type} (get_user : option string → M RS U)
    (fuel : nat) : M RS U :=
  load_if_unknown fuel;;
  _assert_existence;;
  creator ← attr _creator;
  (if truthy_opt creator then mret tt
   else _load fuel;; _assert_existence);;
  creator ← attr _creator;
  get_user creator.

(** [toggle_talk(follow_redirects)], over [site.namespace_id_to_name],
    which is outside this file: it gives a name, or raises. *)
Definition toggle_talk (namespace_id_to_name : Z → string + exn)
    (follow_redirects : option bool) : M RS Page :=
  let id_to_name (n : Z) : M RS string :=
    match namespace_id_to_name n with
    | inl name => mret name
    | inr e => raise e
    end in
  ns ← attr _namespace;
  (if (ns <? 0)%Z then
     name ← id_to_name ns;
     raise (InvalidPageError
              ("Pages in the " ++ name ++ " namespace can't have talk pages."))
   else mret tt);;
  talk ← attr _is_talkpage;
  let new_ns := (if (talk : bool) then ns - 1 else ns + 1)%Z in
  title ← attr _title;
  let body := default title (PyStr.after_colon title) in
  new_prefix ← id_to_name new_ns;
  let new_title :=
    if negb (String.eqb new_prefix EmptyString) then new_prefix ++ ":" ++ body else body in
  follow ← match follow_redirects with
           | None => attr _follow_redirects
           | Some f => mret f
           end;
  mret (__init__ new_title follow).

End Interface.

(** ** A scripted site

    A test double for the remote: the answers to successive queries are
    read off a script, whatever the parameters; once the script is
    exhausted every query fails with a [SiteAPIError] that has no code.
    Logging in leaves the script alone. *)

Module Scripted.

Definition namespaces (prefix : string) : option Z :=
  if String.eqb prefix "Talk" then Some 1%Z
  else if String.eqb prefix "User" then Some 2%Z
  else if String.eqb prefix "User talk" then Some 3%Z
  else if String.eqb prefix "Special" then Some (-1)%Z
  else if String.eqb prefix "Media" then Some (-2)%Z
  else None.

Definition site (login_info : list pyval) : Site (list api_response) :=
  {| api_query := λ _ script,
       match script with
       | [] => (ApiError None, [])
       | resp :: script' => (resp, script')
       end;
     _login := λ _ script, script;
     _login_info := login_info;
     namespace_name_to_id := namespaces |}.

Definition runtime : Runtime (list api_response) :=
  {| md5_hexdigest := λ _, "d41d8cd98f00b204e9800998ecf8427e";
     strftime_gmtime := λ _, "2012-07-04T12:00:00Z" |}.

Definition credentials : list pyval := [PStr "EarwigBot"; PStr "hunter2"].

(** An entry for an existing page in namespace [ns], with an edit
    token and one revision. *)
Definition entry (title : string) (ns : Z) (redirect : bool) (text : string)
    : page_entry :=
  {| res_title := Some title;
     res_redirect := redirect;
     res_missing := false;
     res_fullurl := Some ("http://example.org/wiki/" ++ title);
     res_protection := Some [];
     res_edittoken := Some "0123456789abcdef+\";
     res_ns := Some ns;
     res_lastrevid := Some 42%Z;
     res_revisions := Some [mkRevision (Some "Alice") (Some text) (Some "2012-07-01T00:00:00Z")] |}.

(** The same entry when the session may not edit: no token. *)
Definition entry_without_token (title : string) (ns : Z) : page_entry :=
  {| res_title := Some title;
     res_redirect := false;
     res_missing := false;
     res_fullurl := Some ("http://example.org/wiki/" ++ title);
     res_protection := Some [];
     res_edittoken := None;
     res_ns := Some ns;
     res_lastrevid := Some 42%Z;
     res_revisions := Some [mkRevision (Some "Alice") None None] |}.

Definition pages (pageid : Z) (e : page_entry) : api_response :=
  ApiOk (mkResult (Some [(pageid, e)]) None).

Definition edit_success : api_response :=
  ApiOk (mkResult None (Some (mkEdit (Some "Success") None))).

Definition edit_assert_failed (assertion : string) : api_response :=
  ApiOk (mkResult None (Some (mkEdit (Some "Failure") (Some assertion)))).

Definition rejected (code info : string) : api_response :=
  ApiError (Some (code, info)).

End Scripted.

(** ** Observations on event logs and pages *)

(** The parameter sets the page sends: an edit submission carries
    [action=edit]; a content fetch asks for [rvprop=content|timestamp]
    (alone, or combined with the metadata in [get]); a metadata fetch
    asks for [prop=info|revisions]. *)
Definition is_submission (ps : Params) : bool :=
  bool_decide (ps !! "action" = Some (PStr "edit")).

Definition is_content_fetch (ps : Params) : bool :=
  bool_decide (ps !! "rvprop" = Some (PStr "content|timestamp")).

Definition is_metadata_fetch (ps : Params) : bool :=
  bool_decide (ps !! "prop" = Some (PStr "info|revisions")).

Definition submission_event (ev : event) : bool :=
  match ev with EvApiQuery ps _ => is_submission ps | _ => false end.

Definition content_fetch_event (ev : event) : bool :=
  match ev with EvApiQuery ps _ => is_content_fetch ps | _ => false end.

Definition metadata_fetch_event (ev : event) : bool :=
  match ev with EvApiQuery ps _ => is_metadata_fetch ps | _ => false end.

Definition query_event (ev : event) : bool :=
  match ev with EvApiQuery _ _ => true | _ => false end.

Definition login_event (ev : event) : bool :=
  match ev with EvLogin _ => true | _ => false end.

Definition follow_event (ev : event) : bool :=
  match ev with EvFollowRedirect _ => true | _ => false end.

Fixpoint count (f : event → bool) (t : list event) : nat :=
  match t with
  | [] => 0
  | ev :: t' => (if f ev then 1 else 0) + count f t'
  end.

(** The three codes of an anonymous-permission rejection, and the three
    of the conflict family. *)
Definition anon_codes : list string :=
  ["noedit-anon"; "cantcreate-anon"; "noimageredirect-anon"].

Definition conflict_codes : list string :=
  ["editconflict"; "pagedeleted"; "articleexists"].

(** The answers to a submission that make [_edit] log in: one of the
    anonymous-permission rejections, or an edit that did not succeed
    because the "user" assertion failed. *)
Definition session_failure (resp : api_response) : bool :=
  match resp with
  | ApiError (Some (code, _)) => code_in code anon_codes
  | ApiError None => false
  | ApiOk res =>
      match r_edit res with
      | Some e =>
          match edit_result e, edit_assert e with
          | Some status, Some assertion =>
              negb (String.eqb status "Success") && String.eqb assertion "user"
          | _, _ => false
          end
      | None => false
      end
  end.

(** A submission that the remote accepted. *)
Definition successful (resp : api_response) : bool :=
  match resp with
  | ApiOk res =>
      match r_edit res with
      | Some e =>
          match edit_result e with
          | Some status => String.eqb status "Success"
          | None => false
          end
      | None => false
      end
  | ApiError _ => false
  end.

(** The wikitext a result carries for its first page, if any. *)
Definition result_text (res : api_result) : option string :=
  match r_pages res with
  | Some ((_, e) :: _) =>
      match res_revisions e with
      | Some (rev :: _) => rev_star rev
      | _ => None
      end
  | _ => None
  end.

(** The texts the remote sent during a run. *)
Fixpoint fetched_texts (t : list event) : list string :=
  match t with
  | [] => []
  | EvApiQuery _ (ApiOk res) :: t' =>
      match result_text res with
      | Some text => text :: fetched_texts t'
      | None => fetched_texts t'
      end
  | _ :: t' => fetched_texts t'
  end.

(** The classification of a fetched entry, in the words of the
    specification: negative id and "missing" marker, negative id
    without it, non-negative id. *)
Definition classify (key : Z) (res : page_entry) : existence :=
  if (key <? 0)%Z then (if res_missing res then Missing else Invalid) else Exists.

(** Content, base timestamp and existence are all forgotten. *)
Definition invalidated (p : Page) : Prop :=
  _content p = None ∧ _basetimestamp p = None ∧ _exists p = Unknown.

(** Where the result that [_load_attributes] reads comes from: its
    argument, or its own metadata query. *)
Definition metadata_source {RS} `{!Site RS} (result : option api_result)
    (p : Page) (r : RS) (res0 : api_result) (r' : RS) (t : list event) : Prop :=
  match result with
  | Some given => res0 = given ∧ r' = r ∧ t = []
  | None =>
      api_query (load_attributes_params (_title p)) r = (ApiOk res0, r')
      ∧ t = [EvApiQuery (load_attributes_params (_title p)) (ApiOk res0)]
  end.

(** The texts a content load may store: the text of the result it was
    handed, or the texts fetched by its own queries. *)
Definition text_source (result : option api_result) (t : list event) : list string :=
  match result with
  | Some res => match result_text res with Some c => [c] | None => [] end
  | None => fetched_texts t
  end.

(** The four components of a run. *)
Definition outcome_of {RS A} (x : outcome A * Page * RS * list event) : outcome A := x.1.1.1.
Definition page_of {RS A} (x : outcome A * Page * RS * list event) : Page := x.1.1.2.
Definition world_of {RS A} (x : outcome A * Page * RS * list event) : RS := x.1.2.
Definition events_of {RS A} (x : outcome A * Page * RS * list event) : list event := x.2.

(** ** Observations on an edit transaction *)

(** The answer to the first submission of a log, with the events that
    follow it. *)
Fixpoint after_first_submission (t : list event) : option (api_response * list event) :=
  match t with
  | [] => None
  | EvApiQuery ps resp :: t' =>
      if is_submission ps then Some (resp, t') else after_first_submission t'
  | _ :: t' => after_first_submission t'
  end.

(** The submissions of a log, in order, each with its answer. *)
Fixpoint submissions (t : list event) : list (Params * api_response) :=
  match t with
  | [] => []
  | EvApiQuery ps resp :: t' =>
      if is_submission ps then (ps, resp) :: submissions t' else submissions t'
  | _ :: t' => submissions t'
  end.

(** The rejections of the conflict family. *)
Definition conflict (resp : api_response) : option string :=
  match resp with
  | ApiError (Some (code, info)) => if code_in code conflict_codes then Some info else None
  | _ => None
  end.

(** The events before the submission: none when the page holds a token,
    else the metadata query that fetches one. *)
Definition token_fetch (p : Page) (pre : list event) : Prop :=
  if truthy_opt (_token p) then pre = []
  else ∃ resp, pre = [EvApiQuery (load_attributes_params (_title p)) resp].

(** The parameters [_edit] was handed, if any, are those of an edit
    submission. *)
Definition given_submission (given : option Params) : Prop :=
  match given with
  | Some g => g = ∅ ∨ is_submission g = true
  | None => True
  end.

Section EditObservations.
Context {RS : Type} `{!Site RS}.

(** All of [site._login_info] is set. *)
Definition credentials_configured : bool := forallb truthy _login_info.

(** How an attempt that may not log in any more ends, by the answer to
    its submission; [on_success] is what the caller sees when the
    submission succeeded. *)
Definition settled (on_success : outcome unit) (resp : api_response)
    (o : outcome unit) (p' : Page) : Prop :=
  (successful resp = true →
   o = on_success ∧ invalidated p' ∧ truthy_opt (_token p') = true)
  ∧ (o = Returned tt → successful resp = true)
  ∧ (session_failure resp = true → credentials_configured = true →
     o = Raised (LoginError not_logged_in_msg))
  ∧ (∀ info, conflict resp = Some info →
     o = Raised (EditConflictError info) ∧ invalidated p')
  ∧ o ≠ OutOfFuel.

(** The events of an attempt that may not log in any more: the token
    fetch, if one is needed, and at most one submission. *)
Definition single_attempt (given : option Params) (p : Page) (o : outcome unit)
    (p' : Page) (t : list event) : Prop :=
  ∃ pre,
    token_fetch p pre
    ∧ ((t = pre ∧ ∃ e, o = Raised e)
       ∨ ∃ ps resp,
           t = (pre ++ [EvApiQuery ps resp])%list
           ∧ (given_submission given → is_submission ps = true)
           ∧ (∀ g, given = Some g → g ≠ ∅ → g !! "createonly" = None →
              ps !! "createonly" = None)
           ∧ settled (Returned tt) resp o p').

(** What the caller sees when the resubmission succeeded.  The retry
    made from [_handle_edit_errors] hands [_edit] the value of the inner
    [_edit], which is [None], as the result to subscript; the retry made
    from [_handle_assert_edit] is the last statement of [_edit]. *)
Definition retry_success (first : api_response) : outcome unit :=
  match first with
  | ApiError _ => Raised TypeError
  | ApiOk _ => Returned tt
  end.

(** The events of a whole edit transaction: the token fetch, if one is
    needed, and the first submission; when its answer is a session
    failure and credentials are configured, one login, one metadata
    query for the new token, and at most one resubmission. *)
Definition transaction (given : option Params) (kw : edit_kwargs) (p : Page)
    (o : outcome unit) (p' : Page) (t : list event) : Prop :=
  ∃ pre,
    token_fetch p pre
    ∧ ((t = pre ∧ ∃ e, o = Raised e)
       ∨ ∃ ps resp rest,
           t = (pre ++ EvApiQuery ps resp :: rest)%list
           ∧ (given_submission given → is_submission ps = true)
           ∧ (given = None → truthy_opt (_token p) = true →
              (kw_force kw = true ∨ _exists p ≠ Missing → ps !! "createonly" = None)
              ∧ (kw_force kw = false → _exists p = Missing →
                 ps !! "createonly" = Some (PStr "true")))
           ∧ if session_failure resp && credentials_configured then
               ∃ title resp_m tail,
                 rest = EvLogin _login_info
                          :: EvApiQuery (load_attributes_params title) resp_m :: tail
                 ∧ ((tail = [] ∧ ∃ e, o = Raised e)
                    ∨ ∃ ps2 resp2,
                        tail = [EvApiQuery ps2 resp2]
                        ∧ (given_submission given → is_submission ps2 = true)
                        ∧ (ps !! "createonly" = None → ps2 !! "createonly" = None)
                        ∧ settled (retry_success resp) resp2 o p')
             else rest = [] ∧ settled (Returned tt) resp o p').

End EditObservations.

(** ** Calls on one page object

    The calls of the public interface that may resolve a redirect, or
    edit, made one after the other on the same instance; a caller that
    catches an exception keeps the object, so the run goes on after a
    call that raised. *)

Inductive page_call :=
| CallGet
| CallGetRedirectTarget
| CallIsRedirect
| CallReload
| CallEdit (text summary : string) (minor bot force : bool)
| CallAddSection (text title : string) (minor bot force : bool).

Section Calls.
Context {RS : Type} `{!Site RS, !Runtime RS}.

Definition call (fuel : nat) (c : page_call) : M RS unit :=
  match c with
  | CallGet => get fuel;; mret tt
  | CallGetRedirectTarget => get_redirect_target fuel;; mret tt
  | CallIsRedirect => is_redirect fuel;; mret tt
  | CallReload => reload fuel
  | CallEdit text summary minor bot force => edit fuel text summary minor bot force
  | CallAddSection text title minor bot force => add_section fuel text title minor bot force
  end.

Fixpoint run_calls (fuel : nat) (cs : list page_call) (p : Page) (r : RS)
    : list (outcome unit) * Page * RS * list event :=
  match cs with
  | [] => ([], p, r, [])
  | c :: cs' =>
      let '(o, p1, r1, t1) := call fuel c p r in
      let '(os, p2, r2, t2) := run_calls fuel cs' p1 r1 in
      (o :: os, p2, r2, (t1 ++ t2)%list)
  end.

End Calls.

(** What one call may do to redirect following: following is never
    switched back on, a hop is taken only while it is on, at most one
    hop is taken, and the call ends. *)
Definition hops_spec (p : Page) (o : outcome unit) (p' : Page)
    (t : list event) : Prop :=
  (_keep_following p' = true →
   _keep_following p = true ∧ count follow_event t = 0%nat)
  ∧ (_keep_following p = false → count follow_event t = 0%nat)
  ∧ (count follow_event t ≤ 1)%nat
  ∧ o ≠ OutOfFuel.

(** What the cache holds between two calls: once the state is known
    the page id and the redirect flag are known too, and the id is
    non-negative exactly for a page that exists; redirects are only
    followed on a page built to follow them; a token comes with its
    start timestamp. *)
Definition cache_consistent (p : Page) : Prop :=
  (_exists p ≠ Unknown →
   ∃ key b, _pageid p = Some key ∧ _is_redirect p = Some b
            ∧ ((0 ≤ key)%Z ↔ _exists p = Exists))
  ∧ (_keep_following p = true → _follow_redirects p = true)
  ∧ (is_Some (_token p) → is_Some (_starttimestamp p)).

(** ** Concrete sites, pages and remote answers *)

Module Examples.
Import Scripted.

Definition anonymous : Site (list api_response) := site [PNone; PNone].
Definition logged_in : Site (list api_response) := site credentials.

(** Page A redirects to page B. *)
Definition redirect_A_to_B : list api_response :=
  [pages 1 (entry "A" 0 true "#REDIRECT [[B]]");
   pages 2 (entry "B" 0 false "Text of B")].

(** The answers to a reload of A: its metadata, its text, and the
    metadata of B. *)
Definition reload_A_to_B : list api_response :=
  [pages 1 (entry "A" 0 true "#REDIRECT [[B]]");
   pages 1 (entry "A" 0 true "#REDIRECT [[B]]");
   pages 2 (entry "B" 0 false "Text of B")].

(** A and B redirect to each other; the remote goes on answering. *)
Definition circular : list api_response :=
  [pages 1 (entry "A" 0 true "#REDIRECT [[B]]");
   pages 2 (entry "B" 0 true "#REDIRECT [[A]]");
   pages 2 (entry "B" 0 true "#REDIRECT [[A]]");
   pages 2 (entry "B" 0 true "#REDIRECT [[A]]");
   pages 1 (entry "A" 0 true "#REDIRECT [[B]]")].

Definition page_A : Page := __init__ (Site0 := anonymous) "A" true.
Definition plain_page_A : Page := __init__ (Site0 := anonymous) "A" false.

(** An entry the remote marks as missing. *)
Definition missing_entry (title : string) (ns : Z) (redirect : bool) : page_entry :=
  {| res_title := Some title;
     res_redirect := redirect;
     res_missing := true;
     res_fullurl := Some ("http://example.org/wiki/" ++ title);
     res_protection := Some [];
     res_edittoken := Some "0123456789abcdef+\";
     res_ns := Some ns;
     res_lastrevid := None;
     res_revisions := None |}.

(** The entry of a title the remote finds invalid. *)
Definition invalid_entry (title : string) : page_entry :=
  {| res_title := Some title;
     res_redirect := false;
     res_missing := false;
     res_fullurl := None;
     res_protection := None;
     res_edittoken := None;
     res_ns := None;
     res_lastrevid := None;
     res_revisions := None |}.

(** A page whose metadata fetch found the title invalid. *)
Definition invalid_page : Page :=
  page_of (_load_attributes (Site0 := anonymous) (Runtime0 := runtime) None
             (__init__ (Site0 := anonymous) "A[B" false)
             [pages (-1) (invalid_entry "A[B")]).

(** A page that was fetched, token included, while its title was
    valid, and fetched again after the remote came to reject it. *)
Definition stale_page : Page :=
  page_of (_load_attributes (Site0 := anonymous) (Runtime0 := runtime) None
             (page_of (_load_attributes (Site0 := anonymous) (Runtime0 := runtime) None
                         plain_page_A [pages 1 (entry "A" 0 false "Text of A")]))
             [pages (-1) (invalid_entry "A")]).

(** A title in the Special namespace, and an answer that gives it a
    negative page id, the "missing" marker and namespace -1. *)
Definition special_page : Page := __init__ (Site0 := anonymous) "Special:Log" false.

Definition special_missing : list api_response :=
  [pages (-1) (missing_entry "Special:Log" (-1) false)].

(** A missing page that the remote marks as a redirect. *)
Definition missing_redirect : list api_response :=
  [pages (-1) (missing_entry "A" 0 true)].

(** The session is rejected as anonymous; after the login the remote
    hands out no edit token. *)
Definition no_token_after_login : list api_response :=
  [pages 1 (entry "A" 0 false "Text of A");
   rejected "noedit-anon" "Anonymous users cannot edit pages";
   pages 1 (entry_without_token "A" 0)].

(** The session is rejected as anonymous before and after the login. *)
Definition rejected_twice : list api_response :=
  [pages 1 (entry "A" 0 false "Text of A");
   rejected "noedit-anon" "Anonymous users cannot edit pages";
   pages 1 (entry "A" 0 false "Text of A");
   rejected "noedit-anon" "Anonymous users cannot edit pages"].

(** An edit conflict, then the text that won. *)
Definition conflict_then_text : list api_response :=
  [pages 1 (entry "A" 0 false "Text of A");
   rejected "editconflict" "Edit conflict detected";
   pages 1 (entry "A" 0 false "Their text")].

(** A page that does not exist yet, created and then overwritten. *)
Definition create_then_overwrite : list api_response :=
  [pages (-1) (missing_entry "A" 0 false); edit_success; edit_success].

Definition kwargs (text summary : string) : edit_kwargs :=
  mkKwargs (Some text) (Some summary) false false false None None None.

(** The names of the namespaces of the scripted site, by id; [inr]
    stands for the error of the converter on an id the site does not
    have. *)
Definition namespace_names (n : Z) : string + exn :=
  if (n =? 0)%Z then inl EmptyString
  else if (n =? 1)%Z then inl "Talk"
  else if (n =? 2)%Z then inl "User"
  else if (n =? 3)%Z then inl "User talk"
  else if (n =? -1)%Z then inl "Special"
  else if (n =? -2)%Z then inl "Media"
  else inr (KeyError "namespace").

(** A page that a metadata fetch found missing. *)
Definition missing_page : Page :=
  page_of (_load_attributes (Site0 := anonymous) (Runtime0 := runtime) None
             plain_page_A [pages (-1) (missing_entry "A" 0 false)]).

(** A page that was read once: its metadata and its text are cached. *)
Definition read_page (redirect : bool) (text : string) : Page :=
  page_of (get (Site0 := anonymous) (Runtime0 := runtime) 2
             plain_page_A [pages 1 (entry "A" 0 redirect text)]).

(** The session is rejected as anonymous; after the login the
    resubmission is accepted. *)
Definition rejected_then_accepted : list api_response :=
  [pages 1 (entry "A" 0 false "Text of A");
   rejected "noedit-anon" "Anonymous users cannot edit pages";
   pages 1 (entry "A" 0 false "Text of A");
   edit_success].

(** The metadata of A, then its text. *)
Definition metadata_then_text : list api_response :=
  [pages 1 (entry "A" 0 false "Text of A");
   pages 1 (entry "A" 0 false "Newer text of A")].

End Examples.

(** ** Weakest preconditions *)

Definition wp {RS A} (m : M RS A) (Q : outcome A → Page → RS → list event → Prop)
    (p : Page) (r : RS) : Prop :=
  let '(o, p', r', t) := m p r in Q o p' r' t.
Global Arguments wp : simpl never.

Section WP.
Context {RS : Type} `{!Site RS, !Runtime RS}.
Implicit Types (p : Page) (r : RS).

Lemma wp_run {A} (m : M RS A) Q p r o p' r' t :
  wp m Q p r → m p r = (o, p', r', t) → Q o p' r' t.
Proof. unfold wp. intros H E. rewrite E in H. exact H. Qed.

Lemma wp_intro {A} (m : M RS A) (Q : outcome A → Page → RS → list event → Prop) p r :
  (∀ o p' r' t, m p r = (o, p', r', t) → Q o p' r' t) → wp m Q p r.
Proof. unfold wp. intros H. destruct (m p r) as [[[o p'] r'] t]. by apply H. Qed.

Lemma wp_mono {A} (m : M RS A) (Q Q' : outcome A → Page → RS → list event → Prop) p r :
  wp m Q p r → (∀ o p' r' t, Q o p' r' t → Q' o p' r' t) → wp m Q' p r.
Proof. unfold wp. destruct (m p r) as [[[o p'] r'] t]. auto. Qed.

Lemma wp_and {A} (m : M RS A) (Q Q' : outcome A → Page → RS → list event → Prop) p r :
  wp m Q p r → wp m Q' p r → wp m (λ o p' r' t, Q o p' r' t ∧ Q' o p' r' t) p r.
Proof. unfold wp. destruct (m p r) as [[[o p'] r'] t]. auto. Qed.

Lemma wp_bind {A B} (m : M RS A) (k : A → M RS B) Q p r :
  wp m (λ o p1 r1 t1,
          match o with
          | Returned a => wp (k a) (λ o2 p2 r2 t2, Q o2 p2 r2 (t1 ++ t2)%list) p1 r1
          | Raised e => Q (Raised e) p1 r1 t1
          | OutOfFuel => Q OutOfFuel p1 r1 t1
          end) p r →
  wp (m ≫= k) Q p r.
Proof.
  unfold wp, mbind, M_bind. destruct (m p r) as [[[[a|e|] p1] r1] t1]; auto.
  destruct (k a p1 r1) as [[[o2 p2] r2] t2]; auto.
Qed.

Lemma wp_ret {A} (a : A) (Q : outcome A → Page → RS → list event → Prop) p r :
  Q (Returned a) p r [] → wp (mret a) Q p r.
Proof. auto. Qed.

Lemma wp_raise {A} e (Q : outcome A → Page → RS → list event → Prop) p r :
  Q (Raised e) p r [] → wp (raise e) Q p r.
Proof. auto. Qed.

Lemma wp_out_of_fuel {A} (Q : outcome A → Page → RS → list event → Prop) p r :
  Q OutOfFuel p r [] → wp out_of_fuel Q p r.
Proof. auto. Qed.

Lemma wp_attr {A} (f : Page → A) (Q : outcome A → Page → RS → list event → Prop) p r :
  Q (Returned (f p)) p r [] → wp (attr f) Q p r.
Proof. auto. Qed.

Lemma wp_assign upd (Q : outcome unit → Page → RS → list event → Prop) p r :
  Q (Returned tt) (upd p) r [] → wp (assign upd) Q p r.
Proof. auto. Qed.

Lemma wp_retarget target (Q : outcome unit → Page → RS → list event → Prop) p r :
  Q (Returned tt) (with_title target p) r [EvFollowRedirect target] →
  wp (retarget target) Q p r.
Proof. auto. Qed.

Lemma wp_clock (Q : outcome string → Page → RS → list event → Prop) p r :
  Q (Returned (strftime_gmtime r)) p r [] → wp clock Q p r.
Proof. auto. Qed.

Lemma wp_login (Q : outcome unit → Page → RS → list event → Prop) p r :
  Q (Returned tt) p (_login _login_info r) [EvLogin _login_info] → wp login Q p r.
Proof. auto. Qed.

Lemma wp_query params (Q : outcome api_result → Page → RS → list event → Prop) p r :
  (∀ resp r', api_query params r = (resp, r') →
     match resp with
     | ApiOk res => Q (Returned res) p r' [EvApiQuery params resp]
     | ApiError d => Q (Raised (SiteAPIError d)) p r' [EvApiQuery params resp]
     end) →
  wp (query params) Q p r.
Proof.
  unfold wp, query. intros H. destruct (api_query params r) as [resp r'] eqn:E.
  specialize (H _ _ eq_refl). by destruct resp.
Qed.

Lemma wp_try_except {A} (m : M RS A) h (Q : outcome A → Page → RS → list event → Prop) p r :
  wp m (λ o p1 r1 t1,
          match o with
          | Raised (SiteAPIError d) =>
              wp (h d) (λ o2 p2 r2 t2, Q o2 p2 r2 (t1 ++ t2)%list) p1 r1
          | _ => Q o p1 r1 t1
          end) p r →
  wp (try_except_SiteAPIError m h) Q p r.
Proof.
  unfold wp, try_except_SiteAPIError.
  destruct (m p r) as [[[[a|e|] p1] r1] t1]; auto.
  destruct e; auto. destruct (h detail p1 r1) as [[[o2 p2] r2] t2]; auto.
Qed.

End WP.

(** One step of symbolic execution of a method. *)
Ltac wp_step :=
  lazymatch goal with
  | |- wp (mbind _ _) _ _ _ => apply wp_bind
  | |- wp (mret _) _ _ _ => apply wp_ret
  | |- wp (raise _) _ _ _ => apply wp_raise
  | |- wp out_of_fuel _ _ _ => apply wp_out_of_fuel
  | |- wp (attr _) _ _ _ => apply wp_attr
  | |- wp (assign _) _ _ _ => apply wp_assign
  | |- wp (retarget _) _ _ _ => apply wp_retarget
  | |- wp clock _ _ _ => apply wp_clock
  | |- wp login _ _ _ => apply wp_login
  | |- wp (query _) _ _ _ => apply wp_query; intros [?|?] ? ?
  | |- wp (try_except_SiteAPIError _ _) _ _ _ => apply wp_try_except
  | |- wp (getitem _ ?o) _ _ _ => unfold getitem; destruct o eqn:?
  | |- wp (first_page _) _ _ _ => unfold first_page
  | |- wp _assert_validity _ _ _ => unfold _assert_validity
  | |- wp _assert_existence _ _ _ => unfold _assert_existence
  | |- wp should_follow _ _ _ => unfold should_follow
  | |- wp (if ?b then _ else _) _ _ _ => destruct b eqn:?
  | |- wp (match ?x with _ => _ end) _ _ _ => destruct x eqn:?
  end; cbn beta match zeta.

Ltac wp_go := repeat wp_step.

Lemma run_eta {RS A} (x : outcome A * Page * RS * list event) :
  x = (outcome_of x, page_of x, world_of x, events_of x).
Proof. by destruct x as [[[o p] r] t]. Qed.

(** ** Event logs *)

Lemma count_app f t1 t2 : count f (t1 ++ t2)%list = (count f t1 + count f t2)%nat.
Proof. induction t1 as [|ev t1 IH]; simpl; [done|]. rewrite IH. lia. Qed.

Lemma fetched_texts_app t1 t2 :
  fetched_texts (t1 ++ t2)%list = (fetched_texts t1 ++ fetched_texts t2)%list.
Proof.
  induction t1 as [|ev t1 IH]; [done|]. simpl.
  destruct ev as [ps [res|d]| |]; simpl; try done.
  destruct (result_text res); simpl; by rewrite IH.
Qed.

Lemma get_params_kind title :
  is_content_fetch (get_params title) = true
  ∧ is_metadata_fetch (get_params title) = true
  ∧ is_submission (get_params title) = false.
Proof. by vm_compute. Qed.

Lemma load_content_params_kind title :
  is_content_fetch (load_content_params title) = true
  ∧ is_metadata_fetch (load_content_params title) = false
  ∧ is_submission (load_content_params title) = false.
Proof. by vm_compute. Qed.

Lemma load_attributes_params_kind title :
  is_content_fetch (load_attributes_params title) = false
  ∧ is_metadata_fetch (load_attributes_params title) = true
  ∧ is_submission (load_attributes_params title) = false.
Proof. by vm_compute. Qed.

Ltac wp_call lem :=
  eapply wp_mono;
  [ apply lem
  | cbn beta;
    let o := fresh "o" in let p := fresh "p" in let r := fresh "r" in
    let t := fresh "t" in let H := fresh "Hcall" in
    intros o p r t H ].

Ltac exists_cases :=
  match goal with
  | |- context [_exists ?q] => destruct (_exists q) eqn:?; try done; try congruence
  end.

Lemma get_params_content title : is_content_fetch (get_params title) = true.
Proof. apply get_params_kind. Qed.
Lemma get_params_metadata title : is_metadata_fetch (get_params title) = true.
Proof. apply get_params_kind. Qed.
Lemma get_params_submission title : is_submission (get_params title) = false.
Proof. apply get_params_kind. Qed.
Lemma load_content_params_content title : is_content_fetch (load_content_params title) = true.
Proof. apply load_content_params_kind. Qed.
Lemma load_content_params_metadata title : is_metadata_fetch (load_content_params title) = false.
Proof. apply load_content_params_kind. Qed.
Lemma load_content_params_submission title : is_submission (load_content_params title) = false.
Proof. apply load_content_params_kind. Qed.
Lemma load_attributes_params_content title : is_content_fetch (load_attributes_params title) = false.
Proof. apply load_attributes_params_kind. Qed.
Lemma load_attributes_params_metadata title : is_metadata_fetch (load_attributes_params title) = true.
Proof. apply load_attributes_params_kind. Qed.
Lemma load_attributes_params_submission title : is_submission (load_attributes_params title) = false.
Proof. apply load_attributes_params_kind. Qed.

Lemma is_submission_true (ps : Params) :
  ps !! "action" = Some (PStr "edit") → is_submission ps = true.
Proof. intros H. unfold is_submission. by apply bool_decide_eq_true. Qed.

Lemma is_submission_insert_token v (ps : Params) :
  is_submission (<["token" := v]> ps) = is_submission ps.
Proof. unfold is_submission. by rewrite lookup_insert_ne. Qed.

Lemma is_submission_nonempty (ps : Params) : is_submission ps = true → ps ≠ ∅.
Proof.
  unfold is_submission. intros H%bool_decide_eq_true ->. by rewrite lookup_empty in H.
Qed.

Global Opaque get_params load_content_params load_attributes_params.
Global Opaque is_content_fetch is_metadata_fetch is_submission.

Ltac count_simpl :=
  rewrite ?count_app;
  cbn [count app submission_event content_fetch_event metadata_fetch_event
       query_event login_event follow_event];
  rewrite ?get_params_content, ?get_params_metadata, ?get_params_submission,
    ?load_content_params_content, ?load_content_params_metadata,
    ?load_content_params_submission, ?load_attributes_params_content,
    ?load_attributes_params_metadata, ?load_attributes_params_submission;
  cbn [Nat.add].

(** ** Metadata fetches *)

Section LoadAttributes.
Context {RS : Type} `{!Site RS, !Runtime RS}.
Implicit Types (p : Page) (r : RS).

(** What a metadata fetch that returns has stored. *)
Lemma load_attributes_returned result p r :
  wp (_load_attributes result)
     (λ o p' r' t,
        o = Returned tt →
        ∃ res0 key res rest,
          metadata_source result p r res0 r' t
          ∧ r_pages res0 = Some ((key, res) :: rest)
          ∧ _exists p' = classify key res
          ∧ _pageid p' = Some key
          ∧ _is_redirect p' = Some (res_redirect res)
          ∧ res_title res = Some (_title p')
          ∧ (if decide (classify key res = Invalid)
             then _namespace p' = _namespace p ∧ _is_talkpage p' = _is_talkpage p
                  ∧ _token p' = _token p
             else res_ns res = Some (_namespace p')
                  ∧ _is_talkpage p' = (_namespace p' `mod` 2 =? 1)%Z)) p r.
Proof.
  unfold _load_attributes.
  wp_go; simpl; try discriminate; intros _.
  all: eexists _, _, _, _; unfold metadata_source, classify.
  all: repeat match goal with H : (_ <? _)%Z = _ |- _ => rewrite H end;
       repeat match goal with H : res_missing _ = _ |- _ => rewrite H end; simpl.
  all: split_and!; done.
Qed.

(** What a metadata fetch leaves alone, however it ends; it never
    runs out of fuel, and it sends one query exactly when it was not
    handed a result. *)
Lemma load_attributes_frame result p r :
  wp (_load_attributes result)
     (λ o p' r' t,
        _content p' = _content p
        ∧ _basetimestamp p' = _basetimestamp p
        ∧ _keep_following p' = _keep_following p
        ∧ _follow_redirects p' = _follow_redirects p
        ∧ o ≠ OutOfFuel
        ∧ match result with
          | Some _ => r' = r ∧ t = []
          | None =>
              ∃ resp, api_query (load_attributes_params (_title p)) r = (resp, r')
                      ∧ t = [EvApiQuery (load_attributes_params (_title p)) resp]
          end) p r.
Proof.
  unfold _load_attributes.
  wp_go; simpl; split_and!; try done; eauto.
Qed.


(** At construction the talk-page flag follows the parity of the
    namespace, except that negative namespaces are never talk pages. *)
Lemma init_talkpage title follow :
  _is_talkpage (__init__ title follow) =
    (if (_namespace (__init__ title follow) <? 0)%Z then false
     else (_namespace (__init__ title follow) `mod` 2 =? 1)%Z).
Proof. reflexivity. Qed.

(** After a metadata fetch that did not stop at an invalid title the
    flag is the parity of the fetched namespace, whatever its sign. *)
Lemma load_attributes_talkpage result p r p' r' t :
  _load_attributes result p r = (Returned tt, p', r', t) →
  _exists p' ≠ Invalid →
  _is_talkpage p' = (_namespace p' `mod` 2 =? 1)%Z.
Proof.
  intros E Hne.
  destruct (wp_run _ _ _ _ _ _ _ _ (load_attributes_returned result p r) E eq_refl)
    as (res0 & key & res & rest & _ & _ & Hex & _ & _ & _ & Hns).
  rewrite Hex in Hne. case_decide; [done|]. by destruct Hns.
Qed.


(** Both facts about a metadata fetch at once. *)
Lemma load_attributes_spec result p r :
  wp (_load_attributes result)
     (λ o p' r' t,
        (_content p' = _content p
         ∧ _basetimestamp p' = _basetimestamp p
         ∧ _keep_following p' = _keep_following p
         ∧ _follow_redirects p' = _follow_redirects p
         ∧ o ≠ OutOfFuel
         ∧ match result with
           | Some _ => r' = r ∧ t = []
           | None =>
               ∃ resp, api_query (load_attributes_params (_title p)) r = (resp, r')
                       ∧ t = [EvApiQuery (load_attributes_params (_title p)) resp]
           end)
        ∧ (o = Returned tt → _exists p' ≠ Unknown ∧ ∃ b, _is_redirect p' = Some b)) p r.
Proof.
  apply wp_and; [apply load_attributes_frame|].
  wp_call load_attributes_returned.
  intros Ho. destruct (Hcall Ho) as (res0 & key & res & rest & _ & _ & Hex & _ & Hr & _).
  split; [|eauto]. rewrite Hex. unfold classify. by repeat case_match.
Qed.

End LoadAttributes.

Ltac call_load_attributes :=
  wp_call load_attributes_spec;
  match goal with
  | H : _ ∧ (?o = Returned tt → _) |- _ =>
      let Hc := fresh "Hc" in let Hb := fresh "Hb" in let Hk := fresh "Hk" in
      let Hf := fresh "Hf" in let Hfuel := fresh "Hfuel" in let Ht := fresh "Ht" in
      let Hret := fresh "Hret" in
      destruct H as [(Hc & Hb & Hk & Hf & Hfuel & Ht) Hret];
      destruct o as [[]| |];
      [ destruct (Hret eq_refl) as [? [? ?]]; clear Hret | clear Hret.. ]
  end.


(** ** Content loads *)

Section LoadContent.
Context {RS : Type} `{!Site RS, !Runtime RS}.
Implicit Types (p : Page) (r : RS).

Lemma load_content_frame result p r :
  wp (_load_content result)
     (λ o p' r' t,
        _keep_following p' = _keep_following p
        ∧ _follow_redirects p' = _follow_redirects p
        ∧ o ≠ OutOfFuel
        ∧ (o = Returned tt → _exists p' = _exists p ∨ _exists p' = Exists)) p r.
Proof.
  unfold _load_content.
  wp_go.
  all: try (call_load_attributes; wp_go).
  all: simpl in *; split_and!; try done; try congruence.
  all: intros _; first [left; done | right; exists_cases].
Qed.

Lemma load_content_trace result p r :
  wp (_load_content result)
     (λ o p' r' t,
        count follow_event t = 0%nat
        ∧ count submission_event t = 0%nat
        ∧ count login_event t = 0%nat
        ∧ count content_fetch_event t = (if result is None then 1 else 0)%nat
        ∧ (result = None →
           ∃ resp t', t = EvApiQuery (load_content_params (_title p)) resp :: t')) p r.
Proof.
  unfold _load_content.
  wp_go.
  all: try (call_load_attributes; wp_go).
  all: repeat match goal with H : ∃ _, _ ∧ _ = [_] |- _ => destruct H as (? & ? & ->) end.
  all: count_simpl.
  all: split_and!; try done; eauto.
Qed.
Lemma result_text_intro a k e l rev l' s :
  r_pages a = Some ((k, e) :: l) → res_revisions e = Some (rev :: l') →
  rev_star rev = Some s → result_text a = Some s.
Proof. unfold result_text. by intros -> -> ->. Qed.

Lemma load_content_text result p r :
  wp (_load_content result)
     (λ o p' r' t,
        ∀ c, _content p' = Some c →
             _content p = Some c ∨ c ∈ text_source result t) p r.
Proof.
  unfold _load_content.
  wp_go.
  all: try (call_load_attributes; wp_go).
  all: repeat match goal with H : ∃ _, _ ∧ _ = [_] |- _ => destruct H as (? & ? & ->) end.
  all: intros c Hcontent; simpl in *.
  all: first [ left; congruence | right ].
  all: assert (c = s) as -> by congruence.
  all: unfold text_source; rewrite ?fetched_texts_app; simpl.
  all: erewrite result_text_intro by eassumption.
  all: set_unfold; naive_solver.
Qed.

End LoadContent.

(** ** Reading the content: [get] *)

Section Get1.
Context {RS : Type} `{!Site RS, !Runtime RS}.
Implicit Types (p : Page) (r : RS).

Lemma load_content_spec result p r :
  wp (_load_content result)
     (λ o p' r' t,
        (_keep_following p' = _keep_following p
         ∧ _follow_redirects p' = _follow_redirects p
         ∧ o ≠ OutOfFuel
         ∧ (o = Returned tt → _exists p' = _exists p ∨ _exists p' = Exists))
        ∧ (count follow_event t = 0%nat
           ∧ count submission_event t = 0%nat
           ∧ count login_event t = 0%nat
           ∧ count content_fetch_event t = (if result is None then 1 else 0)%nat
           ∧ (result = None →
              ∃ resp t', t = EvApiQuery (load_content_params (_title p)) resp :: t'))
        ∧ (∀ c, _content p' = Some c →
                _content p = Some c ∨ c ∈ text_source result t)) p r.
Proof.
  apply wp_and; [apply load_content_frame|].
  apply wp_and; [apply load_content_trace|apply load_content_text].
Qed.

End Get1.

Ltac call_load_content :=
  wp_call load_content_spec;
  match goal with
  | H : _ ∧ _ ∧ _ |- match ?o with _ => _ end =>
      let Hk := fresh "Hk" in let Hf := fresh "Hf" in let Hfuel := fresh "Hfuel" in
      let Hex := fresh "Hex" in let Hn1 := fresh "Hn" in let Hn2 := fresh "Hn" in
      let Hn3 := fresh "Hn" in let Hn4 := fresh "Hn" in let Hfirst := fresh "Hfirst" in
      let Htext := fresh "Htext" in
      destruct H as [(Hk & Hf & Hfuel & Hex) [(Hn1 & Hn2 & Hn3 & Hn4 & Hfirst) Htext]];
      destruct o as [[]| |]; [specialize (Hex eq_refl) | clear Hex | done]
  end.

Section Get2.
Context {RS : Type} `{!Site RS, !Runtime RS}.
Implicit Types (p : Page) (r : RS).

Lemma get_known n p r :
  _exists p ≠ Unknown →
  wp (get (S n))
     (λ o p' r' t,
        _keep_following p' = _keep_following p
        ∧ _follow_redirects p' = _follow_redirects p
        ∧ o ≠ OutOfFuel
        ∧ count follow_event t = 0%nat
        ∧ count submission_event t = 0%nat
        ∧ count login_event t = 0%nat
        ∧ (∀ v, o = Returned v → v = _content p' ∧ _exists p' = Exists)
        ∧ (∀ c, _content p = Some c → p' = p ∧ r' = r ∧ t = [])
        ∧ (count content_fetch_event t ≤ 1)%nat
        ∧ (∀ v, o = Returned v → _content p = None → count content_fetch_event t = 1%nat)
        ∧ (∀ c, _content p' = Some c → _content p = Some c ∨ c ∈ fetched_texts t)) p r.
Proof.
  intros Hne. simpl.
  wp_go; try done.
  all: try (call_load_content; wp_go).
  all: count_simpl.
  all: split_and!; intros; simplify_eq/=; try done; try lia; try congruence.
  all: rewrite ?app_nil_r in *.
  all: try (by left).
  all: try (split; [done|]; try destruct Hex as [Hex|Hex]; rewrite ?Hex; first [done|exists_cases]).
  all: try (match goal with
            | Ht : ∀ c, _ = Some c → _, H : _ = Some _ |- _ => destruct (Ht _ H); [congruence| by right]
            end).
Qed.

End Get2.

Create Rewrite HintDb kinds.
#[global] Hint Rewrite count_app get_params_content get_params_metadata get_params_submission
  load_content_params_content load_content_params_metadata load_content_params_submission
  load_attributes_params_content load_attributes_params_metadata
  load_attributes_params_submission : kinds.

Ltac spec_returned :=
  repeat match goal with
         | H : ∀ v, Returned ?a = Returned v → _ |- _ => specialize (H a eq_refl)
         end.

(** Closes the leaves of a symbolic execution: the facts collected on
    the way are split and put to use, the counts of the log are
    computed, and what is left is arithmetic or equational. *)
Ltac quick := first [fast_done | congruence | lia].

Ltac use_hyps :=
  repeat match goal with
         | H : ?P → _ |- _ =>
             let HP := fresh in
             assert P as HP by quick;
             specialize (H HP); clear HP
         end.

Ltac inj_events :=
  repeat match goal with
         | H : _ :: _ = _ :: _ |- _ => injection H as ? ?
         | H : EvApiQuery _ _ = EvApiQuery _ _ |- _ => injection H as ?
         | H : ?x = _ |- _ => is_var x; subst x
         | H : _ = ?x |- _ => is_var x; subst x
         end.

Ltac norm_hyps :=
  spec_returned;
  repeat first
    [ destruct_or! | destruct_and!
    | match goal with H : ∃ _, _ |- _ => destruct H end
    | progress use_hyps
    | progress inj_events ];
  rewrite ?app_nil_r in *; autorewrite with kinds in *; simpl in *.

Ltac finish :=
  norm_hyps;
  repeat match goal with
         | |- _ ∧ _ => split
         | |- _ → _ => intro
         | |- ∀ _, _ => intro
         end;
  norm_hyps;
  split_and?; try quick; eauto.

Section Get3.
Context {RS : Type} `{!Site RS, !Runtime RS}.
Implicit Types (p : Page) (r : RS).

Lemma get_flags fuel p r :
  wp (get fuel)
     (λ o p' r' t,
        _follow_redirects p' = _follow_redirects p
        ∧ (_keep_following p' = true →
           _keep_following p = true ∧ count follow_event t = 0%nat)
        ∧ (_keep_following p = false → count follow_event t = 0%nat)
        ∧ (count follow_event t ≤ 1)%nat
        ∧ ((2 ≤ fuel)%nat
           ∨ (1 ≤ fuel)%nat ∧ (_keep_following p = false ∨ _exists p ≠ Unknown) →
           o ≠ OutOfFuel)
        ∧ count submission_event t = 0%nat
        ∧ count login_event t = 0%nat
        ∧ (_keep_following p = false → (count content_fetch_event t ≤ 1)%nat)
        ∧ (∀ v, o = Returned v → count follow_event t = 0%nat →
                (count content_fetch_event t ≤ 1)%nat)
        ∧ (count content_fetch_event t ≤ 3)%nat
        ∧ (_exists p = Unknown → (1 ≤ fuel)%nat →
           ∃ resp t', t = EvApiQuery (get_params (_title p)) resp :: t')) p r.
Proof.
  revert p r. induction fuel as [|fuel IH]; intros p r.
  { simpl. wp_go. split_and!; intros; simpl; try done; lia. }
  destruct (decide (_exists p = Unknown)) as [Hunk|Hknown].
  2: { wp_call (get_known fuel p r Hknown).
       destruct Hcall as (Hk & Hf & Hfuel & Hn1 & Hn2 & Hn3 & _ & _ & Hn4 & _).
       rewrite Hk. split_and!; try done; try lia. }
  simpl. wp_go; try done.
  2: { finish. }
  (* the combined query is answered *)
  call_load_attributes; [|finish..].
  destruct Ht as [-> ->].
  wp_go.
  1,2: finish.
  call_load_content; [|finish].
  assert (_exists p1 ≠ Unknown) as Hne1 by (destruct Hex as [Hex|Hex]; rewrite Hex; done).
  wp_go.
  - (* the page is a redirect and we are to follow it *)
    apply andb_true_iff in Heqb as [Hkeep Hredir].
    unfold get_redirect_target_with. apply wp_bind.
    destruct fuel as [|fuel'].
    { simpl. wp_go. clear IH. finish. }
    wp_call (get_known fuel' p1 r1 Hne1).
    destruct Hcall as (Hk' & Hf' & Hfuel' & Hn1' & Hn2' & Hn3' & _ & _ & Hn4' & _).
    destruct o as [v| |]; [|clear IH; finish..].
    wp_go.
    2,3: clear IH; finish.
    wp_call IH.
    destruct Hcall as (If & Ikeep & Ikeep' & Ileq & Ifuel & Isub & Ilog & Icont & _ & Icont3 & _).
    simpl in *. clear IH.
    destruct o; wp_go.
    all: finish.
  - (* nothing to follow *)
    finish.
Qed.

End Get3.

Ltac chase_text :=
  repeat match goal with
         | Ht : ∀ c, _content ?q = Some c → _, H : _content ?q = Some ?c |- _ =>
             destruct (Ht c H); clear Ht
         | E : _content ?q = _content ?q', H : _content ?q = Some _ |- _ =>
             rewrite E in H
         end.

Ltac finish_text :=
  intros; simpl in *; rewrite ?app_nil_r, ?fetched_texts_app; simpl;
  chase_text;
  first [ left; congruence
        | right; unfold text_source in *; repeat case_match; set_unfold; naive_solver ].

Ltac finish_values :=
  split;
  [ intros; simplify_eq/=;
    repeat match goal with
           | H : ∀ v, Returned ?a = Returned v → _ |- _ => specialize (H a eq_refl)
           end;
    destruct_and?; try done; try (split; congruence)
  | finish_text ].

Section Get4.
Context {RS : Type} `{!Site RS, !Runtime RS}.
Implicit Types (p : Page) (r : RS).

Lemma get_values fuel p r :
  wp (get fuel)
     (λ o p' r' t,
        (∀ v, o = Returned v → v = _content p' ∧ _exists p' = Exists)
        ∧ (∀ c, _content p' = Some c → _content p = Some c ∨ c ∈ fetched_texts t)) p r.
Proof.
  revert p r. induction fuel as [|fuel IH]; intros p r.
  { simpl. wp_go. finish_values. }
  destruct (decide (_exists p = Unknown)) as [Hunk|Hknown].
  2: { wp_call (get_known fuel p r Hknown).
       destruct Hcall as (_ & _ & _ & _ & _ & _ & Hv & _ & _ & _ & Ht). done. }
  simpl. wp_go; try done.
  2: { finish_values. }
  call_load_attributes; [|finish_values..].
  destruct Ht as [-> ->].
  wp_go.
  1,2: finish_values.
  call_load_content; [|finish_values].
  assert (_exists p1 = Exists) as Hex1.
  { destruct Hex as [Hex|Hex]; rewrite Hex; [|done]. by destruct (_exists p0). }
  wp_go.
  - unfold get_redirect_target_with. apply wp_bind.
    wp_call IH. destruct Hcall as [Iv It].
    destruct o as [v| |]; [|clear IH; finish_values..].
    wp_go.
    2,3: clear IH; finish_values.
    wp_call IH. destruct Hcall as [Iv' It']. clear IH.
    destruct o; wp_go.
    all: finish_values.
  - finish_values.
Qed.

End Get4.

(** ** Loading the attributes and following a redirect: [_load] *)

Section Load.
Context {RS : Type} `{!Site RS, !Runtime RS}.
Implicit Types (p : Page) (r : RS).

Lemma load_spec fuel p r :
  wp (_load fuel)
     (λ o p' r' t,
        _follow_redirects p' = _follow_redirects p
        ∧ (_keep_following p' = true →
           _keep_following p = true ∧ count follow_event t = 0%nat)
        ∧ (_keep_following p = false →
           ∃ resp, t = [EvApiQuery (load_attributes_params (_title p)) resp])
        ∧ (count follow_event t ≤ 1)%nat
        ∧ ((1 ≤ fuel)%nat → o ≠ OutOfFuel)
        ∧ count submission_event t = 0%nat
        ∧ count login_event t = 0%nat
        ∧ (∃ resp t', t = EvApiQuery (load_attributes_params (_title p)) resp :: t')
        ∧ (o = Returned tt → _exists p' ≠ Unknown ∧ ∃ b, _is_redirect p' = Some b)
        ∧ (_content p = None →
           (o = Returned tt →
            _content p' = None ∧ count content_fetch_event t = count follow_event t)
           ∧ (count content_fetch_event t ≤ 1)%nat)
        ∧ (_keep_following p = false → _content p' = _content p)) p r.
Proof.
  unfold _load.
  wp_go. call_load_attributes; [|finish..].
  wp_go.
  - apply andb_true_iff in Heqb as [Hkeep Hredir].
    unfold get_redirect_target, get_redirect_target_with. apply wp_bind.
    destruct fuel as [|fuel'].
    { simpl. wp_go. finish. }
    assert (_exists p0 ≠ Unknown) as Hne0 by done.
    wp_call (get_known fuel' p0 r0 Hne0).
    destruct Hcall as (Hk' & Hf' & Hfuel' & Hn1' & Hn2' & Hn3' & Hv' & _ & Hn4' & Hn5' & _).
    destruct o as [v| |]; [|finish..].
    wp_go.
    2,3: finish.
    call_load_attributes.
    all: finish.
  - finish.
Qed.

End Load.

Ltac call_load :=
  wp_call load_spec;
  match goal with
  | H : _ ∧ _ |- match ?o with _ => _ end =>
      let Lf := fresh "Lf" in let Lkeep := fresh "Lkeep" in let Lone := fresh "Lone" in
      let Lhop := fresh "Lhop" in let Lfuel := fresh "Lfuel" in let Lsub := fresh "Lsub" in
      let Llog := fresh "Llog" in let Lfirst := fresh "Lfirst" in let Lret := fresh "Lret" in
      let Lcont := fresh "Lcont" in let Lsame := fresh "Lsame" in
      destruct H as (Lf & Lkeep & Lone & Lhop & Lfuel & Lsub & Llog & Lfirst & Lret
                     & Lcont & Lsame);
      destruct o as [[]| |]
  end.

Ltac call_load_content_last :=
  wp_call load_content_spec;
  match goal with
  | H : _ ∧ _ ∧ _ |- _ =>
      let Hk := fresh "Hk" in let Hf := fresh "Hf" in let Hfuel := fresh "Hfuel" in
      let Hex := fresh "Hex" in let Hn1 := fresh "Hn" in let Hn2 := fresh "Hn" in
      let Hn3 := fresh "Hn" in let Hn4 := fresh "Hn" in let Hfirst := fresh "Hfirst" in
      let Htext := fresh "Htext" in
      destruct H as [(Hk & Hf & Hfuel & Hex) [(Hn1 & Hn2 & Hn3 & Hn4 & Hfirst) Htext]]
  end.

Section Reload.
Context {RS : Type} `{!Site RS, !Runtime RS}.
Implicit Types (p : Page) (r : RS).

Lemma reload_spec fuel p r :
  wp (reload fuel)
     (λ o p' r' t,
        _follow_redirects p' = _follow_redirects p
        ∧ (_keep_following p' = true →
           _keep_following p = true ∧ count follow_event t = 0%nat)
        ∧ (_keep_following p = false → count follow_event t = 0%nat)
        ∧ (count follow_event t ≤ 1)%nat
        ∧ ((1 ≤ fuel)%nat → o ≠ OutOfFuel)
        ∧ count submission_event t = 0%nat
        ∧ count login_event t = 0%nat
        ∧ (∃ resp t', t = EvApiQuery (load_attributes_params (_title p)) resp :: t')
        ∧ (_content p = None →
           (o = Returned tt →
            _content p' = None ∧ count content_fetch_event t = count follow_event t)
           ∧ (_keep_following p = false → count content_fetch_event t = 0%nat)
           ∧ (count content_fetch_event t ≤ 1)%nat)) p r.
Proof.
  unfold reload.
  wp_go. call_load; [|finish..].
  wp_go.
  - call_load_content_last; finish.
  - finish.
Qed.

End Reload.

(** ** Reading twice, reloading *)

Section Reads.
Context {RS : Type} `{!Site RS, !Runtime RS}.
Implicit Types (p : Page) (r : RS).

Lemma wp_eq {A} (m : M RS A) p r x :
  wp m (λ o p' r' t, (o, p', r', t) = x) p r → m p r = x.
Proof. unfold wp. by destruct (m p r) as [[[? ?] ?] ?]. Qed.

Lemma get_of_cached n p r c :
  _exists p = Exists → _content p = Some c →
  get (S n) p r = (Returned (Some c), p, r, []).
Proof.
  intros Hex Hc. apply wp_eq. simpl.
  wp_go; simpl; congruence.
Qed.


(** C9, as amended: on a page whose content was never fetched, [reload]
    starts with the metadata fetch; when it returns the content is
    still unset, and it has fetched content exactly as often as it
    followed a redirect: never when following is disabled, once (to
    read the target) when it resolves a redirect. *)
Theorem reload_without_content fuel p r o p' r' t :
  (1 ≤ fuel)%nat → _content p = None →
  reload fuel p r = (o, p', r', t) →
  (∃ resp t', t = EvApiQuery (load_attributes_params (_title p)) resp :: t')
  ∧ (o = Returned tt →
     _content p' = None ∧ count content_fetch_event t = count follow_event t)
  ∧ (_keep_following p = false → count content_fetch_event t = 0%nat)
  ∧ (count content_fetch_event t ≤ 1)%nat
  ∧ o ≠ OutOfFuel.
Proof.
  intros Hfuel Hc E.
  destruct (wp_run _ _ _ _ _ _ _ _ (reload_spec fuel p r) E)
    as (_ & _ & _ & _ & Hf & _ & _ & Hfirst & Hcont).
  destruct (Hcont Hc) as (H1 & H2 & H3). split_and!; auto.
Qed.

End Reads.

Lemma lookup_setitem_if_ne c k v (m : Params) k' :
  k ≠ k' → setitem_if c k v m !! k' = m !! k'.
Proof. intros Hne. unfold setitem_if. destruct c; [|done]. by rewrite lookup_insert_ne. Qed.

Ltac lookup_params :=
  repeat first
    [ rewrite lookup_setitem_if_ne by done
    | rewrite lookup_insert_ne by (try (destruct (kw_minor _)); done) ].

(** ** Edit transactions *)

Section Build.
Context {RS : Type} `{!Site RS, !Runtime RS}.
Implicit Types (p : Page) (r : RS).

Lemma build_edit_params_spec kw p r :
  wp (_build_edit_params kw)
     (λ o p' r' t,
        p' = p ∧ r' = r ∧ t = [] ∧ o ≠ OutOfFuel
        ∧ ∀ ps, o = Returned ps →
            ps !! "action" = Some (PStr "edit")
            ∧ (kw_force kw = true ∨ _exists p ≠ Missing → ps !! "createonly" = None)
            ∧ (kw_force kw = false → _exists p = Missing →
               ps !! "createonly" = Some (PStr "true"))) p r.
Proof.
  unfold _build_edit_params.
  wp_go; split_and!; try done; intros ps [= <-].
  - split_and!.
    + lookup_params. by rewrite lookup_insert_eq.
    + intros [Hforce|Hne]; [by destruct (kw_force kw)|].
      rewrite bool_decide_eq_false_2 by done. unfold setitem_if at 1.
      lookup_params. apply lookup_empty.
    + intros _ Hex. rewrite bool_decide_eq_true_2 by done. unfold setitem_if at 1.
      by rewrite lookup_insert_eq.
  - split_and!.
    + lookup_params. by rewrite lookup_insert_eq.
    + intros _. lookup_params. apply lookup_empty.
    + intros Hforce. by destruct (kw_force kw).
Qed.

End Build.

Ltac call_build :=
  wp_call build_edit_params_spec;
  match goal with
  | H : _ ∧ _ |- match ?o with _ => _ end =>
      let Hb := fresh "Hbuild" in
      destruct H as (-> & -> & -> & ? & Hb);
      destruct o as [?| |]; [specialize (Hb _ eq_refl) as (? & ? & ?)|clear Hb|done]
  end.

Lemma code_in_elem code codes : code_in code codes = true → code ∈ codes.
Proof.
  unfold code_in. induction codes as [|c codes IH]; simpl; [done|].
  intros [H|H]%orb_true_iff.
  - apply String.eqb_eq in H as ->. by left.
  - right. auto.
Qed.

Ltac code_cases H :=
  apply code_in_elem in H;
  repeat (apply elem_of_cons in H as [->|H]; [done|]);
  by apply elem_of_nil in H.

Lemma permission_not_anon code :
  code_in code ["noedit"; "cantcreate"; "protectedtitle"; "noimageredirect"] = true →
  code_in code anon_codes = false.
Proof. intros H. code_cases H. Qed.

Lemma permission_not_conflict code :
  code_in code ["noedit"; "cantcreate"; "protectedtitle"; "noimageredirect"] = true →
  code_in code conflict_codes = false.
Proof. intros H. code_cases H. Qed.

Lemma anon_not_conflict code :
  code_in code anon_codes = true → code_in code conflict_codes = false.
Proof. intros H. code_cases H. Qed.

Section Handlers.
Context {RS : Type} `{!Site RS, !Runtime RS}.
Implicit Types (p : Page) (r : RS).

(** A rejected submission, for an attempt that may not log in. *)
Lemma handle_edit_errors_final ed code info params tries p r :
  tries ≠ 0%nat →
  wp (_handle_edit_errors ed code info params tries)
     (λ o p' r' t,
        t = [] ∧ r' = r
        ∧ _keep_following p' = _keep_following p
        ∧ _follow_redirects p' = _follow_redirects p
        ∧ ∃ e, o = Raised e
               ∧ settled (Returned tt) (ApiError (Some (code, info))) (Raised e) p') p r.
Proof.
  intros Htries. unfold _handle_edit_errors.
  wp_go.
  all: try (apply Nat.eqb_eq in Heqb2; done).
  all: split_and!; try done.
  all: eexists; split; [reflexivity|].
  all: unfold settled; cbn [successful session_failure conflict].
  all: fold anon_codes conflict_codes in *.
  all: rewrite ?(permission_not_anon _ Heqb), ?(permission_not_conflict _ Heqb).
  all: try rewrite ?(anon_not_conflict _ Heqb0).
  all: try rewrite Heqb0; try rewrite Heqb1.
  all: split_and!; try done.
  - intros _ Hcred. unfold credentials_configured in Hcred.
    by rewrite Hcred in Heqb1.
  - by intros ? [= <-].
Qed.

(** A failed assertion, for an attempt that may not log in. *)
Lemma handle_assert_edit_final ed res e status assertion params tries p r :
  tries ≠ 0%nat →
  r_edit res = Some e → edit_result e = Some status →
  String.eqb status "Success" = false → edit_assert e = Some assertion →
  wp (_handle_assert_edit ed assertion params tries)
     (λ o p' r' t,
        t = [] ∧ r' = r
        ∧ _keep_following p' = _keep_following p
        ∧ _follow_redirects p' = _follow_redirects p
        ∧ (∃ e, o = Raised e)
        ∧ settled (Returned tt) (ApiOk res) o p') p r.
Proof.
  intros Htries Hed Hres Hstatus Hassert. unfold _handle_assert_edit.
  wp_go.
  all: try (apply Nat.eqb_eq in Heqb1; done).
  all: split_and!; eauto.
  all: unfold settled; cbn [successful session_failure conflict].
  all: rewrite Hed, Hres, Hassert, Hstatus; cbn [negb andb].
  all: split_and!; try done.
  all: intros Huser Hcred; try congruence.
  unfold credentials_configured in Hcred. by rewrite Hcred in Heqb0.
Qed.

End Handlers.

Ltac call_load_attributes_frame :=
  wp_call load_attributes_frame;
  match goal with
  | H : _ ∧ _ |- match ?o with _ => _ end =>
      let Hc := fresh "Hc" in let Hb := fresh "Hb" in let Hk := fresh "Hk" in
      let Hf := fresh "Hf" in let Hfuel := fresh "Hfuel" in let Ht := fresh "Ht" in
      destruct H as (Hc & Hb & Hk & Hf & Hfuel & Ht);
      cbn beta match in Ht; destruct Ht as (? & ? & ->);
      destruct o as [[]| |]; [ | |done]
  end.

Ltac call_handler lem :=
  eapply wp_mono;
  [ eapply lem; eassumption
  | cbn beta;
    let o := fresh "o" in let p := fresh "p" in let r := fresh "r" in
    let t := fresh "t" in let H := fresh "Hcall" in
    intros o p r t H ].

Ltac edit_step :=
  lazymatch goal with
  | |- wp (_load_attributes _) _ _ _ => call_load_attributes_frame
  | |- wp (_build_edit_params _) _ _ _ => call_build
  | |- wp (_handle_edit_errors _ _ _ _ _) _ _ _ =>
      call_handler handle_edit_errors_final;
      match goal with
      | H : _ ∧ _ |- _ => destruct H as (-> & -> & ? & ? & ? & -> & ?)
      end
  | |- wp (_handle_assert_edit _ _ _ _) _ _ _ =>
      call_handler handle_assert_edit_final;
      match goal with
      | H : _ ∧ _ |- _ => destruct H as (-> & -> & ? & ? & [? ->] & ?)
      end
  | _ => wp_step
  end.

Ltac settle :=
  unfold settled; cbn [successful session_failure conflict];
  repeat match goal with
  | H : r_edit _ = _ |- _ => rewrite H
  | H : edit_result _ = _ |- _ => rewrite H
  | H : edit_assert _ = _ |- _ => rewrite H
  | H : (_ =? "Success") = _ |- _ => rewrite H
  end; cbn [negb andb]; unfold invalidated.

Section Attempt.
Context {RS : Type} `{!Site RS, !Runtime RS}.
Implicit Types (p : Page) (r : RS).

(** An attempt that may not log in sends at most one submission. *)
Lemma edit_single_attempt f given kw tries p r :
  tries ≠ 0%nat →
  wp (_edit (S f) given kw tries)
     (λ o p' r' t,
        _keep_following p' = _keep_following p
        ∧ _follow_redirects p' = _follow_redirects p
        ∧ count login_event t = 0%nat ∧ count follow_event t = 0%nat
        ∧ single_attempt given p o p' t) p r.
Proof.
  intros Htries. cbn [_edit].
  repeat edit_step.
  all: cbn [app]; rewrite ?app_nil_r.
  all: try congruence.
  all: split_and!; [simpl; congruence..| ].
  all: unfold single_attempt, token_fetch.
  all: match goal with
       | H : truthy_opt (_token _) = _ |- context [if ?b then _ else _] =>
           rewrite H
       end.
  all: eexists; split; [first [reflexivity | eexists; reflexivity]|].
  all: try (left; split; [reflexivity|eauto]; fail).
  all: try (right; eexists _, _; split; [cbn [app]; reflexivity|]).
  all: split_and?.
  all: try assumption.
  all: try (intros _; apply is_submission_true; assumption).
  all: try (intros [?|?]; [quick|]; rewrite is_submission_insert_token; assumption).
  all: try (intros ? [= <-] ? ?; first [quick | rewrite lookup_insert_ne; quick]).
  all: try (intros ? [=]; fail).
  all: try (settle; simpl; repeat (split_and?; intros); quick).
  all: settle; destruct (edit_assert _); simpl; repeat (split_and?; intros); quick.
Qed.

End Attempt.

Ltac transaction_step :=
  lazymatch goal with
  | |- wp (_load_attributes _) _ _ _ => call_load_attributes_frame
  | |- wp (_build_edit_params _) _ _ _ => call_build
  | |- wp (_handle_edit_errors _ _ _ _ _) _ _ _ => unfold _handle_edit_errors
  | |- wp (_handle_assert_edit _ _ _ _) _ _ _ => unfold _handle_assert_edit
  | |- wp (if (0 =? 0)%nat then _ else _) _ _ _ =>
      change (0 =? 0)%nat with true; cbn beta match
  | |- wp (_edit _ _ _ _) _ _ _ =>
      match goal with H : _ = S _ |- _ => rewrite H end;
      wp_call edit_single_attempt; [lia|];
      try match goal with |- match ?o with _ => _ end => destruct o as [[]| |] end;
      cbn beta match zeta
  | _ => wp_step
  end.

Ltac rewrite_answers :=
  fold anon_codes conflict_codes in *;
  repeat match goal with
  | H : negb _ = true |- _ => apply negb_true_iff in H
  | H : negb _ = false |- _ => apply negb_false_iff in H
  end;
  repeat match goal with
  | H : r_edit _ = _ |- _ => rewrite H
  | H : edit_result _ = _ |- _ => rewrite H
  | H : edit_assert _ = _ |- _ => rewrite H
  | H : (_ =? "Success") = _ |- _ => rewrite H
  | H : (_ =? "user") = _ |- _ => rewrite H
  | H : code_in _ anon_codes = _ |- _ => rewrite H
  | H : code_in _ conflict_codes = _ |- _ => rewrite H
  | H : code_in _ _ = true |- _ => rewrite (permission_not_anon _ H)
  | H : code_in _ _ = true |- _ => rewrite (permission_not_conflict _ H)
  | H : code_in _ _ = true |- _ => rewrite (anon_not_conflict _ H)
  | H : forallb truthy _login_info = _ |- _ => rewrite H
  | |- context [edit_assert ?e] => destruct (edit_assert e)
  end; cbn [negb andb].

Ltac decide_failure :=
  unfold credentials_configured; cbn [session_failure]; rewrite_answers.

Ltac close_settled :=
  unfold settled, credentials_configured; cbn [successful session_failure conflict];
  rewrite_answers; unfold invalidated; simpl;
  repeat (split_and?; intros); quick.

Section Transaction.
Context {RS : Type} `{!Site RS, !Runtime RS}.
Implicit Types (p : Page) (r : RS).

Lemma settled_retry resp o p' :
  settled (Returned tt) resp o p' →
  settled (Raised TypeError) resp
    (match o with Returned _ => Raised TypeError | _ => o end) p'.
Proof.
  unfold settled. intros (Hs & Hr & Hl & Hc & Hne).
  destruct o as [[]|e|]; [| |done].
  - split_and!; try done.
    + intros H. by destruct (Hs H) as (_ & ? & ?).
    + intros H1 H2. by specialize (Hl H1 H2).
    + intros info H. by destruct (Hc _ H).
  - split_and!; try done. intros H. by destruct (Hs H).
Qed.

Lemma edit_transaction n given kw p r :
  n ≠ 0%nat →
  wp (_edit (S n) given kw 0)
     (λ o p' r' t,
        _keep_following p' = _keep_following p
        ∧ _follow_redirects p' = _follow_redirects p
        ∧ count follow_event t = 0%nat
        ∧ transaction given kw p o p' t) p r.
Proof.
  intros Hn. destruct n as [|f]; [done|]. clear Hn.
  remember (S f) as n eqn:Hn. cbn [_edit].
  repeat transaction_step.
  all: cbn [app]; rewrite ?app_nil_r.
  all: try congruence.
  all: try match goal with
       | H : _ ∧ _ ∧ _ ∧ _ ∧ single_attempt _ _ _ _ _ |- _ =>
           let Hk := fresh "Hk" in let Hf := fresh "Hf" in
           destruct H as (Hk & Hf & _ & Hfo & Hat); simpl in Hk, Hf
       end.
  all: split_and!;
       [ simpl; congruence | simpl; congruence
       | cbn [count follow_event Nat.add]; quick | ].
  all: unfold transaction, token_fetch.
  all: match goal with
       | H : truthy_opt (_token _) = _ |- context [if ?b then _ else _] =>
           rewrite H
       end.
  all: eexists; split; [first [reflexivity | eexists; reflexivity]|].
  all: try (left; split; [reflexivity|eauto]; fail).
  all: right; eexists _, _, _; split; [cbn [app]; reflexivity|].
  all: split_and!.
  all: try (intros _; apply is_submission_true; assumption).
  all: try (intros [?|?]; [quick|]; rewrite is_submission_insert_token; assumption).
  all: try (intros [=]; fail).
  all: try (intros _ ?; first [quick | split; assumption]).
  all: decide_failure.
  all: try (split; [reflexivity|]; close_settled).
  all: unfold single_attempt, token_fetch in Hat; simpl in Hat.
  all: destruct Hat as (pre & [resp_m ->]
         & [[-> [e' He']] | (ps2 & resp2 & -> & Hsub2 & Hco2 & Hset)]).
  all: eexists _, _, _; (split; [reflexivity|]).
  all: try discriminate He'.
  all: try (left; split; [reflexivity|eauto]; fail).
  all: right; eexists _, _; split; [reflexivity|]; split_and!.
  all: try (intros Hg; apply Hsub2; right;
            first [ apply is_submission_true; assumption
                  | destruct Hg as [?|?]; [quick|];
                    rewrite is_submission_insert_token; assumption ]; fail).
  all: try (intros Hnone; apply (Hco2 _ eq_refl);
            [ first [ apply insert_non_empty
                    | apply is_submission_nonempty, is_submission_true; assumption ]
            | assumption ]; fail).
  all: cbn [retry_success]; try assumption.
  all: try exact (settled_retry _ _ _ Hset).
  all: try (by destruct Hset as (_ & _ & _ & _ & ?)).
Qed.

End Transaction.

(** ** Logs of edit transactions *)

Lemma token_fetch_quiet p pre :
  token_fetch p pre →
  count submission_event pre = 0%nat
  ∧ count login_event pre = 0%nat
  ∧ ∀ l, submissions (pre ++ l) = submissions l
         ∧ after_first_submission (pre ++ l) = after_first_submission l.
Proof.
  unfold token_fetch. destruct (truthy_opt (_token p)); [intros ->|intros [resp ->]].
  - done.
  - cbn [count submission_event login_event app submissions after_first_submission].
    by rewrite load_attributes_params_submission.
Qed.

Lemma token_fetch_first p pre l :
  token_fetch p pre →
  (truthy_opt (_token p) = true → (pre ++ l)%list = l)
  ∧ (truthy_opt (_token p) = false →
     ∃ resp, (pre ++ l)%list = EvApiQuery (load_attributes_params (_title p)) resp :: l).
Proof.
  unfold token_fetch. destruct (truthy_opt (_token p)); [intros ->|intros [resp ->]].
  - done.
  - split; [done|]. intros _. by exists resp.
Qed.

(** The four shapes of a transaction. *)
Ltac transaction_cases H :=
  let pre := fresh "pre" in let Hpre := fresh "Hpre" in
  let Hsub := fresh "Hsub" in let Hbuild := fresh "Hbuild" in
  let Hrest := fresh "Hrest" in let Hsf := fresh "Hsf" in
  let Hsub2 := fresh "Hsub2" in let Hco2 := fresh "Hco2" in
  let Hset := fresh "Hset" in
  destruct H as (pre & Hpre
    & [[-> [? ->]] | (psA & respA & restA & -> & Hsub & Hbuild & Hrest)]);
  [ | destruct (session_failure respA && credentials_configured) eqn:Hsf;
      [ destruct Hrest as (titleM & respM & tailA & ->
          & [[-> [? ->]] | (psB & respB & -> & Hsub2 & Hco2 & Hset)])
      | destruct Hrest as [-> Hset] ] ];
  destruct (token_fetch_quiet _ _ Hpre) as (Hpre_sub & Hpre_login & Hpre_subs).

Ltac log_simpl :=
  rewrite ?count_app;
  cbn [count app submission_event login_event submissions after_first_submission];
  rewrite ?load_attributes_params_submission.

Lemma session_failure_not_conflict resp :
  session_failure resp = true → conflict resp = None.
Proof.
  destruct resp as [res|[[code info]|]]; cbn [session_failure conflict]; try done.
  intros H. by rewrite (anon_not_conflict _ H).
Qed.

Lemma session_failure_not_successful resp :
  session_failure resp = true → successful resp = false.
Proof.
  destruct resp as [res|d]; simpl; [|done].
  destruct (r_edit res) as [e|]; [|done].
  destruct (edit_result e) as [status|]; [|done].
  destruct (edit_assert e); [|done]. by destruct (status =? "Success").
Qed.

Ltac not_failure Hsf :=
  apply andb_true_iff in Hsf as [Hsf _];
  first [ rewrite (session_failure_not_conflict _ Hsf) in *
        | rewrite (session_failure_not_successful _ Hsf) in * ]; done.

Section EditClaims.
Context {RS : Type} `{!Site RS, !Runtime RS}.
Implicit Types (p : Page) (r : RS).

Lemma edit_run fuel kw p r o p' r' t :
  (2 ≤ fuel)%nat →
  _edit fuel None kw 0 p r = (o, p', r', t) →
  _keep_following p' = _keep_following p
  ∧ _follow_redirects p' = _follow_redirects p
  ∧ count follow_event t = 0%nat
  ∧ transaction None kw p o p' t.
Proof.
  intros Hfuel E. destruct fuel as [|n]; [lia|].
  eapply (wp_run _ _ _ _ _ _ _ _ (edit_transaction n None kw p r ltac:(lia)) E).
Qed.


(** Reading after an invalidation goes to the remote. *)
Lemma get_after_invalidation fuel p r o p' r' t :
  (1 ≤ fuel)%nat → invalidated p →
  get fuel p r = (o, p', r', t) →
  (∃ resp t', t = EvApiQuery (get_params (_title p)) resp :: t')
  ∧ ∀ c, o = Returned (Some c) → c ∈ fetched_texts t.
Proof.
  intros Hfuel (Hc & _ & Hex) E.
  destruct (wp_run _ _ _ _ _ _ _ _ (get_flags fuel p r) E)
    as (_ & _ & _ & _ & _ & _ & _ & _ & _ & _ & Hfirst).
  destruct (wp_run _ _ _ _ _ _ _ _ (get_values fuel p r) E) as [Hv Hsrc].
  split; [auto|]. intros c ->.
  destruct (Hv _ eq_refl) as [Hc' _]. symmetry in Hc'.
  destruct (Hsrc _ Hc') as [?|?]; [congruence|done].
Qed.

(** The state a successful submission leaves. *)
Lemma edit_success_state fuel kw p r o p' r' t ps resp :
  (2 ≤ fuel)%nat →
  _edit fuel None kw 0 p r = (o, p', r', t) →
  (ps, resp) ∈ submissions t → successful resp = true →
  invalidated p' ∧ truthy_opt (_token p') = true.
Proof.
  intros Hfuel E.
  destruct (edit_run _ _ _ _ _ _ _ _ Hfuel E) as (_ & _ & _ & Htr).
  transaction_cases Htr.
  - rewrite <-(app_nil_r pre), (proj1 (Hpre_subs [])). by intros ?%elem_of_nil.
  - specialize (Hsub I). rewrite (proj1 (Hpre_subs _)). log_simpl. rewrite Hsub.
    intros [= -> ->]%list_elem_of_singleton Hs. not_failure Hsf.
  - specialize (Hsub I). specialize (Hsub2 I).
    rewrite (proj1 (Hpre_subs _)). log_simpl. rewrite Hsub, Hsub2.
    intros [[= -> ->]|[= -> ->]%list_elem_of_singleton]%elem_of_cons Hs.
    + not_failure Hsf.
    + by destruct Hset as (Hok & _); destruct (Hok Hs) as (_ & ? & ?).
  - specialize (Hsub I). rewrite (proj1 (Hpre_subs _)). log_simpl. rewrite Hsub.
    intros [= -> ->]%list_elem_of_singleton Hs.
    by destruct Hset as (Hok & _); destruct (Hok Hs) as (_ & ? & ?).
Qed.

(** C2: an edit call whose submission is rejected with a code of the
    conflict family raises EditConflictError with the content, the base
    timestamp and the existence state forgotten, and sends nothing
    after the rejected submission; the next [get] then starts with a
    query to the remote, and any text it returns was sent by the remote
    during that call. *)
Theorem edit_conflict fuel kw p r o p' r' t resp info :
  (2 ≤ fuel)%nat →
  _edit fuel None kw 0 p r = (o, p', r', t) →
  resp ∈ (submissions t).*2 → conflict resp = Some info →
  o = Raised (EditConflictError info)
  ∧ invalidated p'
  ∧ (∃ pre ps, t = (pre ++ [EvApiQuery ps resp])%list)
  ∧ ∀ fuel2 r2 o2 p2 r3 t2,
      (1 ≤ fuel2)%nat → get fuel2 p' r2 = (o2, p2, r3, t2) →
      (∃ resp2 t2', t2 = EvApiQuery (get_params (_title p')) resp2 :: t2')
      ∧ ∀ c, o2 = Returned (Some c) → c ∈ fetched_texts t2.
Proof.
  intros Hfuel E Hin Hconf.
  assert (o = Raised (EditConflictError info) ∧ invalidated p'
          ∧ ∃ pre ps, t = (pre ++ [EvApiQuery ps resp])%list) as (Ho & Hinv & Hlast).
  { destruct (edit_run _ _ _ _ _ _ _ _ Hfuel E) as (_ & _ & _ & Htr).
    revert Hin. transaction_cases Htr.
    - rewrite <-(app_nil_r pre), (proj1 (Hpre_subs [])). cbn. by intros ?%elem_of_nil.
    - specialize (Hsub I). rewrite (proj1 (Hpre_subs _)). log_simpl. rewrite Hsub. cbn [fmap list_fmap snd].
      intros ->%list_elem_of_singleton. not_failure Hsf.
    - specialize (Hsub I). specialize (Hsub2 I).
      rewrite (proj1 (Hpre_subs _)). log_simpl. rewrite Hsub, Hsub2. cbn [fmap list_fmap snd].
      intros [->| ->%list_elem_of_singleton]%elem_of_cons.
      + not_failure Hsf.
      + destruct Hset as (_ & _ & _ & Hc & _). destruct (Hc _ Hconf) as [-> ?].
        split_and!; try done.
        by exists (pre ++ [EvApiQuery psA respA; EvLogin _login_info;
                           EvApiQuery (load_attributes_params titleM) respM])%list, psB;
          rewrite <-app_assoc.
    - specialize (Hsub I). rewrite (proj1 (Hpre_subs _)). log_simpl. rewrite Hsub. cbn [fmap list_fmap snd].
      intros ->%list_elem_of_singleton.
      destruct Hset as (_ & _ & _ & Hc & _). destruct (Hc _ Hconf) as [-> ?].
      split_and!; try done. by exists pre, psA. }
  split_and!; try done.
  intros fuel2 r2 o2 p2 r3 t2 Hfuel2 E2.
  by apply (get_after_invalidation _ _ _ _ _ _ _ Hfuel2 Hinv E2).
Qed.

(** An edit on a page that holds a token and whose existence state is
    not Missing: nothing is read before the first submission, and no
    submission carries the create guard. *)
Lemma edit_without_guard fuel kw p r o p' r' t :
  (2 ≤ fuel)%nat →
  truthy_opt (_token p) = true → _exists p ≠ Missing →
  _edit fuel None kw 0 p r = (o, p', r', t) →
  (t = [] ∨ ∃ ps resp t', t = EvApiQuery ps resp :: t' ∧ is_submission ps = true)
  ∧ ∀ ps resp, (ps, resp) ∈ submissions t → ps !! "createonly" = None.
Proof.
  intros Hfuel Htok Hex E.
  destruct (edit_run _ _ _ _ _ _ _ _ Hfuel E) as (_ & _ & _ & Htr).
  transaction_cases Htr.
  all: assert (pre = []) as -> by (unfold token_fetch in Hpre; by rewrite Htok in Hpre).
  all: cbn [app]; try specialize (Hsub I); try specialize (Hsub2 I).
  all: try (destruct (Hbuild eq_refl Htok) as [Hnone _];
            specialize (Hnone (or_intror Hex))).
  - split; [by left|]. by intros ps resp ?%elem_of_nil.
  - split; [right; eauto|]. intros ps resp. log_simpl. rewrite Hsub.
    by intros [= -> ->]%list_elem_of_singleton.
  - split; [right; eauto|]. intros ps resp. log_simpl. rewrite Hsub, Hsub2.
    intros [[= -> ->]|[= -> ->]%list_elem_of_singleton]%elem_of_cons; auto.
  - split; [right; eauto|]. intros ps resp. log_simpl. rewrite Hsub.
    by intros [= -> ->]%list_elem_of_singleton.
Qed.

(** C3: a successful submission leaves the content, the base timestamp
    and the existence state forgotten, and a call returns normally only
    after one.  On a page known to be missing that holds a token, the
    first submission of an unforced edit carries the create guard; an
    edit that follows a successful one, with no read in between, starts
    with its submission and sends no create guard. *)
Theorem edit_success_resets fuel kw p r o p' r' t :
  (2 ≤ fuel)%nat →
  _edit fuel None kw 0 p r = (o, p', r', t) →
  (∀ ps resp, (ps, resp) ∈ submissions t → successful resp = true → invalidated p')
  ∧ (o = Returned tt →
     ∃ ps resp, (ps, resp) ∈ submissions t ∧ successful resp = true)
  ∧ (_exists p = Missing → kw_force kw = false → truthy_opt (_token p) = true →
     ∀ ps resp, head (submissions t) = Some (ps, resp) →
       ps !! "createonly" = Some (PStr "true"))
  ∧ ((∃ ps resp, (ps, resp) ∈ submissions t ∧ successful resp = true) →
     ∀ fuel2 kw2 r2 o2 p2 r3 t2,
       (2 ≤ fuel2)%nat →
       _edit fuel2 None kw2 0 p' r2 = (o2, p2, r3, t2) →
       (t2 = [] ∨ ∃ ps resp t', t2 = EvApiQuery ps resp :: t' ∧ is_submission ps = true)
       ∧ ∀ ps resp, (ps, resp) ∈ submissions t2 → ps !! "createonly" = None).
Proof.
  intros Hfuel E. split_and!.
  - intros ps resp Hin Hs.
    by destruct (edit_success_state _ _ _ _ _ _ _ _ _ _ Hfuel E Hin Hs).
  - intros Ho.
    destruct (edit_run _ _ _ _ _ _ _ _ Hfuel E) as (_ & _ & _ & Htr).
    transaction_cases Htr; try discriminate Ho.
    + specialize (Hsub I). specialize (Hsub2 I).
      destruct Hset as (_ & Hret & _). exists psB, respB. split; [|by apply Hret].
      rewrite (proj1 (Hpre_subs _)). log_simpl. rewrite Hsub, Hsub2.
      apply elem_of_cons. right. apply list_elem_of_singleton. reflexivity.
    + specialize (Hsub I).
      destruct Hset as (_ & Hret & _). exists psA, respA. split; [|by apply Hret].
      rewrite (proj1 (Hpre_subs _)). log_simpl. rewrite Hsub.
      apply list_elem_of_singleton. reflexivity.
  - intros Hex Hforce Htok ps resp.
    destruct (edit_run _ _ _ _ _ _ _ _ Hfuel E) as (_ & _ & _ & Htr).
    transaction_cases Htr.
    all: try specialize (Hsub I).
    all: try (destruct (Hbuild eq_refl Htok) as [_ Hguard];
              specialize (Hguard Hforce Hex)).
    1: rewrite <-(app_nil_r pre).
    all: rewrite (proj1 (Hpre_subs _)); log_simpl; rewrite ?Hsub.
    all: intros [= <- <-]; try assumption.
  - intros (ps & resp & Hin & Hs) fuel2 kw2 r2 o2 p2 r3 t2 Hfuel2 E2.
    destruct (edit_success_state _ _ _ _ _ _ _ _ _ _ Hfuel E Hin Hs)
      as [(_ & _ & Hex) Htok].
    apply (edit_without_guard _ _ _ _ _ _ _ _ Hfuel2 Htok ltac:(congruence) E2).
Qed.

Lemma edit_first_event n given kw tries p r :
  truthy_opt (_token p) = false →
  wp (_edit (S n) given kw tries)
     (λ o p' r' t,
        ∃ resp t', t = EvApiQuery (load_attributes_params (_title p)) resp :: t') p r.
Proof.
  intros Htok. cbn [_edit].
  wp_step. wp_step. wp_step. rewrite Htok.
  call_load_attributes_frame; [|eauto].
  apply wp_intro. intros; eauto.
Qed.

(** C6, as amended: on a page whose cached state is Invalid and that
    holds an edit token, an edit call raises InvalidPageError and sends
    nothing.  When the page holds no token the call first sends the
    metadata query that fetches one; if that fetch finds the title
    invalid again, the call raises PermissionsError and has sent that
    one query only. *)
Theorem edit_invalid_page fuel kw p r :
  (1 ≤ fuel)%nat → _exists p = Invalid →
  (truthy_opt (_token p) = true →
   _edit fuel None kw 0 p r
   = (Raised (InvalidPageError ("Page '" ++ _title p ++ "' is invalid.")), p, r, []))
  ∧ (truthy_opt (_token p) = false →
     (∃ o p' r' resp t',
        _edit fuel None kw 0 p r
        = (o, p', r', EvApiQuery (load_attributes_params (_title p)) resp :: t'))
     ∧ ∀ p1 r1 t1,
         _load_attributes None p r = (Returned tt, p1, r1, t1) →
         _exists p1 = Invalid →
         _edit fuel None kw 0 p r
         = (Raised (PermissionsError "You don't have permission to edit this page."),
            p1, r1, t1)).
Proof.
  intros Hfuel Hex. destruct fuel as [|n]; [lia|]. split.
  - intros Htok. apply wp_eq. cbn [_edit].
    wp_go; try congruence. reflexivity.
  - intros Htok. split.
    + pose proof (edit_first_event n None kw 0%nat p r Htok) as H.
      unfold wp in H. destruct (_edit (S n) None kw 0 p r) as [[[o p'] r'] t].
      destruct H as (resp & t' & ->). by eexists _, _, _, _, _.
    + intros p1 r1 t1 E1 Hex1.
      destruct (wp_run _ _ _ _ _ _ _ _ (load_attributes_returned None p r) E1 eq_refl)
        as (res0 & key & res & rest & _ & _ & Hcl & _ & _ & _ & Hinv).
      rewrite <-Hcl in Hinv. destruct (decide (_exists p1 = Invalid)); [|done].
      destruct Hinv as (_ & _ & Htok1).
      cbn [_edit]. unfold mbind, M_bind, attr at 1. rewrite Htok, E1.
      unfold attr at 1. rewrite Htok1, Htok. cbn. by rewrite app_nil_r.
Qed.

End EditClaims.

(** ** Redirect hops *)

Section Hops.
Context {RS : Type} `{!Site RS, !Runtime RS}.
Implicit Types (p : Page) (r : RS).

Lemma transaction_fuel given kw p o p' t :
  transaction given kw p o p' t → o ≠ OutOfFuel.
Proof.
  intros Htr. transaction_cases Htr; try done.
  all: by destruct Hset as (_ & _ & _ & _ & ?).
Qed.

Lemma edit_hops fuel kw p r :
  (2 ≤ fuel)%nat →
  wp (_edit fuel None kw 0) (λ o p' r' t, hops_spec p o p' t) p r.
Proof.
  intros Hfuel. destruct fuel as [|n]; [lia|].
  wp_call (edit_transaction n); [lia|].
  destruct Hcall as (Hk & _ & Hc & Htr). unfold hops_spec. rewrite Hk, Hc.
  split_and!; auto. by eapply transaction_fuel.
Qed.

Lemma call_hops fuel c p r :
  (2 ≤ fuel)%nat →
  wp (call fuel c) (λ o p' r' t, hops_spec p o p' t) p r.
Proof.
  intros Hfuel. destruct c; cbn [call]; try by apply edit_hops.
  all: unfold hops_spec.
  - wp_step. wp_call get_flags.
    destruct Hcall as (_ & H1 & H2 & H3 & H4 & _). specialize (H4 (or_introl Hfuel)).
    destruct o as [v| |]; [wp_step|..]; rewrite ?app_nil_r; split_and!; auto.
  - unfold get_redirect_target, get_redirect_target_with.
    wp_step. wp_step. wp_call get_flags.
    destruct Hcall as (_ & H1 & H2 & H3 & H4 & _). specialize (H4 (or_introl Hfuel)).
    destruct o as [v| |]; [wp_go|..]; rewrite ?app_nil_r; split_and!; auto.
  - unfold is_redirect. do 5 wp_step.
    + wp_call load_spec.
      destruct Hcall as (_ & H1 & H2 & H3 & H4 & _).
      specialize (H4 ltac:(lia)).
      assert (_keep_following p = false → count follow_event t = 0%nat) as H2'.
      { intros Hk. by destruct (H2 Hk) as [resp ->]. }
      destruct o as [v| |]; [wp_go|..]; rewrite ?app_nil_r; split_and!; auto.
    + wp_go. split_and!; auto; done.
  - wp_call reload_spec.
    destruct Hcall as (_ & H1 & H2 & H3 & H4 & _). specialize (H4 ltac:(lia)).
    split_and!; auto.
Qed.

(** C7: over any sequence of calls on one page object (reads, reloads,
    redirect queries and edits, the caller going on after an exception),
    the title is re-targeted to a redirect destination at most once;
    after the hop following is disabled, a page on which following is
    disabled takes no hop, and every call ends, whatever the remote
    answers. *)
Theorem one_hop_per_instance fuel cs p r os p' r' t :
  (2 ≤ fuel)%nat →
  run_calls fuel cs p r = (os, p', r', t) →
  (count follow_event t ≤ 1)%nat
  ∧ (count follow_event t = 1%nat → _keep_following p' = false)
  ∧ (_keep_following p = false →
     count follow_event t = 0%nat ∧ _keep_following p' = false)
  ∧ Forall (λ o, o ≠ OutOfFuel) os.
Proof.
  intros Hfuel. revert p r os p' r' t.
  induction cs as [|c cs IH]; intros p r os p' r' t; cbn [run_calls].
  - intros [= <- <- <- <-]. cbn. split_and!; auto; lia.
  - destruct (call fuel c p r) as [[[o p1] r1] t1] eqn:Ec.
    destruct (run_calls fuel cs p1 r1) as [[[os' p2] r2] t2] eqn:Er.
    intros [= <- <- <- <-].
    destruct (wp_run _ _ _ _ _ _ _ _ (call_hops fuel c p r Hfuel) Ec)
      as (H1 & H2 & H3 & H4).
    destruct (IH _ _ _ _ _ _ Er) as (I1 & I2 & I3 & I4).
    rewrite count_app.
    destruct (_keep_following p1) eqn:Hk1.
    + destruct (H1 eq_refl) as [Hk ->]. split_and!; auto. by rewrite Hk.
    + destruct (I3 eq_refl) as [-> Hk2].
      split_and!; auto; try lia.
      intros Hk. rewrite (H2 Hk). done.
Qed.

End Hops.

(** ** Further properties of reads and edits *)

Section MoreReads.
Context {RS : Type} `{!Site RS, !Runtime RS}.
Implicit Types (p : Page) (r : RS).

(** Reading a page whose cached state is Missing or Invalid raises
    PageNotFoundError, respectively InvalidPageError, with the title in
    the message; nothing is sent and the page is left as it was. *)
Theorem get_cached_state_errors fuel p r :
  (1 ≤ fuel)%nat →
  (_exists p = Missing →
   get fuel p r
   = (Raised (PageNotFoundError ("Page '" ++ _title p ++ "' does not exist.")), p, r, []))
  ∧ (_exists p = Invalid →
     get fuel p r
     = (Raised (InvalidPageError ("Page '" ++ _title p ++ "' is invalid.")), p, r, [])).
Proof.
  intros Hfuel. destruct fuel as [|n]; [lia|].
  split; intros Hex; apply wp_eq; cbn [get]; wp_go; try congruence; reflexivity.
Qed.

(** Reading a page whose state is unknown sends the combined query.
    If the remote fails, the error is passed on and the page is left
    as it was; if the answer classifies the page as missing or as
    invalid, the read raises PageNotFoundError, respectively
    InvalidPageError, and has sent that one query only. *)
Theorem get_unknown_errors n p r :
  _exists p = Unknown →
  (∀ d r1, api_query (get_params (_title p)) r = (ApiError d, r1) →
     get (S n) p r
     = (Raised (SiteAPIError d), p, r1, [EvApiQuery (get_params (_title p)) (ApiError d)]))
  ∧ (∀ res r1 p1 r2 t1,
       api_query (get_params (_title p)) r = (ApiOk res, r1) →
       _load_attributes (Some res) p r1 = (Returned tt, p1, r2, t1) →
       _exists p1 = Missing →
       get (S n) p r
       = (Raised (PageNotFoundError ("Page '" ++ _title p1 ++ "' does not exist.")),
          p1, r1, [EvApiQuery (get_params (_title p)) (ApiOk res)]))
  ∧ (∀ res r1 p1 r2 t1,
       api_query (get_params (_title p)) r = (ApiOk res, r1) →
       _load_attributes (Some res) p r1 = (Returned tt, p1, r2, t1) →
       _exists p1 = Invalid →
       get (S n) p r
       = (Raised (InvalidPageError ("Page '" ++ _title p1 ++ "' is invalid.")),
          p1, r1, [EvApiQuery (get_params (_title p)) (ApiOk res)])).
Proof.
  intros Hex. split_and!.
  - intros d r1 Hq. apply wp_eq. cbn [get].
    do 3 wp_step; [|congruence]. do 3 wp_step.
    apply wp_query. intros resp r' E. rewrite Hq in E. by injection E as <- <-.
  - intros res r1 p1 r2 t1 Hq Hl Hm.
    pose proof (wp_run _ _ _ _ _ _ _ _ (load_attributes_frame (Some res) p r1) Hl)
      as (_ & _ & _ & _ & _ & -> & ->).
    apply wp_eq. cbn [get].
    do 3 wp_step; [|congruence]. do 3 wp_step.
    apply wp_query. intros resp r' E. rewrite Hq in E. injection E as <- <-.
    wp_step. apply wp_intro. intros o p' r' t E. rewrite Hl in E.
    injection E as <- <- <- <-.
    wp_go; try congruence. reflexivity.
  - intros res r1 p1 r2 t1 Hq Hl Hm.
    pose proof (wp_run _ _ _ _ _ _ _ _ (load_attributes_frame (Some res) p r1) Hl)
      as (_ & _ & _ & _ & _ & -> & ->).
    apply wp_eq. cbn [get].
    do 3 wp_step; [|congruence]. do 3 wp_step.
    apply wp_query. intros resp r' E. rewrite Hq in E. injection E as <- <-.
    wp_step. apply wp_intro. intros o p' r' t E. rewrite Hl in E.
    injection E as <- <- <- <-.
    wp_go; try congruence. reflexivity.
Qed.

End MoreReads.

Section MoreEdits.
Context {RS : Type} `{!Site RS, !Runtime RS}.
Implicit Types (p : Page) (r : RS).

(** An edit call never follows a redirect: the title is not
    re-targeted and both following flags are left as they were, also
    on a page built to follow redirects that was never read. *)
Theorem edit_never_follows fuel kw p r o p' r' t :
  (2 ≤ fuel)%nat →
  _edit fuel None kw 0 p r = (o, p', r', t) →
  count follow_event t = 0%nat
  ∧ _keep_following p' = _keep_following p
  ∧ _follow_redirects p' = _follow_redirects p.
Proof.
  intros Hfuel E.
  by destruct (edit_run _ _ _ _ _ _ _ _ Hfuel E) as (? & ? & ? & _).
Qed.

(** Without full login credentials an edit call never logs in and
    sends at most one submission, whatever the remote answers. *)
Theorem edit_without_credentials fuel kw p r o p' r' t :
  (2 ≤ fuel)%nat →
  credentials_configured = false →
  _edit fuel None kw 0 p r = (o, p', r', t) →
  count login_event t = 0%nat
  ∧ (count submission_event t ≤ 1)%nat
  ∧ ∀ resp rest, after_first_submission t = Some (resp, rest) → rest = [].
Proof.
  intros Hfuel Hcred E.
  destruct (edit_run _ _ _ _ _ _ _ _ Hfuel E) as (_ & _ & _ & Htr).
  transaction_cases Htr.
  - rewrite Hpre_sub, Hpre_login. split_and!; try done; try lia.
    intros resp rest. by rewrite <-(app_nil_r pre), (proj2 (Hpre_subs [])).
  - by rewrite Hcred, andb_false_r in Hsf.
  - by rewrite Hcred, andb_false_r in Hsf.
  - specialize (Hsub I). log_simpl. rewrite Hpre_sub, Hpre_login, Hsub. cbn.
    split_and!; try done; try lia.
    intros resp rest. rewrite (proj2 (Hpre_subs _)). log_simpl. rewrite Hsub.
    by intros [= <- <-].
Qed.

(** When an edit call resubmits after logging in and the resubmission
    succeeds, the cached state is reset; the call returns normally if
    the first answer was a failed assertion, and raises TypeError if it
    was an error of the remote: the handler of such errors hands back
    the value of the retried [_edit], which is [None], as the result
    that [_edit] then subscripts. *)
Theorem edit_resubmission_outcome fuel kw p r o p' r' t resp1 resp2 :
  (2 ≤ fuel)%nat →
  _edit fuel None kw 0 p r = (o, p', r', t) →
  (submissions t).*2 = [resp1; resp2] →
  successful resp2 = true →
  invalidated p'
  ∧ count login_event t = 1%nat
  ∧ match resp1 with
    | ApiError _ => o = Raised TypeError
    | ApiOk _ => o = Returned tt
    end.
Proof.
  intros Hfuel E.
  destruct (edit_run _ _ _ _ _ _ _ _ Hfuel E) as (_ & _ & _ & Htr).
  transaction_cases Htr.
  - by rewrite <-(app_nil_r pre), (proj1 (Hpre_subs [])).
  - specialize (Hsub I). rewrite (proj1 (Hpre_subs _)). log_simpl. by rewrite Hsub.
  - specialize (Hsub I). specialize (Hsub2 I).
    rewrite (proj1 (Hpre_subs _)). log_simpl. rewrite Hsub, Hsub2.
    intros [= <- <-] Hs.
    destruct Hset as (Hok & _). destruct (Hok Hs) as (-> & Hinv & _).
    rewrite Hpre_login. split_and!; try done. by destruct respA.
  - specialize (Hsub I). rewrite (proj1 (Hpre_subs _)). log_simpl. by rewrite Hsub.
Qed.

End MoreEdits.


Section MoreParams.
Context {RS : Type} `{!Site RS, !Runtime RS}.
Implicit Types (p : Page) (r : RS).

Ltac lookup_key :=
  repeat first
    [ rewrite lookup_setitem_if_ne by done
    | rewrite lookup_insert_ne by (try (destruct (kw_minor _)); done)
    | rewrite lookup_insert_eq
    | rewrite lookup_empty ].

(** The parameters of a submission are built without any remote call
    from the page as it is cached: they name the action, the title and
    the cached token, the summary, the text and its md5 checksum; a
    section is named exactly when one was given; exactly one of
    "minor" and "notminor" is set; a
    forced edit carries "recreate" and neither timestamps nor the
    create guard, an unforced one carries the start timestamp and no
    "recreate", and the create guard exactly when the page is cached as
    missing. *)
Theorem build_edit_params_keys kw p r ps p' r' t :
  _build_edit_params kw p r = (Returned ps, p', r', t) →
  (p' = p ∧ r' = r ∧ t = [])
  ∧ ps !! "action" = Some (PStr "edit")
  ∧ ps !! "title" = Some (PStr (_title p))
  ∧ ps !! "token" = Some (of_opt (_token p))
  ∧ ps !! "summary" = Some (of_opt (kw_summary kw))
  ∧ (∃ text, kw_text kw = Some text
             ∧ ps !! "text" = Some (PStr text)
             ∧ ps !! "md5" = Some (PStr (md5_hexdigest text)))
  ∧ ps !! "section"
    = (if truthy_opt (kw_section kw) then Some (of_opt (kw_section kw)) else None)
  ∧ (if kw_minor kw
     then ps !! "minor" = Some (PStr "true") ∧ ps !! "notminor" = None
     else ps !! "minor" = None ∧ ps !! "notminor" = Some (PStr "true"))
  ∧ (if kw_force kw
     then ps !! "recreate" = Some (PStr "true")
          ∧ ps !! "starttimestamp" = None
          ∧ ps !! "basetimestamp" = None
          ∧ ps !! "createonly" = None
     else ps !! "recreate" = None
          ∧ ps !! "starttimestamp" = Some (of_opt (_starttimestamp p))
          ∧ (ps !! "createonly" = Some (PStr "true") ↔ _exists p = Missing)).
Proof.
  intros E.
  assert (wp (_build_edit_params kw)
            (λ o p1 r1 t1, ∀ ps1, o = Returned ps1 →
               (p1 = p ∧ r1 = r ∧ t1 = [])
               ∧ ps1 !! "action" = Some (PStr "edit")
               ∧ ps1 !! "title" = Some (PStr (_title p))
               ∧ ps1 !! "token" = Some (of_opt (_token p))
               ∧ ps1 !! "summary" = Some (of_opt (kw_summary kw))
               ∧ (∃ text, kw_text kw = Some text
                          ∧ ps1 !! "text" = Some (PStr text)
                          ∧ ps1 !! "md5" = Some (PStr (md5_hexdigest text)))
               ∧ ps1 !! "section"
                 = (if truthy_opt (kw_section kw)
                    then Some (of_opt (kw_section kw)) else None)
               ∧ (if kw_minor kw
                  then ps1 !! "minor" = Some (PStr "true") ∧ ps1 !! "notminor" = None
                  else ps1 !! "minor" = None ∧ ps1 !! "notminor" = Some (PStr "true"))
               ∧ (if kw_force kw
                  then ps1 !! "recreate" = Some (PStr "true")
                       ∧ ps1 !! "starttimestamp" = None
                       ∧ ps1 !! "basetimestamp" = None
                       ∧ ps1 !! "createonly" = None
                  else ps1 !! "recreate" = None
                       ∧ ps1 !! "starttimestamp" = Some (of_opt (_starttimestamp p))
                       ∧ (ps1 !! "createonly" = Some (PStr "true") ↔ _exists p = Missing)))
            p r) as Hwp.
  { unfold _build_edit_params.
    wp_go; try done; intros ps1 [= <-].
    all: destruct (kw_force kw) eqn:Hforce; try done.
    all: destruct (kw_minor kw) eqn:Hminor.
    all: split_and!; try done.
    all: try (lookup_key; reflexivity).
    all: try (eexists; split_and!; [reflexivity|lookup_key; reflexivity..]).
    all: try (lookup_key; unfold setitem_if;
              destruct (truthy_opt (kw_section kw)); lookup_key; reflexivity).
    all: unfold setitem_if at 1; case_bool_decide; lookup_key; by split. }
  exact (wp_run _ _ _ _ _ _ _ _ Hwp E _ eq_refl).
Qed.

End MoreParams.

(** ** The properties of a page *)

Section Properties.
Context {RS : Type} `{!Site RS, !Runtime RS}.
Implicit Types (p : Page) (r : RS).

Lemma load_if_unknown_spec fuel p r :
  wp (load_if_unknown fuel)
     (λ o p' r' t,
        (_exists p ≠ Unknown → o = Returned tt ∧ p' = p ∧ r' = r ∧ t = [])
        ∧ (o = Returned tt → _exists p' ≠ Unknown)
        ∧ (_exists p = Unknown →
           ∃ resp t', t = EvApiQuery (load_attributes_params (_title p)) resp :: t')) p r.
Proof.
  unfold load_if_unknown. do 3 wp_step.
  - wp_call load_spec.
    destruct Hcall as (_ & _ & _ & _ & _ & _ & _ & Hfirst & Hret & _).
    split_and!; [done| |done]. intros Ho. by destruct (Hret Ho).
  - wp_go. split_and!; done.
Qed.

(** The [exists] property answers from the cache, without any remote
    call, once the state is known; and whenever it returns, its answer
    is one of "invalid", "missing" and "exists", never "unknown". *)
Theorem exists_never_unknown fuel p r :
  (_exists p ≠ Unknown →
   exists_ fuel p r = (Returned (exists_cases (_exists p)), p, r, []))
  ∧ ∀ v p' r' t,
      exists_ fuel p r = (Returned v, p', r', t) →
      v = exists_cases (_exists p') ∧ v.2 ≠ "unknown" ∧ v.1 ≠ None.
Proof.
  split.
  - intros Hex. apply wp_eq. unfold exists_. wp_step.
    wp_call load_if_unknown_spec. destruct Hcall as (Hk & _).
    destruct (Hk Hex) as (-> & -> & -> & ->). by wp_go.
  - intros v p' r' t E.
    assert (wp (exists_ fuel)
              (λ o p1 _ _, ∀ v1, o = Returned v1 →
                 v1 = exists_cases (_exists p1) ∧ _exists p1 ≠ Unknown) p r) as Hwp.
    { unfold exists_. wp_step. wp_call load_if_unknown_spec.
      destruct Hcall as (_ & Hret & _).
      destruct o as [[]| |]; [|done..]. wp_go. intros v1 [= <-]. auto. }
    destruct (wp_run _ _ _ _ _ _ _ _ Hwp E _ eq_refl) as [-> Hne].
    split; [done|]. by destruct (_exists p').
Qed.

(** Answers from the cache: on a page known to be missing, [pageid]
    raises PageNotFoundError while [protection] returns what is cached
    (a missing page can be create-protected); on an invalid title both
    raise InvalidPageError; on an existing page both return what is
    cached.  Nothing is sent in any of these cases. *)
Theorem pageid_protection_cached fuel p r :
  (_exists p = Missing →
   pageid fuel p r
   = (Raised (PageNotFoundError ("Page '" ++ _title p ++ "' does not exist.")), p, r, [])
   ∧ protection fuel p r = (Returned (_protection p), p, r, []))
  ∧ (_exists p = Invalid →
     pageid fuel p r
     = (Raised (InvalidPageError ("Page '" ++ _title p ++ "' is invalid.")), p, r, [])
     ∧ protection fuel p r
       = (Raised (InvalidPageError ("Page '" ++ _title p ++ "' is invalid.")), p, r, []))
  ∧ (_exists p = Exists →
     pageid fuel p r = (Returned (_pageid p), p, r, [])
     ∧ protection fuel p r = (Returned (_protection p), p, r, [])).
Proof.
  split_and!; intros Hex; split; apply wp_eq.
  all: unfold pageid, protection; wp_step.
  all: wp_call load_if_unknown_spec; destruct Hcall as (Hk & _).
  all: destruct (Hk ltac:(congruence)) as (-> & -> & -> & ->).
  all: wp_go; try congruence; reflexivity.
Qed.

(** [get_creator] answers from the cache when it can: on a page known
    to be missing or invalid it raises PageNotFoundError, respectively
    InvalidPageError, and reaches neither the remote nor
    [site.get_user]; on an existing page whose creator is cached it
    does nothing but call [site.get_user] on it; when the creator is
    not cached it first sends the metadata query. *)
Theorem get_creator_cached {U} (get_user : option string → M RS U) fuel p r :
  (_exists p = Missing →
   get_creator get_user fuel p r
   = (Raised (PageNotFoundError ("Page '" ++ _title p ++ "' does not exist.")), p, r, []))
  ∧ (_exists p = Invalid →
     get_creator get_user fuel p r
     = (Raised (InvalidPageError ("Page '" ++ _title p ++ "' is invalid.")), p, r, []))
  ∧ (_exists p = Exists → truthy_opt (_creator p) = true →
     get_creator get_user fuel p r = get_user (_creator p) p r)
  ∧ (_exists p = Exists → truthy_opt (_creator p) = false →
     ∃ resp t',
       events_of (get_creator get_user fuel p r)
       = EvApiQuery (load_attributes_params (_title p)) resp :: t').
Proof.
  split_and!.
  1-3: intros Hex; try intros Hcr; apply wp_eq.
  1-3: unfold get_creator; wp_step.
  1-3: wp_call load_if_unknown_spec; destruct Hcall as (Hk & _).
  1-3: destruct (Hk ltac:(congruence)) as (-> & -> & -> & ->).
  1-3: wp_go; try congruence; try reflexivity.
  - apply wp_intro. intros o p' r' t E. rewrite E. reflexivity.
  - intros Hex Hcr.
    assert (wp (get_creator get_user fuel)
              (λ o p' r' t,
                 ∃ resp t', t = EvApiQuery (load_attributes_params (_title p)) resp :: t')
              p r) as Hwp.
    { unfold get_creator; wp_step.
      wp_call load_if_unknown_spec; destruct Hcall as (Hk & _).
      destruct (Hk ltac:(congruence)) as (-> & -> & -> & ->).
      wp_go; try congruence.
      wp_call load_spec.
      destruct Hcall as (_ & _ & _ & _ & _ & _ & _ & (resp & t' & ->) & _).
      destruct o as [[]| |]; [apply wp_intro; intros o p' r' t _; destruct o|..];
        try (apply wp_intro; intros); cbn [app]; eauto. }
    unfold wp in Hwp. destruct (get_creator get_user fuel p r) as [[[o p'] r'] t].
    exact Hwp.
Qed.

End Properties.

(** ** Titles and namespace prefixes *)

Lemma append_cons c a x : String c a ++ x = String c (a ++ x).
Proof. reflexivity. Qed.

Lemma before_colon_app a b :
  PyStr.after_colon a = None → PyStr.before_colon (a ++ String ":" b) = a.
Proof.
  induction a as [|c a IH]; [done|]. rewrite append_cons.
  cbn [PyStr.before_colon PyStr.after_colon].
  destruct (Ascii.eqb c ":"); [done|]. intros H. by rewrite IH.
Qed.

Lemma after_colon_app a b :
  PyStr.after_colon a = None → PyStr.after_colon (a ++ String ":" b) = Some b.
Proof.
  induction a as [|c a IH]; [done|]. rewrite append_cons.
  cbn [PyStr.after_colon].
  destruct (Ascii.eqb c ":"); [done|]. auto.
Qed.

Lemma before_colon_whole s :
  PyStr.after_colon s = None → PyStr.before_colon s = s.
Proof.
  induction s as [|c s IH]; cbn; [done|].
  destruct (Ascii.eqb c ":"); [done|]. intros H. by rewrite IH.
Qed.

Lemma rstrip_empty_no_colon s :
  PyStr.rstrip s = EmptyString → PyStr.after_colon s = None.
Proof.
  induction s as [|c s IH]; cbn; [done|].
  destruct (PyStr.rstrip s) eqn:E; [|done].
  destruct (PyStr.is_space c) eqn:Hc; [|done]. intros _.
  destruct (Ascii.eqb_spec c ":") as [->|_]; [done|]. auto.
Qed.

Lemma before_colon_rstrip s :
  PyStr.after_colon s ≠ None →
  PyStr.before_colon (PyStr.rstrip s) = PyStr.before_colon s.
Proof.
  induction s as [|c s IH]; cbn; [done|].
  destruct (Ascii.eqb_spec c ":") as [->|Hc].
  - intros _. destruct (PyStr.rstrip s); cbn; done.
  - intros H. specialize (IH H).
    destruct (PyStr.rstrip s) eqn:E.
    + by apply rstrip_empty_no_colon in E.
    + cbn. rewrite <-IH. by destruct (Ascii.eqb_spec c ":").
Qed.

Lemma eqb_app_colon a b : String.eqb a (a ++ String ":" b) = false.
Proof.
  apply String.eqb_neq. induction a as [|c a IH]; [done|].
  rewrite append_cons. intros [= H]. auto.
Qed.

Lemma strip_prefix_colon c a b :
  PyStr.is_space c = false →
  PyStr.after_colon (String c a) = None →
  PyStr.before_colon (PyStr.strip (String c a ++ String ":" b)) = String c a.
Proof.
  intros Hc Ha. unfold PyStr.strip.
  rewrite append_cons.
  cbn [PyStr.lstrip]. rewrite Hc. rewrite <-append_cons.
  rewrite before_colon_rstrip.
  - by apply (before_colon_app (String c a)).
  - by rewrite after_colon_app.
Qed.

Lemma rstrip_colon_app a b :
  PyStr.rstrip b = b → PyStr.rstrip (a ++ String ":" b) = a ++ String ":" b.
Proof.
  intros Hb. induction a as [|c a IH].
  - change (EmptyString ++ String ":" b) with (String ":" b). cbn [PyStr.rstrip].
    rewrite Hb. by destruct b.
  - rewrite append_cons. cbn [PyStr.rstrip]. rewrite IH.
    by destruct a.
Qed.

Lemma lstrip_length s : (String.length (PyStr.lstrip s) ≤ String.length s)%nat.
Proof.
  induction s as [|c s IH]; cbn; [done|].
  destruct (PyStr.is_space c); cbn; lia.
Qed.

Lemma rstrip_length s : (String.length (PyStr.rstrip s) ≤ String.length s)%nat.
Proof.
  induction s as [|c s IH]; cbn; [done|].
  destruct (PyStr.rstrip s); [destruct (PyStr.is_space c)|]; cbn in *; lia.
Qed.

Lemma lstrip_fixed s : String.length (PyStr.lstrip s) = String.length s → PyStr.lstrip s = s.
Proof.
  destruct s as [|c s]; cbn; [done|].
  destruct (PyStr.is_space c); [|done].
  pose proof (lstrip_length s). lia.
Qed.

Lemma rstrip_fixed s : String.length (PyStr.rstrip s) = String.length s → PyStr.rstrip s = s.
Proof.
  induction s as [|c s IH]; cbn; [done|].
  pose proof (rstrip_length s).
  destruct (PyStr.rstrip s) eqn:E.
  - destruct (PyStr.is_space c); cbn in *; [lia|].
    intros. f_equal. apply IH. lia.
  - cbn in *. intros. f_equal. apply IH. lia.
Qed.

(** A string that [strip] leaves alone has no white space at either
    end. *)
Lemma strip_fixed s :
  PyStr.strip s = s → PyStr.lstrip s = s ∧ PyStr.rstrip s = s.
Proof.
  unfold PyStr.strip. intros H.
  pose proof (lstrip_length s). pose proof (rstrip_length (PyStr.lstrip s)).
  assert (PyStr.lstrip s = s) as Hl.
  { apply lstrip_fixed. apply (f_equal String.length) in H. lia. }
  split; [done|]. by rewrite Hl in H.
Qed.

Section Toggle.
Context {RS : Type} `{!Site RS, !Runtime RS}.
Implicit Types (p : Page) (r : RS).

(** A page of a special namespace (negative id) has no talk page:
    [toggle_talk] raises InvalidPageError with the name of the
    namespace, or whatever the name lookup raises; it builds no page
    and sends nothing. *)
Theorem toggle_talk_special id_to_name follow p r :
  (_namespace p < 0)%Z →
  toggle_talk id_to_name follow p r
  = (Raised match id_to_name (_namespace p) with
            | inl name =>
                InvalidPageError
                  ("Pages in the " ++ name ++ " namespace can't have talk pages.")
            | inr e => e
            end, p, r, []).
Proof.
  intros Hns. apply Z.ltb_lt in Hns. apply wp_eq. unfold toggle_talk.
  wp_go; try congruence; reflexivity.
Qed.

(** The other side of a page in a namespace that has a name: when the
    site's two converters agree on the neighbouring namespace,
    [toggle_talk] returns, without any remote call, a fresh page in
    that namespace whose talk flag is the opposite one and which
    follows redirects as asked, or as this page was built to. *)
Theorem toggle_talk_namespace id_to_name follow p r c name :
  (0 ≤ _namespace p)%Z →
  _is_talkpage p = (_namespace p `mod` 2 =? 1)%Z →
  let new_ns := (if _is_talkpage p then _namespace p - 1 else _namespace p + 1)%Z in
  id_to_name new_ns = inl (String c name) →
  PyStr.is_space c = false →
  PyStr.after_colon (String c name) = None →
  namespace_name_to_id (String c name) = Some new_ns →
  ∃ q, toggle_talk id_to_name follow p r = (Returned q, p, r, [])
       ∧ _namespace q = new_ns
       ∧ _is_talkpage q = negb (_is_talkpage p)
       ∧ _follow_redirects q = default (_follow_redirects p) follow
       ∧ _keep_following q = default (_follow_redirects p) follow
       ∧ _exists q = Unknown.
Proof.
  intros Hns Htalk new_ns Hname Hc Hcolon Hid. subst new_ns.
  exists (__init__ (String c name ++ String ":" (default (_title p)
                                        (PyStr.after_colon (_title p))))
            (default (_follow_redirects p) follow)).
  split.
  { apply wp_eq. unfold toggle_talk.
    wp_go; try (apply Z.ltb_lt in Heqb; lia); try congruence.
    all: rewrite Hname in *; simplify_eq; try done. }
  cbn [__init__ _namespace _is_talkpage _follow_redirects _keep_following _exists].
  rewrite strip_prefix_colon, eqb_app_colon, Hid by done. cbn [negb].
  split_and!; try done.
  rewrite Htalk.
  destruct (_namespace p `mod` 2 =? 1)%Z eqn:Hodd.
  - apply Z.eqb_eq in Hodd.
    assert (_namespace p ≠ 0)%Z by (intros H0; by rewrite H0 in Hodd).
    assert ((_namespace p - 1 <? 0)%Z = false) as -> by (apply Z.ltb_ge; lia).
    apply Z.eqb_neq. cbn [negb].
    rewrite Zminus_mod, Hodd. done.
  - apply Z.eqb_neq in Hodd.
    assert ((_namespace p + 1 <? 0)%Z = false) as -> by (apply Z.ltb_ge; lia).
    apply Z.eqb_eq. cbn [negb].
    pose proof (Z.mod_pos_bound (_namespace p) 2 ltac:(lia)).
    assert (_namespace p `mod` 2 = 0)%Z as H0 by lia.
    rewrite Zplus_mod, H0. done.
Qed.

(** Toggling twice: from a content page of the main namespace whose
    title has no colon, the talk page of the talk page is a fresh page
    of the same title, when the site calls namespace 1 by a name that
    [namespace_name_to_id] maps back to 1 and namespace 0 by the empty
    name. *)
Theorem toggle_talk_round_trip id_to_name p r c talk :
  _namespace p = 0%Z → _is_talkpage p = false →
  PyStr.strip (_title p) = _title p →
  PyStr.after_colon (_title p) = None →
  id_to_name 1%Z = inl (String c talk) →
  PyStr.is_space c = false →
  PyStr.after_colon (String c talk) = None →
  namespace_name_to_id (String c talk) = Some 1%Z →
  id_to_name 0%Z = inl EmptyString →
  ∃ q, toggle_talk id_to_name None p r = (Returned q, p, r, [])
       ∧ _title q = String c talk ++ ":" ++ _title p
       ∧ _namespace q = 1%Z
       ∧ toggle_talk id_to_name None q r
         = (Returned (__init__ (_title p) (_follow_redirects p)), q, r, [])
       ∧ _title (__init__ (_title p) (_follow_redirects p)) = _title p
       ∧ _namespace (__init__ (_title p) (_follow_redirects p)) = 0%Z.
Proof.
  intros Hns Htalk Hstrip Hcolon Hname Hc Hnc Hid Hmain.
  destruct (strip_fixed _ Hstrip) as [Hl Hr].
  set (q := __init__ (String c talk ++ String ":" (_title p)) (_follow_redirects p)).
  assert (_title q = String c talk ++ String ":" (_title p)) as Htq.
  { cbn [q __init__ _title]. unfold PyStr.strip.
    rewrite append_cons. cbn [PyStr.lstrip]. rewrite Hc, <-append_cons.
    by apply rstrip_colon_app. }
  assert (_namespace q = 1%Z ∧ _is_talkpage q = true) as [Hnq Htalkq].
  { cbn [q __init__ _namespace _is_talkpage].
    by rewrite strip_prefix_colon, eqb_app_colon, Hid. }
  exists q. split_and!; try done.
  - apply wp_eq. unfold toggle_talk.
    wp_go; try (apply Z.ltb_lt in Heqb; lia); try congruence.
    all: match goal with
         | H : _ (if _ then _ else _) = _ |- _ =>
             rewrite Htalk, Hns in H; change (0 + 1)%Z with 1%Z in H;
             rewrite Hname in H; simplify_eq
         end.
    cbn [negb String.eqb]. by rewrite Hcolon.
  - apply wp_eq. unfold toggle_talk.
    wp_go; try (apply Z.ltb_lt in Heqb; lia); try congruence.
    all: match goal with
         | H : _ (if _ then _ else _) = _ |- _ =>
             rewrite Htalkq, Hnq in H; change (1 - 1)%Z with 0%Z in H;
             rewrite Hmain in H; simplify_eq
         end.
    cbn [negb String.eqb]. by rewrite Htq, after_colon_app.
  - change (_namespace (__init__ (_title p) (_follow_redirects p)))
      with (if negb (String.eqb (PyStr.before_colon (PyStr.strip (_title p))) (_title p))
            then match namespace_name_to_id (PyStr.before_colon (PyStr.strip (_title p)))
                 with Some n => n | None => 0%Z end
            else 0%Z).
    rewrite Hstrip, before_colon_whole by done.
    by rewrite String.eqb_refl.
Qed.

End Toggle.

(** ** Redirect lines *)

Lemma lstrip_app ws s : PyStr.lstrip ws = EmptyString → PyStr.lstrip (ws ++ s) = PyStr.lstrip s.
Proof.
  induction ws as [|c ws IH]; [done|]. rewrite append_cons. cbn [PyStr.lstrip].
  by destruct (PyStr.is_space c).
Qed.

Lemma eat_nocase_app lit kwd s :
  PyStr.eat_nocase lit kwd = Some EmptyString → PyStr.eat_nocase lit (kwd ++ s) = Some s.
Proof.
  revert kwd. induction lit as [|a lit IH]; intros [|c kwd]; cbn; try done.
  rewrite append_cons. destruct (Ascii.eqb a (PyStr.lower c)); [|done]. apply IH.
Qed.

Lemma eat_nocase_head a lit c kwd rest :
  PyStr.eat_nocase (String a lit) (String c kwd) = Some rest → PyStr.lower c = a.
Proof. cbn. destruct (Ascii.eqb_spec a (PyStr.lower c)); [done|discriminate]. Qed.

Lemma lower_r_not_space c : PyStr.lower c = "r"%char → PyStr.is_space c = false.
Proof.
  destruct c as [[] [] [] [] [] [] [] []]; vm_compute; congruence.
Qed.

Lemma until_close_app target rest :
  Forall (λ c, c ≠ "]"%char ∧ c ≠ "010"%char) (list_ascii_of_string target) →
  PyStr.until_close (target ++ "]]" ++ rest) = Some target.
Proof.
  induction target as [|c target IH]; [intros _; cbn; by destruct rest|].
  cbn [list_ascii_of_string]. intros [[Hc Hn] Ht]%Forall_cons.
  rewrite append_cons. cbn [PyStr.until_close String.prefix].
  destruct (ascii_dec "]" c) as [<-|_]; [done|].
  destruct (Ascii.eqb_spec c "010"); [done|].
  by rewrite IH.
Qed.

(** The pattern [re_redirect] finds the target of a redirect line:
    after optional white space, "#", the word "redirect" in any case,
    and the target in double brackets, with optional white space in
    between, for every target without closing bracket or newline,
    whatever follows. *)
Theorem redirect_target_parsed ws1 ws2 kwd ws3 target rest :
  PyStr.lstrip ws1 = EmptyString → PyStr.lstrip ws2 = EmptyString → PyStr.lstrip ws3 = EmptyString →
  PyStr.eat_nocase "redirect" kwd = Some EmptyString →
  Forall (λ c, c ≠ "]"%char ∧ c ≠ "010"%char) (list_ascii_of_string target) →
  PyStr.findall_re_redirect
    (ws1 ++ "#" ++ ws2 ++ kwd ++ ws3 ++ "[[" ++ target ++ "]]" ++ rest)
  = Some target.
Proof.
  intros H1 H2 H3 Hk Ht. unfold PyStr.findall_re_redirect.
  rewrite lstrip_app by done.
  change ("#" ++ ?s) with (String "#" s). cbn [PyStr.lstrip PyStr.is_space].
  change (PyStr.is_space "#") with false. cbn match.
  rewrite lstrip_app by done.
  destruct kwd as [|k kwd]; [done|].
  pose proof (lower_r_not_space k (eat_nocase_head _ _ _ _ _ Hk)) as Hsp.
  rewrite append_cons. cbn [PyStr.lstrip]. rewrite Hsp, <-append_cons.
  rewrite eat_nocase_app by done.
  rewrite lstrip_app by done.
  change ("[[" ++ ?s) with (String "[" (String "[" s)).
  cbn [PyStr.lstrip]. change (PyStr.is_space "[") with false. cbn match.
  by apply until_close_app.
Qed.

Section Target.
Context {RS : Type} `{!Site RS, !Runtime RS}.
Implicit Types (p : Page) (r : RS).

(** On an existing page whose content is cached,
    [get_redirect_target] sends nothing and leaves the page as it is:
    it returns what the pattern finds in the cached text, and raises
    RedirectError when the text is no redirect line. *)
Theorem get_redirect_target_cached fuel p r c :
  (1 ≤ fuel)%nat → _exists p = Exists → _content p = Some c →
  get_redirect_target fuel p r
  = (match PyStr.findall_re_redirect c with
     | Some target => Returned target
     | None =>
         Raised (RedirectError "The page does not appear to have a redirect target.")
     end, p, r, []).
Proof.
  intros Hfuel Hex Hc. destruct fuel as [|n]; [lia|].
  apply wp_eq. unfold get_redirect_target, get_redirect_target_with.
  wp_step. apply wp_intro. intros o p' r' t E.
  rewrite (get_of_cached n p r c Hex Hc) in E. injection E as <- <- <- <-.
  destruct (PyStr.findall_re_redirect c); by wp_go.
Qed.

End Target.

Section Construction.
Context {RS : Type} `{!Site RS, !Runtime RS}.
Implicit Types (p : Page) (r : RS).

(** The namespace of a new page, for a title without white space at
    its ends: 0 when the title has no colon or the text before its
    first colon names no namespace, else the id of the namespace it
    names; the page is a talk page exactly when that id is odd and not
    negative. *)
Theorem init_namespace title follow :
  PyStr.strip title = title →
  _title (__init__ title follow) = title
  ∧ (PyStr.after_colon title = None → _namespace (__init__ title follow) = 0%Z)
  ∧ (∀ body, PyStr.after_colon title = Some body →
       _namespace (__init__ title follow)
       = default 0%Z (namespace_name_to_id (PyStr.before_colon title)))
  ∧ (_is_talkpage (__init__ title follow) = true
     ↔ (0 ≤ _namespace (__init__ title follow))%Z
       ∧ (_namespace (__init__ title follow) `mod` 2 = 1)%Z).
Proof.
  intros Hstrip. split_and!.
  - exact Hstrip.
  - intros Hc.
    change (_namespace (__init__ title follow))
      with (if negb (String.eqb (PyStr.before_colon (PyStr.strip title)) title)
            then match namespace_name_to_id (PyStr.before_colon (PyStr.strip title))
                 with Some n => n | None => 0%Z end
            else 0%Z).
    by rewrite Hstrip, before_colon_whole, String.eqb_refl.
  - intros body Hc.
    change (_namespace (__init__ title follow))
      with (if negb (String.eqb (PyStr.before_colon (PyStr.strip title)) title)
            then match namespace_name_to_id (PyStr.before_colon (PyStr.strip title))
                 with Some n => n | None => 0%Z end
            else 0%Z).
    rewrite Hstrip.
    assert (String.eqb (PyStr.before_colon title) title = false) as ->.
    { apply String.eqb_neq. intros Heq.
      assert (PyStr.after_colon (PyStr.before_colon title) = None) as Hn.
      { clear. induction title as [|c t IH]; cbn; [done|].
        destruct (Ascii.eqb_spec c ":"); [done|]. cbn.
        by destruct (Ascii.eqb_spec c ":"). }
      rewrite Heq in Hn. congruence. }
    cbn [negb]. by destruct (namespace_name_to_id _).
  - rewrite init_talkpage.
    destruct (_namespace (__init__ title follow) <? 0)%Z eqn:Hneg.
    + apply Z.ltb_lt in Hneg. split; [done|lia].
    + apply Z.ltb_ge in Hneg. rewrite Z.eqb_eq. tauto.
Qed.

End Construction.

Section MoreLoads.
Context {RS : Type} `{!Site RS, !Runtime RS}.
Implicit Types (p : Page) (r : RS).


(** A reload of a page whose content is cached, with following
    disabled, re-fetches the content after the metadata: when it
    returns, its first two queries are the metadata query for the old
    title and the content query for the title the metadata gave, and
    it has fetched content exactly once. *)
Theorem reload_with_content fuel p r c p' r' t :
  _content p = Some c → _keep_following p = false →
  reload fuel p r = (Returned tt, p', r', t) →
  (∃ resp title resp2 t',
     t = EvApiQuery (load_attributes_params (_title p)) resp
           :: EvApiQuery (load_content_params title) resp2 :: t')
  ∧ count content_fetch_event t = 1%nat
  ∧ count follow_event t = 0%nat.
Proof.
  intros Hc Hk E.
  assert (wp (reload fuel)
            (λ o p1 r1 t1, o = Returned tt →
               (∃ resp title resp2 t',
                  t1 = EvApiQuery (load_attributes_params (_title p)) resp
                         :: EvApiQuery (load_content_params title) resp2 :: t')
               ∧ count content_fetch_event t1 = 1%nat
               ∧ count follow_event t1 = 0%nat) p r) as Hwp.
  { unfold reload. wp_step. wp_call load_spec.
    destruct Hcall as (_ & _ & Hone & _ & _ & _ & _ & _ & _ & _ & Hcont).
    destruct (Hone Hk) as [resp ->]. specialize (Hcont Hk).
    destruct o as [[]| |]; [|done..].
    wp_step. wp_step. rewrite Hcont, Hc.
    wp_call load_content_trace.
    destruct Hcall as (Hf & _ & _ & Hn & Hfirst).
    destruct (Hfirst eq_refl) as (resp2 & t' & ->).
    intros _. cbn [app]. split; [eauto|].
    revert Hf Hn. count_simpl. auto. }
  exact (wp_run _ _ _ _ _ _ _ _ Hwp E eq_refl).
Qed.

End MoreLoads.

(** ** The cache between calls *)

Ltac key_sign :=
  repeat match goal with
         | H : (_ <? _)%Z = true |- _ => apply Z.ltb_lt in H
         | H : (_ <? _)%Z = false |- _ => apply Z.ltb_ge in H
         end.

Ltac consistent_goal :=
  unfold cache_consistent; simpl; key_sign;
  split_and!;
  first [ assumption
        | by intros []
        | by intros [? [=]]
        | by (intros; eauto)
        | by (intros _; eexists _, _; split_and!; [reflexivity..|];
              split; intros; first [lia | congruence]) ].

Ltac solve_consistent :=
  first
    [ assumption
    | match goal with
      | H : cache_consistent _ |- cache_consistent _ =>
          let H1 := fresh "H1" in let H2 := fresh "H2" in let H3 := fresh "H3" in
          destruct H as (H1 & H2 & H3); solve [consistent_goal]
      end ].

Ltac call_consistent lem :=
  eapply wp_mono;
  [ apply lem; solve_consistent
  | cbn beta;
    let o := fresh "o" in let p := fresh "p" in let r := fresh "r" in
    let t := fresh "t" in let H := fresh "HI" in
    intros o p r t H;
    try match goal with |- match ?x with _ => _ end => destruct x as [?| |] end;
    cbn beta match zeta ].

Section Consistent.
Context {RS : Type} `{!Site RS, !Runtime RS}.
Implicit Types (p : Page) (r : RS).

Lemma load_attributes_consistent result p r :
  cache_consistent p →
  wp (_load_attributes result) (λ o p' r' t, cache_consistent p') p r.
Proof.
  intros HI. unfold _load_attributes.
  wp_go. all: solve_consistent.
Qed.

Ltac step1 :=
  lazymatch goal with
  | |- wp (_load_attributes _) _ _ _ => call_consistent load_attributes_consistent
  | _ => wp_step
  end.

Lemma load_content_consistent result p r :
  cache_consistent p →
  wp (_load_content result) (λ o p' r' t, cache_consistent p') p r.
Proof.
  intros HI. unfold _load_content.
  repeat step1. all: solve_consistent.
Qed.

Ltac step2 IH :=
  lazymatch goal with
  | |- wp (_load_attributes _) _ _ _ => call_consistent load_attributes_consistent
  | |- wp (_load_content _) _ _ _ => call_consistent load_content_consistent
  | |- wp (get_redirect_target_with _) _ _ _ => unfold get_redirect_target_with
  | |- wp (get _) _ _ _ => call_consistent IH
  | _ => wp_step
  end.

Lemma get_consistent fuel p r :
  cache_consistent p →
  wp (get fuel) (λ o p' r' t, cache_consistent p') p r.
Proof.
  revert p r. induction fuel as [|n IH]; intros p r HI; cbn [get].
  - by wp_go.
  - repeat step2 IH. all: solve_consistent.
Qed.

Ltac step3 :=
  lazymatch goal with
  | |- wp (_load_attributes _) _ _ _ => call_consistent load_attributes_consistent
  | |- wp (_load_content _) _ _ _ => call_consistent load_content_consistent
  | |- wp (get_redirect_target _) _ _ _ =>
      unfold get_redirect_target, get_redirect_target_with
  | |- wp (get _) _ _ _ => call_consistent get_consistent
  | _ => wp_step
  end.

Lemma load_consistent fuel p r :
  cache_consistent p →
  wp (_load fuel) (λ o p' r' t, cache_consistent p') p r.
Proof.
  intros HI. unfold _load.
  repeat step3. all: solve_consistent.
Qed.

Lemma reload_consistent fuel p r :
  cache_consistent p →
  wp (reload fuel) (λ o p' r' t, cache_consistent p') p r.
Proof.
  intros HI. unfold reload. wp_step.
  call_consistent load_consistent; [|done..].
  repeat step3. all: solve_consistent.
Qed.

Lemma is_redirect_consistent fuel p r :
  cache_consistent p →
  wp (is_redirect fuel) (λ o p' r' t, cache_consistent p') p r.
Proof.
  intros HI. unfold is_redirect. do 4 wp_step.
  - call_consistent load_consistent; [|done..]. by wp_go.
  - by wp_go.
Qed.

Ltac step4 IH :=
  lazymatch goal with
  | |- wp (_load_attributes _) _ _ _ => call_consistent load_attributes_consistent
  | |- wp (_build_edit_params _) _ _ _ => call_build
  | |- wp (_handle_edit_errors _ _ _ _ _) _ _ _ => unfold _handle_edit_errors
  | |- wp (_handle_assert_edit _ _ _ _) _ _ _ => unfold _handle_assert_edit
  | |- wp (_edit _ _ _ _) _ _ _ => call_consistent IH
  | _ => wp_step
  end.

Lemma edit_consistent fuel given kw tries p r :
  cache_consistent p →
  wp (_edit fuel given kw tries) (λ o p' r' t, cache_consistent p') p r.
Proof.
  revert given kw tries p r.
  induction fuel as [|n IH]; intros given kw tries p r HI; cbn [_edit].
  - by wp_go.
  - repeat step4 IH. all: solve_consistent.
Qed.

Lemma call_consistent_any fuel c p r :
  cache_consistent p →
  wp (call fuel c) (λ o p' r' t, cache_consistent p') p r.
Proof.
  intros HI. destruct c; cbn [call].
  - wp_step. call_consistent get_consistent; [|done..]. by wp_go.
  - unfold get_redirect_target, get_redirect_target_with. do 2 wp_step.
    call_consistent get_consistent; [|done..]. by wp_go.
  - wp_step. call_consistent is_redirect_consistent; [|done..]. by wp_go.
  - by apply reload_consistent.
  - by apply edit_consistent.
  - by apply edit_consistent.
Qed.

Lemma new_page_consistent title follow : cache_consistent (__init__ title follow).
Proof.
  unfold cache_consistent.
  cbn [__init__ _exists _keep_following _follow_redirects _token _starttimestamp].
  split_and!; [done|done|]. by intros [? [=]].
Qed.

Lemma run_calls_consistent fuel cs p r os p' r' t :
  cache_consistent p →
  run_calls fuel cs p r = (os, p', r', t) →
  cache_consistent p'.
Proof.
  revert p r os p' r' t.
  induction cs as [|c cs IH]; intros p r os p' r' t HI; cbn [run_calls].
  - by intros [= <- <- <- <-].
  - destruct (call fuel c p r) as [[[o p1] r1] t1] eqn:Ec.
    destruct (run_calls fuel cs p1 r1) as [[[os' p2] r2] t2] eqn:Er.
    intros [= <- <- <- <-].
    apply (IH _ _ _ _ _ _ (wp_run _ _ _ _ _ _ _ _ (call_consistent_any fuel c p r HI) Ec) Er).
Qed.

(** Whatever calls are made on a page object after its construction,
    and however they end, the cache is consistent afterwards: once
    the state is known, the page id and the redirect flag are known
    and the id is non-negative exactly when the page exists; following
    is only enabled on a page built to follow redirects; and a token
    comes with its start timestamp. *)
Theorem cache_consistent_calls fuel cs title follow r os p' r' t :
  run_calls fuel cs (__init__ title follow) r = (os, p', r', t) →
  (_exists p' ≠ Unknown →
   ∃ key b, _pageid p' = Some key ∧ _is_redirect p' = Some b
            ∧ ((0 ≤ key)%Z ↔ _exists p' = Exists))
  ∧ (_keep_following p' = true → _follow_redirects p' = true)
  ∧ (is_Some (_token p') → is_Some (_starttimestamp p')).
Proof.
  intros E.
  exact (run_calls_consistent _ _ _ _ _ _ _ _ (new_page_consistent title follow) E).
Qed.

(** On a consistent page the accessors that return give definite
    answers: [pageid] gives the id of a page that exists, which is not
    negative, and [is_redirect] gives a boolean, never the unknown
    value. *)
Theorem accessors_definite fuel p r :
  cache_consistent p →
  (∀ v p' r' t, pageid fuel p r = (Returned v, p', r', t) →
     _exists p' = Exists ∧ ∃ key, v = Some key ∧ (0 ≤ key)%Z)
  ∧ (∀ v p' r' t, is_redirect fuel p r = (Returned v, p', r', t) →
       ∃ b, v = Some b).
Proof.
  intros HI. split.
  - intros v p' r' t E.
    assert (wp (pageid fuel)
              (λ o p1 _ _, ∀ v1, o = Returned v1 →
                 _exists p1 = Exists ∧ ∃ key, v1 = Some key ∧ (0 ≤ key)%Z) p r) as Hwp.
    { unfold pageid, load_if_unknown. do 4 wp_step.
      - eapply wp_mono;
          [apply wp_and; [apply load_consistent; assumption|apply load_spec]|].
        cbn beta. intros o p0 r0 t0 [HI0 Hl].
        destruct Hl as (_ & _ & _ & _ & _ & _ & _ & _ & Hret & _).
        destruct o as [[]| |]; [|done..]. destruct (Hret eq_refl) as [Hne _].
        wp_go; try done. intros v1 [= <-].
        destruct HI0 as (H1 & _).
        assert (_exists p0 = Exists) as Hex by (by destruct (_exists p0)).
        destruct (H1 ltac:(congruence)) as (key & b & Hk & _ & Hiff).
        split; [done|]. exists key. split; [done|]. by apply Hiff.
      - wp_go; try done. intros v1 [= <-].
        destruct HI as (H1 & _).
        assert (_exists p = Exists) as Hex by (by destruct (_exists p)).
        destruct (H1 ltac:(congruence)) as (key & b & Hk & _ & Hiff).
        split; [done|]. exists key. split; [done|]. by apply Hiff. }
    exact (wp_run _ _ _ _ _ _ _ _ Hwp E _ eq_refl).
  - intros v p' r' t E.
    assert (wp (is_redirect fuel)
              (λ o p1 _ _, ∀ v1, o = Returned v1 → ∃ b, v1 = Some b) p r) as Hwp.
    { unfold is_redirect. do 4 wp_step.
      - wp_call load_spec.
        destruct Hcall as (_ & _ & _ & _ & _ & _ & _ & _ & Hret & _).
        destruct o as [[]| |]; [|done..]. destruct (Hret eq_refl) as (_ & b & Hb).
        wp_go. intros v1 [= <-]. eauto.
      - wp_go. intros v1 [= <-].
        destruct HI as (H1 & _). destruct (H1 n) as (key & b & _ & Hb & _). eauto. }
    exact (wp_run _ _ _ _ _ _ _ _ Hwp E _ eq_refl).
Qed.

End Consistent.

Section ReadOnly.
Context {RS : Type} `{!Site RS, !Runtime RS}.
Implicit Types (p : Page) (r : RS).

(** The reading calls never write: [get], [get_redirect_target],
    [is_redirect] and [reload] send no edit submission and never log
    in, however they end. *)
Theorem reads_never_write fuel p r :
  let quiet (t : list event) :=
    count submission_event t = 0%nat ∧ count login_event t = 0%nat in
  quiet (events_of (get fuel p r))
  ∧ quiet (events_of (get_redirect_target fuel p r))
  ∧ quiet (events_of (is_redirect fuel p r))
  ∧ quiet (events_of (reload fuel p r)).
Proof.
  cbv zeta.
  assert (∀ A (m : M RS A),
            wp m (λ _ _ _ t, count submission_event t = 0%nat
                             ∧ count login_event t = 0%nat) p r →
            count submission_event (events_of (m p r)) = 0%nat
            ∧ count login_event (events_of (m p r)) = 0%nat) as Hrun.
  { intros A m Hwp. unfold wp in Hwp. destruct (m p r) as [[[o p'] r'] t]. exact Hwp. }
  split; [|split; [|split]]; apply Hrun.
  - wp_call get_flags. by destruct Hcall as (_ & _ & _ & _ & _ & ? & ? & _).
  - unfold get_redirect_target, get_redirect_target_with. wp_step.
    wp_call get_flags. destruct Hcall as (_ & _ & _ & _ & _ & Hs & Hl & _).
    destruct o as [v| |]; [|done..].
    wp_go; rewrite ?app_nil_r; done.
  - unfold is_redirect. do 4 wp_step.
    + wp_call load_spec. destruct Hcall as (_ & _ & _ & _ & _ & Hs & Hl & _).
      destruct o as [v| |]; [|done..]. wp_go. rewrite ?app_nil_r. done.
    + by wp_go.
  - wp_call reload_spec. by destruct Hcall as (_ & _ & _ & _ & _ & ? & ? & _).
Qed.

(** A content load whose result carries no revisions falls back on a
    metadata fetch: it sends that one query, leaves the cached content
    as it was, and returns only if the page exists. *)
Theorem load_content_without_revisions res key e rest p r o p' r' t :
  r_pages res = Some ((key, e) :: rest) → res_revisions e = None →
  _load_content (Some res) p r = (o, p', r', t) →
  _content p' = _content p
  ∧ (∃ resp, t = [EvApiQuery (load_attributes_params (_title p)) resp])
  ∧ (o = Returned tt → _exists p' = Exists).
Proof.
  intros Hpages Hrev E.
  assert (wp (_load_content (Some res))
            (λ o p1 r1 t1,
               _content p1 = _content p
               ∧ (∃ resp, t1 = [EvApiQuery (load_attributes_params (_title p)) resp])
               ∧ (o = Returned tt → _exists p1 = Exists)) p r) as Hwp.
  { unfold _load_content. wp_go; try congruence.
    all: assert (res_revisions p1 = None) as Hnone by congruence.
    all: try congruence.
    all: call_load_attributes; wp_go.
    all: destruct Ht as (resp & _ & ->).
    all: cbn [app]; rewrite ?app_nil_r; split_and!; eauto; try done.
    all: intros _; by destruct (_exists p2). }
  exact (wp_run _ _ _ _ _ _ _ _ Hwp E).
Qed.

End ReadOnly.

(** ** The remote cost of loading *)

Section Cost.
Context {RS : Type} `{!Site RS, !Runtime RS}.
Implicit Types (p : Page) (r : RS).

Lemma load_attributes_queries result p r :
  wp (_load_attributes result)
     (λ o p' r' t,
        count query_event t = (if result is None then 1 else 0)%nat
        ∧ count follow_event t = 0%nat
        ∧ _content p' = _content p ∧ _keep_following p' = _keep_following p
        ∧ o ≠ OutOfFuel
        ∧ (o = Returned tt → _exists p' ≠ Unknown)) p r.
Proof.
  wp_call load_attributes_spec.
  destruct Hcall as [(Hc & _ & Hk & _ & Hfuel & Ht) Hret].
  split_and!; try done.
  - destruct result; [by destruct Ht as [_ ->]|by destruct Ht as (? & _ & ->)].
  - destruct result; [by destruct Ht as [_ ->]|by destruct Ht as (? & _ & ->)].
  - intros Ho. by destruct (Hret Ho).
Qed.

Ltac call_queries lem :=
  wp_call lem;
  match goal with
  | H : _ ∧ _ |- _ =>
      let Hq := fresh "Hq" in let Hf := fresh "Hf" in let Hc := fresh "Hc" in
      let Hk := fresh "Hk" in let Hfuel := fresh "Hfuel" in let Hret := fresh "Hret" in
      destruct H as (Hq & Hf & Hc & Hk & Hfuel & Hret)
  end;
  try match goal with
      | |- match ?o with _ => _ end => destruct o as [[]| |]; [| |done]
      end.

Lemma load_content_queries result p r :
  wp (_load_content result)
     (λ o p' r' t,
        (count query_event t ≤ (if result is None then 2 else 1))%nat
        ∧ (result = None → 1 ≤ count query_event t)%nat
        ∧ count follow_event t = 0%nat
        ∧ _keep_following p' = _keep_following p
        ∧ o ≠ OutOfFuel
        ∧ (o = Returned tt → _exists p ≠ Unknown → _exists p' ≠ Unknown)) p r.
Proof.
  unfold _load_content.
  wp_go.
  all: try (call_queries load_attributes_queries; wp_go).
  all: rewrite ?count_app; cbn [count query_event follow_event Nat.add];
       rewrite ?Hq, ?Hf.
  all: split_and!; try done; try lia; simpl; try congruence; auto.
Qed.

Lemma get_known_queries n p r :
  _exists p ≠ Unknown →
  wp (get (S n))
     (λ o p' r' t,
        (count query_event t ≤ 2)%nat
        ∧ (∀ v, o = Returned v → _content p = None → 1 ≤ count query_event t)%nat
        ∧ (∀ c, _content p = Some c → t = [])
        ∧ count follow_event t = 0%nat
        ∧ _keep_following p' = _keep_following p
        ∧ o ≠ OutOfFuel) p r.
Proof.
  intros Hex. cbn [get].
  wp_go; try done.
  all: try (wp_call load_content_queries;
            destruct Hcall as (Hq & Hq1 & Hf & Hk & Hfuel & _);
            specialize (Hq1 eq_refl);
            destruct o as [[]| |]; [wp_go| |done]).
  all: rewrite ?count_app; cbn [count query_event follow_event Nat.add app];
       rewrite ?Hf.
  all: split_and!; try done; try lia; intros; simplify_eq/=; try lia.
Qed.

(** The remote cost of [_load]: one query when following is disabled,
    at most four in any case; when it returns after following a
    redirect from a page without cached content it has sent three or
    four: the metadata of the page, its text, the metadata of the
    target, and one more only if the text came without a timestamp. *)
Theorem load_query_cost fuel p r o p' r' t :
  _load fuel p r = (o, p', r', t) →
  (1 ≤ count query_event t ≤ 4)%nat
  ∧ (_keep_following p = false → count query_event t = 1%nat)
  ∧ (o = Returned tt → count follow_event t = 1%nat → _content p = None →
     3 ≤ count query_event t)%nat.
Proof.
  intros E.
  assert (wp (_load fuel)
            (λ o p1 r1 t1,
               (1 ≤ count query_event t1 ≤ 4)%nat
               ∧ (_keep_following p = false → count query_event t1 = 1%nat)
               ∧ (o = Returned tt → count follow_event t1 = 1%nat → _content p = None →
                  3 ≤ count query_event t1)%nat) p r) as Hwp.
  { unfold _load. wp_step.
    call_queries load_attributes_queries.
    - specialize (Hret eq_refl). wp_go.
      + apply andb_true_iff in Heqb as [Hkeep _].
        unfold get_redirect_target, get_redirect_target_with.
        destruct fuel as [|n].
        { cbn [get]. wp_go. rewrite ?count_app, Hq. cbn.
          split_and!; first [lia | intros; congruence]. }
        wp_step. wp_call (get_known_queries n); [done|].
        destruct Hcall as (Hq2 & Hq3 & _ & Hf2 & _ & _).
        match goal with |- match ?x with _ => _ end => destruct x as [v| |] end.
        * wp_go.
          all: try (call_queries load_attributes_queries).
          all: rewrite ?count_app; cbn [count query_event follow_event Nat.add app];
               rewrite ?Hq, ?Hq0, ?Hf, ?Hf0, ?Hf2.
          all: specialize (Hq3 _ eq_refl).
          all: split_and!; try lia; try (intros; congruence).
          all: intros; rewrite Hc in *; specialize (Hq3 ltac:(done)); lia.
        * rewrite ?count_app, Hq. cbn. split_and!; first [lia | intros; congruence].
        * rewrite ?count_app, Hq. cbn. split_and!; first [lia | intros; congruence].
      + rewrite ?count_app, Hq, Hf. cbn. split_and!; first [lia | done].
    - rewrite Hq. split_and!; first [lia | done]. }
  exact (wp_run _ _ _ _ _ _ _ _ Hwp E).
Qed.

End Cost.

(** ** URLs *)

Lemma append_empty_r s : s ++ EmptyString = s.
Proof. induction s as [|c s IH]; [done|]. by rewrite append_cons, IH. Qed.

Lemma list_ascii_of_string_app a b :
  list_ascii_of_string (a ++ b) = (list_ascii_of_string a ++ list_ascii_of_string b)%list.
Proof. induction a as [|c a IH]; [done|]. rewrite append_cons. cbn. by rewrite IH. Qed.

Lemma replace_placeholder pre new :
  PyStr.char_in "$" pre = false →
  PyStr.replace "$1" new (pre ++ "$1") = pre ++ new.
Proof.
  unfold PyStr.replace, PyStr.char_in.
  induction pre as [|c pre IH].
  - intros _.
    change (PyStr.replace_from "$1" new 0 (EmptyString ++ "$1")) with (new ++ EmptyString).
    by rewrite append_empty_r.
  - cbn [list_ascii_of_string existsb]. intros [Hc Hpre]%orb_false_elim.
    rewrite append_cons. cbn [PyStr.replace_from String.prefix].
    destruct (ascii_dec "$" c) as [<-|_]; [done|]. by rewrite IH.
Qed.

Lemma percent_escape_chars c :
  forallb PyStr.url_char (list_ascii_of_string (PyStr.percent_escape c)) = true.
Proof. destruct c as [[] [] [] [] [] [] [] []]; vm_compute; reflexivity. Qed.

Lemma quote_chars s :
  forallb PyStr.url_char (list_ascii_of_string (PyStr.quote "/:" s)) = true.
Proof.
  induction s as [|c s IH]; [done|].
  cbn [PyStr.quote]. rewrite list_ascii_of_string_app, forallb_app, IH, andb_true_r.
  destruct (PyStr.always_safe c || PyStr.char_in c "/:") eqn:Hc.
  - cbn. rewrite andb_true_r. unfold PyStr.url_char.
    apply orb_true_iff in Hc as [->|Hc]; [done|].
    apply orb_true_iff. right. unfold PyStr.char_in in *. cbn in *.
    by destruct (Ascii.eqb c "/"), (Ascii.eqb c ":").
  - apply percent_escape_chars.
Qed.

Section Url.
Context {RS : Type} `{!Site RS, !Runtime RS}.
Implicit Types (p : Page) (r : RS).

(** The URL of a page whose title is made of ASCII characters: the
    full URL the remote gave, when one is cached; else, for an article
    path that ends in its placeholder, the base URL, the path and the
    title with spaces turned into underscores and quoted, so that the
    part made from the title holds only letters, digits, "_", ".",
    "-", "/", ":" and "%XX" escapes.  Nothing is sent either way. *)
Theorem url_of_page path base p r :
  PyStr.char_in "$" path = false →
  forallb PyStr.is_ascii (list_ascii_of_string (_title p)) = true →
  let slug := PyStr.quote "/:" (PyStr.replace_char " " "_" (_title p)) in
  (∀ u, _fullurl p = Some u → u ≠ EmptyString →
     url (path ++ "$1") base p r = (Returned u, p, r, []))
  ∧ (truthy_opt (_fullurl p) = false →
     url (path ++ "$1") base p r = (Returned (base ++ path ++ slug), p, r, []))
  ∧ forallb PyStr.url_char (list_ascii_of_string slug) = true.
Proof.
  intros Hpath _ slug. split_and!.
  - intros u Hu Hne. apply wp_eq. unfold url. cbv zeta. do 2 wp_step.
    rewrite Hu. apply String.eqb_neq in Hne. rewrite Hne. by wp_go.
  - intros Hu. apply wp_eq. unfold url. cbv zeta. do 2 wp_step.
    unfold truthy_opt in Hu.
    destruct (_fullurl p) as [u|]; cbn [of_opt truthy] in Hu; rewrite ?Hu.
    all: wp_go; by rewrite replace_placeholder.
  - apply quote_chars.
Qed.

End Url.

(** ** The theorems at concrete inputs *)

Section Witnesses.
Import Scripted Examples.
#[local] Existing Instance runtime.

Abbreviation retry_run :=
  (_edit (Site0 := logged_in) 2 None (kwargs "New text" "Summary") 0
     plain_page_A no_token_after_login).


Abbreviation rejected_run :=
  (_edit (Site0 := logged_in) 2 None (kwargs "New text" "Summary") 0
     plain_page_A rejected_twice).


Abbreviation conflict_run :=
  (_edit (Site0 := anonymous) 2 None (kwargs "New text" "Summary") 0
     plain_page_A conflict_then_text).

Abbreviation get_after_conflict :=
  (get (Site0 := anonymous) 2 (page_of conflict_run) (world_of conflict_run)).

Lemma edit_conflict_witness :
  (2 ≤ 2)%nat
  ∧ conflict_run
    = (outcome_of conflict_run, page_of conflict_run, world_of conflict_run,
       events_of conflict_run)
  ∧ rejected "editconflict" "Edit conflict detected"
      ∈ (submissions (events_of conflict_run)).*2
  ∧ conflict (rejected "editconflict" "Edit conflict detected")
    = Some "Edit conflict detected"
  ∧ outcome_of conflict_run = Raised (EditConflictError "Edit conflict detected")
  ∧ invalidated (page_of conflict_run)
  ∧ outcome_of get_after_conflict = Returned (Some "Their text").
Proof.
  assert (conflict_run
    = (outcome_of conflict_run, page_of conflict_run, world_of conflict_run,
       events_of conflict_run)) as E by apply run_eta.
  assert (rejected "editconflict" "Edit conflict detected"
            ∈ (submissions (events_of conflict_run)).*2) as Hin
    by (apply head_Some_elem_of; vm_compute; reflexivity).
  assert (outcome_of get_after_conflict = Returned (Some "Their text")) as Hget
    by (vm_compute; reflexivity).
  assert (conflict (rejected "editconflict" "Edit conflict detected")
          = Some "Edit conflict detected") as Hc by (vm_compute; reflexivity).
  pose proof (edit_conflict (Site0 := anonymous) 2 (kwargs "New text" "Summary")
                plain_page_A conflict_then_text (outcome_of conflict_run)
                (page_of conflict_run) (world_of conflict_run) (events_of conflict_run)
                (rejected "editconflict" "Edit conflict detected")
                "Edit conflict detected" (le_n 2) E Hin Hc) as (Ho & Hinv & _).
  split_and!; [lia|exact E|exact Hin|exact Hc|exact Ho|exact Hinv|exact Hget].
Defined.

Abbreviation create_run :=
  (_edit (Site0 := anonymous) 2 None (kwargs "New text" "Summary") 0
     plain_page_A create_then_overwrite).

Abbreviation overwrite_run :=
  (_edit (Site0 := anonymous) 2 None (kwargs "Newer text" "Summary") 0
     (page_of create_run) (world_of create_run)).

Lemma edit_success_resets_witness :
  (2 ≤ 2)%nat
  ∧ create_run
    = (Returned tt, page_of create_run, world_of create_run, events_of create_run)
  ∧ (∃ ps resp, (ps, resp) ∈ submissions (events_of create_run)
                ∧ successful resp = true)
  ∧ (∀ ps resp, (ps, resp) ∈ submissions (events_of overwrite_run) →
       ps !! "createonly" = None).
Proof.
  assert (create_run
    = (Returned tt, page_of create_run, world_of create_run, events_of create_run))
    as E by (vm_compute; reflexivity).
  pose proof (edit_success_resets (Site0 := anonymous) 2 (kwargs "New text" "Summary")
                plain_page_A create_then_overwrite (Returned tt)
                (page_of create_run) (world_of create_run) (events_of create_run)
                (le_n 2) E) as (_ & Hok & _ & Hnext).
  specialize (Hok eq_refl).
  split_and!; [lia|exact E|exact Hok|].
  exact (proj2 (Hnext Hok 2%nat (kwargs "Newer text" "Summary") (world_of create_run)
                  (outcome_of overwrite_run) (page_of overwrite_run)
                  (world_of overwrite_run) (events_of overwrite_run)
                  (le_n 2) (run_eta overwrite_run))).
Defined.

Abbreviation fetch_A :=
  (_load_attributes (Site0 := anonymous) None plain_page_A
     [pages 1 (entry "A" 0 false "Text of A")]).


Abbreviation fetch_special :=
  (_load_attributes (Site0 := anonymous) None special_page special_missing).

(** C5 fails on the code: a title of the Special namespace is no talk
    page at construction; a metadata fetch that answers with namespace
    -1 and does not stop at an invalid title turns the flag on. *)
Theorem talkpage_after_fetch_negative_namespace :
  _namespace special_page = (-1)%Z
  ∧ _is_talkpage special_page = false
  ∧ outcome_of fetch_special = Returned tt
  ∧ _namespace (page_of fetch_special) = (-1)%Z
  ∧ _is_talkpage (page_of fetch_special) = true.
Proof. vm_compute. done. Qed.

Abbreviation edit_invalid :=
  (_edit (Site0 := anonymous) 2 None (kwargs "New text" "Summary") 0
     invalid_page [pages (-1) (invalid_entry "A[B")]).

(** C6 as stated fails: the cached state is Invalid, and the edit call
    sends a query before it raises. *)
Lemma edit_invalid_page_queries :
  _exists invalid_page = Invalid
  ∧ outcome_of edit_invalid
    = Raised (PermissionsError "You don't have permission to edit this page.")
  ∧ count query_event (events_of edit_invalid) = 1%nat.
Proof. vm_compute. done. Qed.

Lemma edit_invalid_page_witness :
  (1 ≤ 2)%nat
  ∧ _exists stale_page = Invalid
  ∧ truthy_opt (_token stale_page) = true
  ∧ _edit (Site0 := anonymous) 2 None (kwargs "New text" "Summary") 0 stale_page []
    = (Raised (InvalidPageError ("Page '" ++ _title stale_page ++ "' is invalid.")),
       stale_page, [], []).
Proof.
  assert (_exists stale_page = Invalid) as Hex by (vm_compute; reflexivity).
  assert (truthy_opt (_token stale_page) = true) as Htok by (vm_compute; reflexivity).
  split_and!; [lia|exact Hex|exact Htok|].
  exact (proj1 (edit_invalid_page (Site0 := anonymous) 2 (kwargs "New text" "Summary")
                  stale_page [] (le_S 1 1 (le_n 1)) Hex) Htok).
Defined.

Abbreviation circular_run :=
  (run_calls (Site0 := anonymous) 2
     [CallGet; CallGetRedirectTarget; CallReload; CallGet; CallIsRedirect]
     page_A circular).

Lemma one_hop_per_instance_witness :
  (2 ≤ 2)%nat
  ∧ circular_run
    = (circular_run.1.1.1, circular_run.1.1.2, circular_run.1.2, circular_run.2)
  ∧ _title circular_run.1.1.2 = "B"
  ∧ (count follow_event circular_run.2 ≤ 1)%nat
  ∧ Forall (λ o, o ≠ OutOfFuel) circular_run.1.1.1.
Proof.
  assert (circular_run
    = (circular_run.1.1.1, circular_run.1.1.2, circular_run.1.2, circular_run.2))
    as E by (vm_compute; reflexivity).
  assert (_title circular_run.1.1.2 = "B") as Ht by (vm_compute; reflexivity).
  pose proof (one_hop_per_instance (Site0 := anonymous) 2
                [CallGet; CallGetRedirectTarget; CallReload; CallGet; CallIsRedirect]
                page_A circular circular_run.1.1.1 circular_run.1.1.2
                circular_run.1.2 circular_run.2 (le_n 2) E) as (H1 & _ & _ & H4).
  split_and!; [lia|exact E|exact Ht|exact H1|exact H4].
Defined.

Abbreviation first_get := (get (Site0 := anonymous) 2 page_A redirect_A_to_B).
Abbreviation second_get :=
  (get (Site0 := anonymous) 2 (page_of first_get) (world_of first_get)).



Abbreviation reload_A := (reload (Site0 := anonymous) 2 page_A reload_A_to_B).

(** C9 as stated fails: the content of the page was never fetched, and
    the reload fetches content, to read the target of the redirect. *)
Lemma reload_redirect_fetches_content :
  _content page_A = None
  ∧ outcome_of reload_A = Returned tt
  ∧ count content_fetch_event (events_of reload_A) = 1%nat.
Proof. vm_compute. done. Qed.

Lemma reload_without_content_witness :
  (1 ≤ 2)%nat
  ∧ _content page_A = None
  ∧ reload_A = (Returned tt, page_of reload_A, world_of reload_A, events_of reload_A)
  ∧ _content (page_of reload_A) = None
  ∧ count content_fetch_event (events_of reload_A) = count follow_event (events_of reload_A).
Proof.
  assert (reload_A = (Returned tt, page_of reload_A, world_of reload_A,
                      events_of reload_A)) as E by (vm_compute; reflexivity).
  pose proof (reload_without_content (Site0 := anonymous) 2 page_A reload_A_to_B
                (Returned tt) (page_of reload_A) (world_of reload_A) (events_of reload_A)
                (le_S 1 1 (le_n 1)) eq_refl E) as (_ & H & _).
  destruct (H eq_refl) as [Hc Hn].
  split_and!; [lia|reflexivity|exact E|exact Hc|exact Hn].
Defined.

Abbreviation fetch_missing_redirect :=
  (_load_attributes (Site0 := anonymous) None plain_page_A missing_redirect).



End Witnesses.

(** ** The further theorems at concrete inputs *)

Section MoreWitnesses.
Import Scripted Examples.
#[local] Existing Instance runtime.

Lemma get_cached_state_errors_witness :
  (1 ≤ 1)%nat
  ∧ _exists missing_page = Missing
  ∧ get (Site0 := anonymous) 1 missing_page []
    = (Raised (PageNotFoundError ("Page '" ++ _title missing_page ++ "' does not exist.")),
       missing_page, [], []).
Proof.
  split; [lia|]. split; [reflexivity|].
  exact (proj1 (get_cached_state_errors (Site0 := anonymous) 1 missing_page [] (le_n 1))
           eq_refl).
Defined.

Abbreviation missing_answer := (mkResult (Some [((-1)%Z, missing_entry "A" 0 false)]) None).

Lemma get_unknown_errors_witness :
  _exists plain_page_A = Unknown
  ∧ get (Site0 := anonymous) 1 plain_page_A [ApiOk missing_answer]
    = (Raised (PageNotFoundError ("Page '" ++ _title missing_page ++ "' does not exist.")),
       missing_page, [], [EvApiQuery (get_params (_title plain_page_A)) (ApiOk missing_answer)]).
Proof.
  split; [reflexivity|].
  refine (proj1 (proj2 (get_unknown_errors (Site0 := anonymous) 0 plain_page_A
                          [ApiOk missing_answer] eq_refl))
            missing_answer [] missing_page [] [] eq_refl _ eq_refl).
  vm_compute. reflexivity.
Defined.

Abbreviation follow_edit_run :=
  (_edit (Site0 := anonymous) 2 None (kwargs "New text" "Summary") 0
     page_A create_then_overwrite).

Lemma edit_never_follows_witness :
  (2 ≤ 2)%nat
  ∧ _keep_following page_A = true
  ∧ count follow_event (events_of follow_edit_run) = 0%nat
  ∧ _keep_following (page_of follow_edit_run) = true
  ∧ _title (page_of follow_edit_run) = "A".
Proof.
  split; [lia|]. split; [reflexivity|].
  pose proof (edit_never_follows (Site0 := anonymous) 2 (kwargs "New text" "Summary")
                page_A create_then_overwrite (outcome_of follow_edit_run)
                (page_of follow_edit_run) (world_of follow_edit_run)
                (events_of follow_edit_run) (le_n 2) (run_eta follow_edit_run))
    as (Hf & Hk & _).
  split_and!; [exact Hf|exact Hk|vm_compute; reflexivity].
Defined.

Abbreviation anonymous_run :=
  (_edit (Site0 := anonymous) 2 None (kwargs "New text" "Summary") 0
     plain_page_A rejected_twice).

Lemma edit_without_credentials_witness :
  (2 ≤ 2)%nat
  ∧ credentials_configured (Site0 := anonymous) = false
  ∧ count login_event (events_of anonymous_run) = 0%nat
  ∧ (count submission_event (events_of anonymous_run) ≤ 1)%nat.
Proof.
  split; [lia|]. split; [reflexivity|].
  pose proof (edit_without_credentials (Site0 := anonymous) 2
                (kwargs "New text" "Summary") plain_page_A rejected_twice
                (outcome_of anonymous_run) (page_of anonymous_run)
                (world_of anonymous_run) (events_of anonymous_run)
                (le_n 2) eq_refl (run_eta anonymous_run)) as (Hl & Hs & _).
  split; [exact Hl|exact Hs].
Defined.

Abbreviation accepted_run :=
  (_edit (Site0 := logged_in) 2 None (kwargs "New text" "Summary") 0
     plain_page_A rejected_then_accepted).

Lemma edit_resubmission_outcome_witness :
  (2 ≤ 2)%nat
  ∧ (submissions (events_of accepted_run)).*2
    = [rejected "noedit-anon" "Anonymous users cannot edit pages"; edit_success]
  ∧ successful edit_success = true
  ∧ outcome_of accepted_run = Raised TypeError
  ∧ invalidated (page_of accepted_run).
Proof.
  assert ((submissions (events_of accepted_run)).*2
          = [rejected "noedit-anon" "Anonymous users cannot edit pages"; edit_success])
    as Hs by (vm_compute; reflexivity).
  pose proof (edit_resubmission_outcome (Site0 := logged_in) 2
                (kwargs "New text" "Summary") plain_page_A rejected_then_accepted
                (outcome_of accepted_run) (page_of accepted_run)
                (world_of accepted_run) (events_of accepted_run)
                (rejected "noedit-anon" "Anonymous users cannot edit pages") edit_success
                (le_n 2) (run_eta accepted_run) Hs eq_refl) as (Hinv & _ & Ho).
  split_and!; [lia|exact Hs|reflexivity|exact Ho|exact Hinv].
Defined.

Abbreviation build_run :=
  (_build_edit_params (RS := list api_response) (kwargs "New text" "Summary")
     missing_page []).

Abbreviation built_params :=
  (match outcome_of build_run with Returned ps => ps | _ => ∅ end).

Lemma build_edit_params_keys_witness :
  build_run = (Returned built_params, missing_page, [], [])
  ∧ built_params !! "title" = Some (PStr "A")
  ∧ built_params !! "text" = Some (PStr "New text")
  ∧ built_params !! "notminor" = Some (PStr "true")
  ∧ built_params !! "createonly" = Some (PStr "true").
Proof.
  assert (build_run = (Returned built_params, missing_page, [], [])) as E
    by (vm_compute; reflexivity).
  split; [exact E|].
  pose proof (build_edit_params_keys (RS := list api_response)
                (kwargs "New text" "Summary")
                missing_page [] built_params missing_page [] [] E)
    as (_ & _ & Ht & _ & _ & (text & Hkw & Htext & _) & _ & Hminor & Hforce).
  injection Hkw as <-.
  split_and!; [exact Ht|exact Htext|exact (proj2 Hminor)|].
  apply (proj2 (proj2 Hforce)). reflexivity.
Defined.

Lemma toggle_talk_special_witness :
  (_namespace special_page < 0)%Z
  ∧ toggle_talk (Site0 := anonymous) namespace_names None special_page []
    = (Raised (InvalidPageError "Pages in the Special namespace can't have talk pages."),
       special_page, [], []).
Proof.
  split; [reflexivity|].
  exact (toggle_talk_special (Site0 := anonymous) namespace_names None special_page []
           eq_refl).
Defined.

Lemma toggle_talk_namespace_witness :
  ∃ q, toggle_talk (Site0 := anonymous) namespace_names (Some true) plain_page_A []
       = (Returned q, plain_page_A, [], [])
       ∧ _namespace q = 1%Z
       ∧ _is_talkpage q = true
       ∧ _follow_redirects q = true.
Proof.
  destruct (toggle_talk_namespace (Site0 := anonymous) namespace_names (Some true)
              plain_page_A [] "T" "alk" ltac:(vm_compute; discriminate)
              eq_refl eq_refl eq_refl eq_refl eq_refl)
    as (q & E & Hns & Htalk & Hf & _).
  exists q. split_and!; [exact E|exact Hns|exact Htalk|exact Hf].
Defined.

Lemma toggle_talk_round_trip_witness :
  ∃ q, toggle_talk (Site0 := anonymous) namespace_names None plain_page_A []
       = (Returned q, plain_page_A, [], [])
       ∧ _title q = "Talk:A"
       ∧ toggle_talk (Site0 := anonymous) namespace_names None q []
         = (Returned plain_page_A, q, [], []).
Proof.
  destruct (toggle_talk_round_trip (Site0 := anonymous) namespace_names
              plain_page_A [] "T" "alk" eq_refl eq_refl eq_refl eq_refl eq_refl
              eq_refl eq_refl eq_refl eq_refl)
    as (q & E & Ht & _ & E2 & _).
  exists q. split_and!; [exact E|exact Ht|exact E2].
Defined.

Lemma redirect_target_parsed_witness :
  PyStr.findall_re_redirect
    (" " ++ "#" ++ EmptyString ++ "Redirect" ++ " " ++ "[[" ++ "Main Page" ++ "]]"
     ++ " and more text")
  = Some "Main Page".
Proof.
  apply (redirect_target_parsed " " EmptyString "Redirect" " " "Main Page"
           " and more text"); try reflexivity.
  repeat (constructor; [split; discriminate|]). constructor.
Defined.

Lemma get_redirect_target_cached_witness :
  (1 ≤ 1)%nat
  ∧ _exists (read_page true "#REDIRECT [[B]]") = Exists
  ∧ get_redirect_target (Site0 := anonymous) 1 (read_page true "#REDIRECT [[B]]") []
    = (Returned "B", read_page true "#REDIRECT [[B]]", [], []).
Proof.
  split; [lia|]. split; [reflexivity|].
  exact (get_redirect_target_cached (Site0 := anonymous) 1
           (read_page true "#REDIRECT [[B]]") [] "#REDIRECT [[B]]" (le_n 1)
           eq_refl eq_refl).
Defined.

Lemma init_namespace_witness :
  PyStr.strip "User talk:Alice" = "User talk:Alice"
  ∧ _namespace (__init__ (Site0 := anonymous) "User talk:Alice" false) = 3%Z
  ∧ _is_talkpage (__init__ (Site0 := anonymous) "User talk:Alice" false) = true.
Proof.
  split; [reflexivity|].
  destruct (init_namespace (Site0 := anonymous) "User talk:Alice" false eq_refl)
    as (_ & _ & Hns & Htalk).
  split; [exact (Hns "Alice" eq_refl)|].
  apply Htalk. rewrite (Hns "Alice" eq_refl). vm_compute. split; [discriminate|reflexivity].
Defined.

Abbreviation refetch_A :=
  (_load_attributes (Site0 := anonymous) None (read_page false "Text of A")
     [pages 1 (entry "A" 0 false "Newer text of A")]).


Abbreviation reload_read_A :=
  (reload (Site0 := anonymous) 2 (read_page false "Text of A") metadata_then_text).

Lemma reload_with_content_witness :
  _content (read_page false "Text of A") = Some "Text of A"
  ∧ _keep_following (read_page false "Text of A") = false
  ∧ reload_read_A
    = (Returned tt, page_of reload_read_A, world_of reload_read_A,
       events_of reload_read_A)
  ∧ count content_fetch_event (events_of reload_read_A) = 1%nat
  ∧ _content (page_of reload_read_A) = Some "Newer text of A".
Proof.
  assert (reload_read_A
          = (Returned tt, page_of reload_read_A, world_of reload_read_A,
             events_of reload_read_A)) as E by (vm_compute; reflexivity).
  pose proof (reload_with_content (Site0 := anonymous) 2 (read_page false "Text of A")
                metadata_then_text "Text of A" (page_of reload_read_A)
                (world_of reload_read_A) (events_of reload_read_A)
                eq_refl eq_refl E) as (_ & Hn & _).
  split_and!; [reflexivity|reflexivity|exact E|exact Hn|vm_compute; reflexivity].
Defined.

Abbreviation calls_on_A :=
  (run_calls (Site0 := anonymous) 2
     [CallGet; CallEdit "New text" "Summary" false false false; CallIsRedirect]
     (__init__ (Site0 := anonymous) "A" true) circular).

Lemma cache_consistent_calls_witness :
  calls_on_A = (calls_on_A.1.1.1, calls_on_A.1.1.2, calls_on_A.1.2, calls_on_A.2)
  ∧ (is_Some (_token calls_on_A.1.1.2) → is_Some (_starttimestamp calls_on_A.1.1.2))
  ∧ (_keep_following calls_on_A.1.1.2 = true → _follow_redirects calls_on_A.1.1.2 = true).
Proof.
  assert (calls_on_A = (calls_on_A.1.1.1, calls_on_A.1.1.2, calls_on_A.1.2, calls_on_A.2))
    as E by (vm_compute; reflexivity).
  split; [exact E|].
  pose proof (cache_consistent_calls (Site0 := anonymous) 2
                [CallGet; CallEdit "New text" "Summary" false false false; CallIsRedirect]
                "A" true circular calls_on_A.1.1.1 calls_on_A.1.1.2
                calls_on_A.1.2 calls_on_A.2 E) as (_ & Hk & Ht).
  split; [exact Ht|exact Hk].
Defined.

Abbreviation pageid_of_A :=
  (pageid (Site0 := anonymous) 2 plain_page_A [pages 1 (entry "A" 0 false "Text of A")]).

Lemma accessors_definite_witness :
  cache_consistent plain_page_A
  ∧ pageid_of_A
    = (Returned (Some 1%Z), page_of pageid_of_A, world_of pageid_of_A,
       events_of pageid_of_A)
  ∧ _exists (page_of pageid_of_A) = Exists.
Proof.
  assert (cache_consistent plain_page_A) as HI.
  { unfold cache_consistent. split_and!; [intros H; by destruct H|done|].
    intros [tok H]. discriminate H. }
  assert (pageid_of_A
          = (Returned (Some 1%Z), page_of pageid_of_A, world_of pageid_of_A,
             events_of pageid_of_A)) as E by (vm_compute; reflexivity).
  split; [exact HI|]. split; [exact E|].
  exact (proj1 (proj1 (accessors_definite (Site0 := anonymous) 2 plain_page_A
                         [pages 1 (entry "A" 0 false "Text of A")] HI)
                  (Some 1%Z) (page_of pageid_of_A) (world_of pageid_of_A)
                  (events_of pageid_of_A) E)).
Defined.

Abbreviation content_of_missing :=
  (_load_content (Site0 := anonymous)
     (Some (mkResult (Some [((-1)%Z, missing_entry "A" 0 false)]) None))
     plain_page_A [pages (-1) (missing_entry "A" 0 false)]).

Lemma load_content_without_revisions_witness :
  res_revisions (missing_entry "A" 0 false) = None
  ∧ content_of_missing
    = (outcome_of content_of_missing, page_of content_of_missing,
       world_of content_of_missing, events_of content_of_missing)
  ∧ _content (page_of content_of_missing) = None
  ∧ count query_event (events_of content_of_missing) = 1%nat.
Proof.
  split; [reflexivity|]. split; [apply run_eta|].
  pose proof (load_content_without_revisions (Site0 := anonymous)
                (mkResult (Some [((-1)%Z, missing_entry "A" 0 false)]) None)
                (-1)%Z (missing_entry "A" 0 false) [] plain_page_A
                [pages (-1) (missing_entry "A" 0 false)]
                (outcome_of content_of_missing) (page_of content_of_missing)
                (world_of content_of_missing) (events_of content_of_missing)
                eq_refl eq_refl (run_eta content_of_missing)) as (Hc & [resp Ht] & _).
  split; [exact Hc|]. rewrite Ht. reflexivity.
Defined.

Abbreviation load_A_to_B := (_load (Site0 := anonymous) 2 page_A reload_A_to_B).

Lemma load_query_cost_witness :
  load_A_to_B
  = (Returned tt, page_of load_A_to_B, world_of load_A_to_B, events_of load_A_to_B)
  ∧ count follow_event (events_of load_A_to_B) = 1%nat
  ∧ (3 ≤ count query_event (events_of load_A_to_B) ≤ 4)%nat.
Proof.
  assert (load_A_to_B
          = (Returned tt, page_of load_A_to_B, world_of load_A_to_B,
             events_of load_A_to_B)) as E by (vm_compute; reflexivity).
  assert (count follow_event (events_of load_A_to_B) = 1%nat) as Hf
    by (vm_compute; reflexivity).
  pose proof (load_query_cost (Site0 := anonymous) 2 page_A reload_A_to_B
                (Returned tt) (page_of load_A_to_B) (world_of load_A_to_B)
                (events_of load_A_to_B) E) as (Hall & _ & Hhop).
  specialize (Hhop eq_refl Hf eq_refl).
  split; [exact E|]. split; [exact Hf|]. split; [exact Hhop|exact (proj2 Hall)].
Defined.

Abbreviation main_page := (__init__ (Site0 := anonymous) "Main Page/A&B" false).

Lemma url_of_page_witness :
  PyStr.char_in "$" "/wiki/" = false
  ∧ forallb PyStr.is_ascii (list_ascii_of_string (_title main_page)) = true
  ∧ url (RS := list api_response) ("/wiki/" ++ "$1") "http://example.org" main_page []
    = (Returned ("http://example.org" ++ "/wiki/" ++ "Main_Page/A%26B"),
       main_page, [], []).
Proof.
  split; [reflexivity|]. split; [reflexivity|].
  exact (proj1 (proj2 (url_of_page (RS := list api_response) "/wiki/"
                         "http://example.org" main_page [] eq_refl eq_refl))
           eq_refl).
Defined.

Lemma exists_never_unknown_witness :
  _exists missing_page ≠ Unknown
  ∧ exists_ (Site0 := anonymous) 2 missing_page []
    = (Returned (Some false, "missing"), missing_page, [], []).
Proof.
  assert (_exists missing_page ≠ Unknown) as Hne by discriminate.
  split; [exact Hne|].
  exact (proj1 (exists_never_unknown (Site0 := anonymous) 2 missing_page []) Hne).
Defined.

Lemma pageid_protection_cached_witness :
  _exists missing_page = Missing
  ∧ pageid (Site0 := anonymous) 2 missing_page []
    = (Raised (PageNotFoundError ("Page '" ++ _title missing_page ++ "' does not exist.")),
       missing_page, [], [])
  ∧ protection (Site0 := anonymous) 2 missing_page []
    = (Returned (Some []), missing_page, [], []).
Proof.
  split; [reflexivity|].
  exact (proj1 (pageid_protection_cached (Site0 := anonymous) 2 missing_page []) eq_refl).
Defined.

Abbreviation fetched_A :=
  (page_of (_load_attributes (Site0 := anonymous) None plain_page_A
              [pages 1 (entry "A" 0 false "Text of A")])).

Lemma get_creator_cached_witness :
  _exists fetched_A = Exists
  ∧ truthy_opt (_creator fetched_A) = true
  ∧ get_creator (Site0 := anonymous) (λ user, mret user) 2 fetched_A []
    = (Returned (Some "Alice"), fetched_A, [], []).
Proof.
  split; [reflexivity|]. split; [reflexivity|].
  exact (proj1 (proj2 (proj2 (get_creator_cached (Site0 := anonymous)
                                (λ user, mret user) 2 fetched_A [])))
           eq_refl eq_refl).
Defined.

End MoreWitnesses.
